(** * The drime backend of rclone: path resolution, caches and retry policy

    A shallow embedding of [backend/drime]: the REST client ([api.go] and its
    later revision with the 422 reconciliation), the two revisions of the
    filesystem object ([drime.go]: one with a single [dirCache] and a
    [mkdirCache] of [sync.Once] gates, one with a [pathCache] and an
    [entryCache]) and the two revisions of [Object].

    The remote service is a script: the list of outcomes of the successive
    HTTP round trips, consumed in order, together with the trace of the
    requests sent.  Every function of the embedding is a state transformer
    over that script and over the caches of the [Fs]. *)

From Stdlib Require Import ZArith String Ascii List Bool Lia.
From stdpp Require Import base option list gmap strings.

Import ListNotations.
Local Open Scope Z_scope.
Local Open Scope string_scope.

(** ** Go's [strings] and [path] functions used by the backend *)

Module GoStrings.

Definition slash : ascii := "/"%char.

(** [strings.HasPrefix s p]. *)
Definition HasPrefix (s p : string) : bool := String.prefix p s.

Fixpoint dropChars (n : nat) (s : string) : string :=
  match n, s with
  | O, _ => s
  | S n', String _ s' => dropChars n' s'
  | S _, EmptyString => EmptyString
  end.

(** [strings.TrimPrefix s p]. *)
Definition TrimPrefix (s p : string) : string :=
  if HasPrefix s p then dropChars (String.length p) s else s.

Fixpoint trimLeftSlash (s : string) : string :=
  match s with
  | String c s' => if Ascii.eqb c slash then trimLeftSlash s' else s
  | EmptyString => EmptyString
  end.

Fixpoint trimRightSlash (s : string) : string :=
  match s with
  | EmptyString => EmptyString
  | String c s' =>
      match trimRightSlash s' with
      | EmptyString => if Ascii.eqb c slash then EmptyString else String c EmptyString
      | t => String c t
      end
  end.

(** [strings.Trim s "/"]. *)
Definition Trim (s : string) : string := trimRightSlash (trimLeftSlash s).

(** [strings.Split s "/"]: never empty, [Split "" = [""]]. *)
Fixpoint Split (s : string) : list string :=
  match s with
  | EmptyString => [EmptyString]
  | String c s' =>
      if Ascii.eqb c slash then EmptyString :: Split s'
      else match Split s' with
           | hd :: tl => String c hd :: tl
           | [] => [String c EmptyString]
           end
  end.

(** [strings.Join parts "/"]. *)
Fixpoint Join (parts : list string) : string :=
  match parts with
  | [] => EmptyString
  | [p] => p
  | p :: rest => p ++ "/" ++ Join rest
  end.

End GoStrings.

Module GoPath.
Import GoStrings.

(** The segments kept by [path.Clean]: empty and ["."] segments vanish, a
    [".."] removes the segment before it when there is one to remove; at
    the start it is kept in a relative path and dropped in a rooted one.
    [out] is the stack of kept segments, last one first. *)
Fixpoint cleanSegs (rooted : bool) (segs : list string) (out : list string) : list string :=
  match segs with
  | [] => rev out
  | seg :: rest =>
      if String.eqb seg "" || String.eqb seg "." then cleanSegs rooted rest out
      else if String.eqb seg ".." then
        match out with
        | top :: out' =>
            if String.eqb top ".." then cleanSegs rooted rest (seg :: out)
            else cleanSegs rooted rest out'
        | [] => if rooted then cleanSegs rooted rest out
                else cleanSegs rooted rest (seg :: out)
        end
      else cleanSegs rooted rest (seg :: out)
  end.

(** [path.Clean]. *)
Definition Clean (p : string) : string :=
  match p with
  | EmptyString => "."
  | String c _ =>
      let rooted := Ascii.eqb c slash in
      let kept := Join (cleanSegs rooted (Split p) []) in
      if rooted then "/" ++ kept
      else if String.eqb kept "" then "." else kept
  end.

(** [path.Join a b] for the two-element calls of the backend. *)
Definition Join2 (a b : string) : string :=
  if String.eqb a "" && String.eqb b "" then ""
  else if String.eqb a "" then Clean b
  else Clean (a ++ "/" ++ b).

(** [path.Split]: the text up to and including the last slash, and the
    text after it. *)
Fixpoint SplitLast (p : string) : string * string :=
  match p with
  | EmptyString => (EmptyString, EmptyString)
  | String c p' =>
      let '(d, f) := SplitLast p' in
      match d with
      | EmptyString =>
          if Ascii.eqb c slash then (String c EmptyString, f)
          else (EmptyString, String c f)
      | _ => (String c d, f)
      end
  end.

(** [path.Dir]. *)
Definition Dir (p : string) : string := Clean (fst (SplitLast p)).

(** [path.Base]. *)
Definition Base (p : string) : string :=
  match p with
  | EmptyString => "."
  | _ =>
      match snd (SplitLast (trimRightSlash p)) with
      | EmptyString => "/"
      | b => b
      end
  end.

End GoPath.

(** ** Data model ([api.go]) *)

(** Go [error] values the backend produces or passes on. *)
Inductive error : Type :=
  | ErrorObjectNotFound
  | ErrorDirNotFound
  | ErrorIsFile
  | ErrorIsDir
  | ErrorDirectoryNotEmpty
  | ErrorCantCopy
  | ErrorCantMove
  | ErrorCantDirMove
  | ErrHTTP (msg : string)                 (* an error returned by the REST client *)
  | ErrWrap (prefix : string) (e : error). (* fmt.Errorf("prefix: %w", e) *)

Inductive result (A : Type) : Type :=
  | Ok (a : A)
  | Err (e : error).
Arguments Ok {A} a.
Arguments Err {A} e.

(** [FileEntry]; ids and sizes are [int64], the time is kept as seconds. *)
Record FileEntry : Type := mkFileEntry {
  ID : Z;
  Name : string;
  Type_ : string;
  FileSize : Z;
  FileHash : option string;
  UpdatedAt : Z;
  ParentID : option Z;
  URL : string
}.

(** The zero value of a [FileEntry] variable. *)
Definition zeroEntry : FileEntry :=
  mkFileEntry 0 "" "" 0 None 0 None "".

Record ListEntriesResponse : Type := mkListEntriesResponse {
  Data : list FileEntry;
  CurrentPage : Z;
  LastPage : Z
}.

Definition zeroListEntriesResponse : ListEntriesResponse :=
  mkListEntriesResponse [] 0 0.

Record CreateFolderResponse : Type := mkCreateFolderResponse {
  Folder : FileEntry
}.

Definition zeroCreateFolderResponse : CreateFolderResponse :=
  mkCreateFolderResponse zeroEntry.

(** ** The remote service as a script *)

(** The requests of the REST client, as they go on the wire. *)
Inductive Request : Type :=
  | ReqList (parentID : option Z) (page : Z)       (* GET /drive/file-entries *)
  | ReqGet (id : Z)                                (* GET /file-entries/{id} *)
  | ReqCreateFolder (name : string) (parentID : Z) (* POST /folders *)
  | ReqDelete (ids : list Z) (permanent : bool)    (* POST /file-entries/delete *)
  | ReqRename (id : Z) (newName : string)          (* PUT /file-entries/{id} *)
  | ReqMove (ids : list Z) (destinationID : Z)     (* POST /file-entries/move *)
  | ReqDownload (url : string).                    (* GET url *)

(** A decoded JSON body. *)
Inductive Body : Type :=
  | BodyNone
  | BodyList (r : ListEntriesResponse)
  | BodyFolder (r : CreateFolderResponse)
  | BodyEntry (e : FileEntry).

(** The outcome of one round trip, as [srv.CallJSON] hands it to the caller:
    [respStatus] is [None] for a nil [*http.Response] and the status code
    otherwise, [callErr] the returned error, [body] what the JSON decoder
    would produce, and [ctxDone] whether [ctx.Err()] is non-nil when the
    outcome is classified. *)
Record Attempt : Type := mkAttempt {
  respStatus : option Z;
  callErr : option error;
  body : Body;
  ctxDone : bool
}.

(** What happens on the wire and on the clock: a request with the outcome
    it got, or a [time.Sleep]. *)
Inductive Event : Type :=
  | EvCall (r : Request) (a : Attempt)
  | EvSleep (milliseconds : Z).

Record Net : Type := mkNet {
  script : list Attempt;
  trace : list Event
}.

(** What a round trip yields once the script is used up: no response and a
    connection error. *)
Definition connectionLost : Attempt :=
  mkAttempt None (Some (ErrHTTP "connection lost")) BodyNone false.

Definition logEvent (ev : Event) (n : Net) : Net :=
  mkNet (script n) (trace n ++ [ev]).

(** One HTTP round trip. *)
Definition roundTrip (r : Request) (n : Net) : Attempt * Net :=
  match script n with
  | a :: rest => (a, mkNet rest (trace n ++ [EvCall r a]))
  | [] => (connectionLost, mkNet [] (trace n ++ [EvCall r connectionLost]))
  end.

(** The requests of a trace, in the order sent. *)
Definition requests (t : list Event) : list Request :=
  omap (fun ev => match ev with EvCall r _ => Some r | EvSleep _ => None end) t.

(** ** Retry classification and the pacer *)

(** [shouldRetry] (identical in both revisions of [api.go]). *)
Definition shouldRetry (ctxErr : bool) (resp : option Z) (err : option error)
  : bool * option error :=
  match err with
  | Some _ =>
      if ctxErr then (false, err)
      else (true, err)
  | None =>
      if match resp with
         | Some code => (code =? 429)%Z || (500 <=? code)%Z
         | None => false
         end
      then (true, err)
      else
        match resp with
        | Some code =>
            if (code =? 401)%Z || (code =? 403)%Z || (code =? 404)%Z || (code =? 422)%Z
            then (false, err)
            else (false, err)
        | None => (false, err)
        end
  end.

(** The variables a paced closure captures: the last [httpResp] and the
    response struct being decoded into. *)
Record Captured (B : Type) : Type := mkCaptured {
  httpResp : option Z;
  resp : B
}.
Arguments mkCaptured {B} httpResp resp.
Arguments httpResp {B} c.
Arguments resp {B} c.

Definition Paced (B : Type) : Type :=
  Captured B -> Net -> (bool * option error) * Captured B * Net.

(** Modelled from the spec: [lib/pacer] is not among the sources.  The spec
    has it wrap every remote call in a retry loop driven by the classifier,
    surfacing the last error when it stops; [retries] bounds the number of
    attempts (rclone's low level retries). *)
Fixpoint pacerLoop {B} (retries : nat) (fn : Paced B) (err : option error)
    (c : Captured B) (n : Net) : option error * Captured B * Net :=
  match retries with
  | O => (err, c, n)
  | S k =>
      let '((retry, err'), c', n') := fn c n in
      if retry then pacerLoop k fn err' c' n' else (err', c', n')
  end.

Definition pacerCall {B} (retries : nat) (fn : Paced B) (c : Captured B) (n : Net)
  : option error * Captured B * Net :=
  pacerLoop retries fn None c n.

(** [httpResp, err = c.srv.CallJSON(ctx, &opts, req, &resp)]: the response
    struct is decoded into only when the call returned no error. *)
Definition CallJSON {B} (decode : Body -> B -> B) (rq : Request)
    (c : Captured B) (n : Net) : Attempt * Captured B * Net :=
  let '(a, n') := roundTrip rq n in
  let resp' := match callErr a with
               | None => decode (body a) (resp c)
               | Some _ => resp c
               end in
  (a, mkCaptured (respStatus a) resp', n').

(** The closure of every call site but [createFolder]:
    [return shouldRetry(ctx, httpResp, err)]. *)
Definition pacedJSON {B} (decode : Body -> B -> B) (rq : Request) : Paced B :=
  fun c n =>
    let '(a, c', n') := CallJSON decode rq c n in
    (shouldRetry (ctxDone a) (httpResp c') (callErr a), c', n').

Definition decodeList (b : Body) (old : ListEntriesResponse) : ListEntriesResponse :=
  match b with BodyList r => r | _ => old end.

Definition decodeFolder (b : Body) (old : CreateFolderResponse) : CreateFolderResponse :=
  match b with BodyFolder r => r | _ => old end.

Definition decodeEntry (b : Body) (old : FileEntry) : FileEntry :=
  match b with BodyEntry e => e | _ => old end.

Definition decodeNothing (b : Body) (old : unit) : unit := old.

(** The two revisions of the REST client among the sources. *)
Inductive ApiRevision : Type :=
  | ApiGo      (* src/backend/drime/api.go *)
  | ApiPart0.  (* src/unnamed/part_000: createFolder reconciles a 422 *)

(** [apiClient]: the revision in use and the pacer's bound on attempts. *)
Record apiClient : Type := mkApiClient {
  revision : ApiRevision;
  lowLevelRetries : nat
}.

(** ** The REST client *)

(** The scan [for i := range entries { if entries[i].Name == name &&
    entries[i].Type == "folder" { return &entries[i], nil } }]. *)
Definition findFolder (name : string) (entries : list FileEntry) : option FileEntry :=
  List.find (fun e => String.eqb (Name e) name && String.eqb (Type_ e) "folder") entries.

(** The closure of [createFolder]: a 422 is handed back without asking
    [shouldRetry]. *)
Definition pacedCreate (rq : Request) : Paced CreateFolderResponse :=
  fun c n =>
    let '(a, c', n') := CallJSON decodeFolder rq c n in
    if match httpResp c' with
       | Some code => (code =? 422)%Z
       | None => false
       end
    then ((false, callErr a), c', n')
    else (shouldRetry (ctxDone a) (httpResp c') (callErr a), c', n').

(** The value given back should the page loop outlive its fuel; the fuel
    [listEntries] passes is never used up (lemma [listPages_fuel]). *)
Definition fuelSpent : error := ErrHTTP "page loop out of fuel".

(** [api.go] *)
Module Api_go.

(** The loop [for page := 1; ; page++] of [listEntries]. *)
Fixpoint listPages (fuel : nat) (retries : nat) (parentID : option Z) (page : Z)
    (allEntries : list FileEntry) (n : Net) : result (list FileEntry) * Net :=
  match fuel with
  | O => (Err fuelSpent, n)
  | S fuel' =>
      let '(err, cap, n1) :=
        pacerCall retries (pacedJSON decodeList (ReqList parentID page))
          (mkCaptured None zeroListEntriesResponse) n in
      match err with
      | Some e => (Err (ErrWrap "list failed" e), n1)
      | None =>
          let allEntries' := (allEntries ++ Data (resp cap))%list in
          if (CurrentPage (resp cap) >=? LastPage (resp cap))%Z
          then (Ok allEntries', n1)
          else listPages fuel' retries parentID (page + 1) allEntries' n1
      end
  end.

Definition listEntries (retries : nat) (parentID : option Z) (n : Net)
  : result (list FileEntry) * Net :=
  listPages (S (length (script n))) retries parentID 1 [] n.

Definition createFolder (retries : nat) (name : string) (parentID : Z) (n : Net)
  : result FileEntry * Net :=
  let '(listed, n1) := listEntries retries (Some parentID) n in
  match match listed with
        | Ok entries => findFolder name entries
        | Err _ => None
        end with
  | Some e => (Ok e, n1)
  | None =>
      let '(err, cap, n2) :=
        pacerCall retries (pacedCreate (ReqCreateFolder name parentID))
          (mkCaptured None zeroCreateFolderResponse) n1 in
      match err with
      | Some e => (Err (ErrWrap "create folder failed" e), n2)
      | None => (Ok (Folder (resp cap)), n2)
      end
  end.

End Api_go.

(** [src/unnamed/part_000] *)
Module Part0.

(** The loop [for { ...; if page >= resp.LastPage { break }; page++ }]. *)
Fixpoint listPages (fuel : nat) (retries : nat) (parentID : option Z) (page : Z)
    (allEntries : list FileEntry) (n : Net) : result (list FileEntry) * Net :=
  match fuel with
  | O => (Err fuelSpent, n)
  | S fuel' =>
      let '(err, cap, n1) :=
        pacerCall retries (pacedJSON decodeList (ReqList parentID page))
          (mkCaptured None zeroListEntriesResponse) n in
      match err with
      | Some e => (Err e, n1)
      | None =>
          let allEntries' := (allEntries ++ Data (resp cap))%list in
          if (page >=? LastPage (resp cap))%Z
          then (Ok allEntries', n1)
          else listPages fuel' retries parentID (page + 1) allEntries' n1
      end
  end.

Definition listEntries (retries : nat) (parentID : option Z) (n : Net)
  : result (list FileEntry) * Net :=
  listPages (S (length (script n))) retries parentID 1 [] n.

(** The loop [for attempt := 0; attempt < 3; attempt++] run after a 422;
    [left] counts the iterations still to run. *)
Fixpoint searchAfter422 (left : nat) (attempt : Z) (retries : nat) (name : string)
    (checkParentID : option Z) (n : Net) : option FileEntry * Net :=
  match left with
  | O => (None, n)
  | S left' =>
      let n0 := if (attempt >? 0)%Z then logEvent (EvSleep 500) n else n in
      let '(listed, n1) := listEntries retries checkParentID n0 in
      match match listed with
            | Ok entries => findFolder name entries
            | Err _ => None
            end with
      | Some e => (Some e, n1)
      | None => searchAfter422 left' (attempt + 1) retries name checkParentID n1
      end
  end.

Definition createFolder (retries : nat) (name : string) (parentID : Z) (n : Net)
  : result FileEntry * Net :=
  let checkParentID := if (parentID =? 0)%Z then None else Some parentID in
  let '(listed, n1) := listEntries retries checkParentID n in
  match match listed with
        | Ok entries => findFolder name entries
        | Err _ => None
        end with
  | Some e => (Ok e, n1)
  | None =>
      let '(err, cap, n2) :=
        pacerCall retries (pacedCreate (ReqCreateFolder name parentID))
          (mkCaptured None zeroCreateFolderResponse) n1 in
      match err, httpResp cap with
      | Some e, Some code =>
          if (code =? 422)%Z then
            match searchAfter422 3 0 retries name checkParentID n2 with
            | (Some found, n3) => (Ok found, n3)
            | (None, n3) => (Err (ErrWrap "create folder failed" e), n3)
            end
          else (Err (ErrWrap "create folder failed" e), n2)
      | Some e, None => (Err (ErrWrap "create folder failed" e), n2)
      | None, _ => (Ok (Folder (resp cap)), n2)
      end
  end.

End Part0.

(** The methods of [apiClient]. *)

Definition listEntries (c : apiClient) (parentID : option Z) (n : Net)
  : result (list FileEntry) * Net :=
  match revision c with
  | ApiGo => Api_go.listEntries (lowLevelRetries c) parentID n
  | ApiPart0 => Part0.listEntries (lowLevelRetries c) parentID n
  end.

Definition createFolder (c : apiClient) (name : string) (parentID : Z) (n : Net)
  : result FileEntry * Net :=
  match revision c with
  | ApiGo => Api_go.createFolder (lowLevelRetries c) name parentID n
  | ApiPart0 => Part0.createFolder (lowLevelRetries c) name parentID n
  end.

Definition getEntry (c : apiClient) (id : Z) (n : Net) : result FileEntry * Net :=
  let '(err, cap, n1) :=
    pacerCall (lowLevelRetries c) (pacedJSON decodeEntry (ReqGet id))
      (mkCaptured None zeroEntry) n in
  match err with
  | Some e => (Err e, n1)
  | None => (Ok (resp cap), n1)
  end.

Definition deleteEntries (c : apiClient) (ids : list Z) (permanent : bool) (n : Net)
  : option error * Net :=
  let '(err, _, n1) :=
    pacerCall (lowLevelRetries c) (pacedJSON decodeNothing (ReqDelete ids permanent))
      (mkCaptured None tt) n in
  match err with
  | Some e => (Some (ErrWrap "delete failed" e), n1)
  | None => (None, n1)
  end.

Definition renameEntry (c : apiClient) (id : Z) (newName : string) (n : Net)
  : result FileEntry * Net :=
  let '(err, cap, n1) :=
    pacerCall (lowLevelRetries c) (pacedJSON decodeEntry (ReqRename id newName))
      (mkCaptured None zeroEntry) n in
  match err with
  | Some e => (Err (ErrWrap "rename failed" e), n1)
  | None => (Ok (resp cap), n1)
  end.

Definition moveEntries (c : apiClient) (ids : list Z) (destinationID : Z) (n : Net)
  : option error * Net :=
  let '(err, _, n1) :=
    pacerCall (lowLevelRetries c) (pacedJSON decodeNothing (ReqMove ids destinationID))
      (mkCaptured None tt) n in
  match err with
  | Some e => (Some (ErrWrap "move failed" e), n1)
  | None => (None, n1)
  end.

Definition apiBaseURL : string := "https://app.drime.cloud/api/v1".

(** The value of the local [downloadURL] of [download] when the request is
    built, as a function of [entry.URL]. *)
Definition downloadURL (entryURL : string) : string :=
  if negb (GoStrings.HasPrefix entryURL "http://")
     && negb (GoStrings.HasPrefix entryURL "https://")
  then
    let relative := GoStrings.TrimPrefix entryURL "/" in
    if GoStrings.HasPrefix relative "api/"
    then "https://app.drime.cloud/" ++ relative
    else apiBaseURL ++ "/" ++ relative
  else entryURL.

(** [download]: the body stream is not modelled, the result is the error. *)
Definition download (c : apiClient) (entry : FileEntry) (n : Net) : option error * Net :=
  let '(err, _, n1) :=
    pacerCall (lowLevelRetries c) (pacedJSON decodeNothing (ReqDownload (downloadURL (URL entry))))
      (mkCaptured None tt) n in
  match err with
  | Some e => (Some (ErrWrap "download failed" e), n1)
  | None => (None, n1)
  end.

(** ** Objects *)

(** [Object], less its back pointer to the [Fs]. *)
Record Object : Type := mkObject {
  objRemote : string;
  objID : Z;
  objSize : Z;
  objModTime : Z
}.

(** An [fs.Object] handed to [Move]: one of this backend or not. *)
Inductive fsObject : Type :=
  | DrimeObject (o : Object)
  | ForeignObject.

(** An element of [fs.DirEntries]. *)
Inductive DirEntry : Type :=
  | EntryDir (remote : string) (modTime : Z) (id : Z)
  | EntryObject (o : Object).

(** [setMetadata]. *)
Definition setMetadata (o : Object) (entry : FileEntry) : Object :=
  mkObject (objRemote o) (ID entry) (FileSize entry) (UpdatedAt entry).

(** How a call that may block on a [sync.Once] or recurse ends. *)
Inductive Run (A : Type) : Type :=
  | Returns (a : A)
  | Deadlock
  | OutOfFuel.
Arguments Returns {A} a.
Arguments Deadlock {A}.
Arguments OutOfFuel {A}.

(** ** [drime.go], the revision with [dirCache] and [mkdirCache]
    (the first document of [src/backend/drime/drime.go]), with the [Object]
    of [src/unnamed/part_002] *)

Module DirCacheFs.
Import GoStrings GoPath.

(** A [sync.Once]: not yet run, running its function, or done. *)
Inductive Once : Type := OnceFresh | OnceRunning | OnceDone.

Record Fs : Type := mkFs {
  root : string;
  api : apiClient;
  dirCache : gmap string FileEntry;
  mkdirCache : gmap string Once
}.

Definition setDirCache (f : Fs) (m : gmap string FileEntry) : Fs :=
  mkFs (root f) (api f) m (mkdirCache f).

Definition setMkdirCache (f : Fs) (m : gmap string Once) : Fs :=
  mkFs (root f) (api f) (dirCache f) m.

(** The [Fs] value that [NewFs] builds, before it probes the root. *)
Definition newFs (root : string) (c : apiClient) : Fs :=
  mkFs (Trim root) c ∅ ∅.

Definition addDirCacheEntry (absPath : string) (entry : FileEntry) (f : Fs) : Fs :=
  if negb (String.eqb (Type_ entry) "folder") then f
  else setDirCache f (<[absPath := entry]> (dirCache f)).

(** The loop [for i, part := range parts] of [findEntry]; [walked] is
    [parts[:i]] and [ahead] is [parts[i:]]. *)
Fixpoint walk (remotePath : string) (walked ahead : list string) (currentID : Z)
    (f : Fs) (n : Net) : result FileEntry * Fs * Net :=
  match ahead with
  | [] => (Err ErrorObjectNotFound, f, n)
  | part :: ahead' =>
      let currentPath := Join (walked ++ [part]) in
      match dirCache f !! currentPath with
      | Some cachedEntry =>
          walk remotePath (walked ++ [part]) ahead' (ID cachedEntry) f n
      | None =>
          let parentID := match walked with
                          | [] => None
                          | _ :: _ => Some currentID
                          end in
          let '(listed, n1) := listEntries (api f) parentID n in
          match listed with
          | Err e => (Err e, f, n1)
          | Ok entries =>
              match List.find (fun e => String.eqb (Name e) part) entries with
              | Some e =>
                  let f1 := if String.eqb (Type_ e) "folder"
                            then addDirCacheEntry currentPath e f
                            else f in
                  if String.eqb currentPath remotePath then (Ok e, f1, n1)
                  else walk remotePath (walked ++ [part]) ahead' (ID e) f1 n1
              | None => (Err ErrorObjectNotFound, f, n1)
              end
          end
      end
  end.

(** The entry [findEntry] makes up for the root. *)
Definition rootEntry : FileEntry :=
  mkFileEntry 0 "" "folder" 0 None 0 None "".

Definition findEntry (remotePath : string) (f : Fs) (n : Net)
  : result FileEntry * Fs * Net :=
  let remotePath := Trim remotePath in
  if String.eqb remotePath "" then (Ok rootEntry, f, n)
  else
    match dirCache f !! remotePath with
    | Some entry => (Ok entry, f, n)
    | None => walk remotePath [] (Split remotePath) 0 f n
    end.

(** [NewFs], for a configured token (no login): the new [Fs], then the
    probe of the root; a root that is a file moves the root to its parent
    and is reported as [ErrorIsFile]. *)
Definition NewFs (root : string) (c : apiClient) (n : Net) : option error * Fs * Net :=
  let f := newFs root c in
  if negb (String.eqb (DirCacheFs.root f) "") then
    let '(found, f1, n1) := findEntry (DirCacheFs.root f) f n in
    match found with
    | Ok entry =>
        if negb (String.eqb (Type_ entry) "folder") then
          let newRoot := Dir (DirCacheFs.root f1) in
          let newRoot := if String.eqb newRoot "." then "" else newRoot in
          (Some ErrorIsFile, mkFs newRoot (api f1) (dirCache f1) (mkdirCache f1), n1)
        else (None, f1, n1)
    | Err _ => (None, f1, n1)
    end
  else (None, f, n).

(** The loop [for i := range fileEntries] of [List]. *)
Fixpoint listLoop (dir : string) (fileEntries : list FileEntry)
    (entries : list DirEntry) (f : Fs) : list DirEntry * Fs :=
  match fileEntries with
  | [] => (entries, f)
  | entry :: rest =>
      let remote := Join2 dir (Name entry) in
      if String.eqb (Type_ entry) "folder" then
        let fullPath := Join2 (root f) remote in
        listLoop dir rest
          (entries ++ [EntryDir remote (UpdatedAt entry) (ID entry)])
          (addDirCacheEntry fullPath entry f)
      else
        listLoop dir rest
          (entries ++ [EntryObject (mkObject remote (ID entry) (FileSize entry) (UpdatedAt entry))])
          f
  end.

Definition List (dir : string) (f : Fs) (n : Net)
  : result (list DirEntry) * Fs * Net :=
  let dirPath := Join2 (root f) dir in
  let '(parent, f1, n1) :=
    if negb (String.eqb dirPath "") then
      let '(found, f1, n1) := findEntry dirPath f n in
      match found with
      | Err _ => (Err ErrorDirNotFound, f1, n1)
      | Ok entry =>
          if negb (String.eqb (Type_ entry) "folder") then (Err ErrorIsFile, f1, n1)
          else (Ok (Some (ID entry)), f1, n1)
      end
    else (Ok None, f, n) in
  match parent with
  | Err e => (Err e, f1, n1)
  | Ok parentID =>
      let '(listed, n2) := listEntries (api f1) parentID n1 in
      match listed with
      | Err e => (Err e, f1, n2)
      | Ok fileEntries =>
          let '(entries, f2) := listLoop dir fileEntries [] f1 in
          (Ok entries, f2, n2)
      end
  end.

(** [mkdir], with the recursive call of [Mkdir] abstracted as [MkdirRec]. *)
Definition mkdir (MkdirRec : string -> Fs -> Net -> Run (option error) * Fs * Net)
    (dirPath : string) (f : Fs) (n : Net) : Run (option error) * Fs * Net :=
  let '(found, f1, n1) := findEntry dirPath f n in
  match found with
  | Ok _ => (Returns None, f1, n1)
  | Err ErrorObjectNotFound =>
      let parentPath := Dir dirPath in
      let '(parent, f2, n2) :=
        if negb (String.eqb parentPath "") && negb (String.eqb parentPath ".") then
          match MkdirRec (TrimPrefix parentPath (root f1 ++ "/")) f1 n1 with
          | (Returns None, f2, n2) =>
              let '(parentEntry, f3, n3) := findEntry parentPath f2 n2 in
              match parentEntry with
              | Err findErr => (Returns (Err findErr), f3, n3)
              | Ok e => (Returns (Ok (ID e)), f3, n3)
              end
          | (Returns (Some err), f2, n2) => (Returns (Err err), f2, n2)
          | (Deadlock, f2, n2) => (Deadlock, f2, n2)
          | (OutOfFuel, f2, n2) => (OutOfFuel, f2, n2)
          end
        else (Returns (Ok 0%Z), f1, n1) in
      match parent with
      | Deadlock => (Deadlock, f2, n2)
      | OutOfFuel => (OutOfFuel, f2, n2)
      | Returns (Err e) => (Returns (Some e), f2, n2)
      | Returns (Ok parentID) =>
          let name := Base dirPath in
          let '(created, n3) := createFolder (api f2) name parentID n2 in
          match created with
          | Err createErr =>
              let '(again, f4, n4) := findEntry dirPath f2 n3 in
              match again with
              | Ok entry => (Returns None, addDirCacheEntry dirPath entry f4, n4)
              | Err _ => (Returns (Some createErr), f4, n4)
              end
          | Ok entry =>
              (Returns None, setDirCache f2 (<[dirPath := entry]> (dirCache f2)), n3)
          end
      end
  | Err err => (Returns (Some err), f1, n1)
  end.

(** [Mkdir]: [LoadOrStore] of the gate for [dirPath], then [once.Do].  A
    gate found done returns at once, with the caller's own nil [err]; a
    gate found running belongs to a caller further up the same call
    chain, which [once.Do] would wait for forever. *)
Fixpoint Mkdir (fuel : nat) (dir : string) (f : Fs) (n : Net)
  : Run (option error) * Fs * Net :=
  match fuel with
  | O => (OutOfFuel, f, n)
  | S fuel' =>
      let dirPath := Join2 (root f) dir in
      if String.eqb dirPath "" || String.eqb dirPath "." then (Returns None, f, n)
      else
        let '(once, f1) :=
          match mkdirCache f !! dirPath with
          | Some once => (once, f)
          | None => (OnceFresh, setMkdirCache f (<[dirPath := OnceFresh]> (mkdirCache f)))
          end in
        match once with
        | OnceDone => (Returns None, f1, n)
        | OnceRunning => (Deadlock, f1, n)
        | OnceFresh =>
            let running := setMkdirCache f1 (<[dirPath := OnceRunning]> (mkdirCache f1)) in
            match mkdir (Mkdir fuel') dirPath running n with
            | (Returns err, f2, n2) =>
                (Returns err, setMkdirCache f2 (<[dirPath := OnceDone]> (mkdirCache f2)), n2)
            | stuck => stuck
            end
        end
  end.

Definition Rmdir (dir : string) (f : Fs) (n : Net) : option error * Fs * Net :=
  let dirPath := Join2 (root f) dir in
  let '(found, f1, n1) := findEntry dirPath f n in
  match found with
  | Err err => (Some err, f1, n1)
  | Ok entry =>
      if negb (String.eqb (Type_ entry) "folder") then (Some ErrorIsFile, f1, n1)
      else
        let '(listed, n2) := listEntries (api f1) (Some (ID entry)) n1 in
        match listed with
        | Err err => (Some err, f1, n2)
        | Ok entries =>
            if (0 <? length entries)%nat then (Some ErrorDirectoryNotEmpty, f1, n2)
            else
              let '(err, n3) := deleteEntries (api f1) [ID entry] true n2 in
              match err with
              | Some e => (Some e, f1, n3)
              | None => (None, setDirCache f1 (delete dirPath (dirCache f1)), n3)
              end
        end
  end.

Definition Purge (dir : string) (f : Fs) (n : Net) : option error * Fs * Net :=
  let dirPath := Join2 (root f) dir in
  let '(found, f1, n1) := findEntry dirPath f n in
  match found with
  | Err err => (Some err, f1, n1)
  | Ok entry =>
      if negb (String.eqb (Type_ entry) "folder") then (Some ErrorIsFile, f1, n1)
      else
        let '(err, n2) := deleteEntries (api f1) [ID entry] true n1 in
        (err, f1, n2)
  end.

(** [readMetadata] of [src/unnamed/part_002]. *)
Definition readMetadata (o : Object) (f : Fs) (n : Net) : result Object * Fs * Net :=
  let remotePath := Join2 (root f) (objRemote o) in
  let dirPath := Dir remotePath in
  let fileName := Base remotePath in
  let '(parent, f1, n1) :=
    if negb (String.eqb dirPath "") && negb (String.eqb dirPath ".") then
      let '(parentEntry, f1, n1) := findEntry dirPath f n in
      match parentEntry with
      | Err err => (Err err, f1, n1)
      | Ok e => (Ok (Some (ID e)), f1, n1)
      end
    else (Ok None, f, n) in
  match parent with
  | Err err => (Err err, f1, n1)
  | Ok parentID =>
      let '(listed, n2) := listEntries (api f1) parentID n1 in
      match listed with
      | Err err => (Err err, f1, n2)
      | Ok entries =>
          match List.find (fun e => String.eqb (Name e) fileName
                                    && negb (String.eqb (Type_ e) "folder")) entries with
          | Some e => (Ok (setMetadata o e), f1, n2)
          | None => (Err ErrorObjectNotFound, f1, n2)
          end
      end
  end.

(** [NewObject]: the object is of use to the caller only with a nil error. *)
Definition NewObject (remote : string) (f : Fs) (n : Net) : result Object * Fs * Net :=
  readMetadata (mkObject remote 0 0 0) f n.

(** [Object.Remove] of [src/unnamed/part_002]. *)
Definition Remove (o : Object) (f : Fs) (n : Net) : option error * Fs * Net :=
  let '(err, n1) := deleteEntries (api f) [objID o] true n in
  (err, f, n1).

(** The first half of [Move]: resolve the destination parent and call
    [moveEntries]. *)
Definition moveToParent (id : Z) (dstPath : string) (f : Fs) (n : Net)
  : option error * Fs * Net :=
  let dstParentPath := Dir dstPath in
  let '(parent, f1, n1) :=
    if negb (String.eqb dstParentPath "") && negb (String.eqb dstParentPath ".") then
      let '(parentEntry, f1, n1) := findEntry dstParentPath f n in
      match parentEntry with
      | Err err => (Err err, f1, n1)
      | Ok e => (Ok (ID e), f1, n1)
      end
    else (Ok 0%Z, f, n) in
  match parent with
  | Err err => (Some err, f1, n1)
  | Ok dstParentID =>
      let '(err, n2) := moveEntries (api f1) [id] dstParentID n1 in
      (err, f1, n2)
  end.

Definition Move (src : fsObject) (remote : string) (f : Fs) (n : Net)
  : result Object * Fs * Net :=
  match src with
  | ForeignObject => (Err ErrorCantMove, f, n)
  | DrimeObject srcObj =>
      let dstPath := Join2 (root f) remote in
      match moveToParent (objID srcObj) dstPath f n with
      | (Some err, f1, n1) => (Err err, f1, n1)
      | (None, f1, n1) =>
          let dstName := Base dstPath in
          let '(renamed, n2) :=
            if negb (String.eqb dstName (Base (objRemote srcObj)))
            then
              let '(r, n2) := renameEntry (api f1) (objID srcObj) dstName n1 in
              (match r with Err err => Some err | Ok _ => None end, n2)
            else (None, n1) in
          match renamed with
          | Some err => (Err err, f1, n2)
          | None => NewObject remote f1 n2
          end
      end
  end.

(** [DirMove] with [src] this very [Fs]. *)
Definition DirMove (srcRemote dstRemote : string) (f : Fs) (n : Net)
  : option error * Fs * Net :=
  let srcPath := Join2 (root f) srcRemote in
  let dstPath := Join2 (root f) dstRemote in
  let '(found, f1, n1) := findEntry srcPath f n in
  match found with
  | Err err => (Some err, f1, n1)
  | Ok srcEntry =>
      match moveToParent (ID srcEntry) dstPath f1 n1 with
      | (Some err, f2, n2) => (Some err, f2, n2)
      | (None, f2, n2) =>
          let dstName := Base dstPath in
          if negb (String.eqb dstName (Name srcEntry)) then
            let '(r, n3) := renameEntry (api f2) (ID srcEntry) dstName n2 in
            (match r with Err err => Some err | Ok _ => None end, f2, n3)
          else (None, f2, n2)
      end
  end.

(** [Object.Open] of [src/unnamed/part_002]: the entry is fetched by id and
    its URL downloaded; the body stream is not modelled, the result is the
    error. *)
Definition Open (o : Object) (f : Fs) (n : Net) : option error * Fs * Net :=
  let '(got, n1) := getEntry (api f) (objID o) n in
  match got with
  | Err err => (Some err, f, n1)
  | Ok entry =>
      let '(err, n2) := download (api f) entry n1 in
      (err, f, n2)
  end.

End DirCacheFs.

(** ** [drime.go], the revision with [pathCache] and [entryCache]
    (the second document of [src/backend/drime/drime.go]), with the
    [Object] of [src/backend/drime/object.go] *)

Module PathCacheFs.
Import GoStrings GoPath.

Record Fs : Type := mkFs {
  root : string;
  api : apiClient;
  pathCache : gmap string Z;
  entryCache : gmap Z FileEntry;
  rootID : option Z
}.

Definition setPathCache (f : Fs) (m : gmap string Z) : Fs :=
  mkFs (root f) (api f) m (entryCache f) (rootID f).

Definition setEntryCache (f : Fs) (m : gmap Z FileEntry) : Fs :=
  mkFs (root f) (api f) (pathCache f) m (rootID f).

(** The [Fs] that [NewFs] builds, before it probes the root; [rootID] is
    left nil and nothing assigns it later. *)
Definition newFs (root : string) (c : apiClient) : Fs :=
  mkFs (Trim root) c ∅ ∅ None.

(** The loop [for _, part := range parts] of [findEntry]. *)
Fixpoint walk (parts : list string) (currentID : option Z) (f : Fs) (n : Net)
  : result (option Z) * Fs * Net :=
  match parts with
  | [] => (Ok currentID, f, n)
  | part :: parts' =>
      if String.eqb part "" then walk parts' currentID f n
      else
        let '(listed, n1) := listEntries (api f) currentID n in
        match listed with
        | Err err => (Err err, f, n1)
        | Ok entries =>
            match List.find (fun e => String.eqb (Name e) part) entries with
            | Some e =>
                walk parts' (Some (ID e))
                  (setEntryCache f (<[ID e := e]> (entryCache f))) n1
            | None => (Err ErrorObjectNotFound, f, n1)
            end
        end
  end.

Definition findEntry (remotePath : string) (f : Fs) (n : Net)
  : result FileEntry * Fs * Net :=
  match match pathCache f !! remotePath with
        | Some id => entryCache f !! id
        | None => None
        end with
  | Some entry => (Ok entry, f, n)
  | None =>
      let parts := Split (Trim remotePath) in
      let '(walked, f1, n1) := walk parts (rootID f) f n in
      match walked with
      | Err err => (Err err, f1, n1)
      | Ok None => (Err ErrorObjectNotFound, f1, n1)
      | Ok (Some currentID) =>
          match entryCache f1 !! currentID with
          | None => (Err ErrorObjectNotFound, f1, n1)
          | Some entry =>
              (Ok entry, setPathCache f1 (<[remotePath := ID entry]> (pathCache f1)), n1)
          end
      end
  end.

(** [NewFs], for a configured token (no login): the new [Fs], then the
    probe of the root; a root that is a file moves the root to its parent
    and is reported as [ErrorIsFile]. *)
Definition NewFs (root : string) (c : apiClient) (n : Net) : option error * Fs * Net :=
  let f := newFs root c in
  if negb (String.eqb (PathCacheFs.root f) "") then
    let '(found, f1, n1) := findEntry (PathCacheFs.root f) f n in
    match found with
    | Ok entry =>
        if negb (String.eqb (Type_ entry) "folder") then
          let newRoot := Dir (PathCacheFs.root f1) in
          let newRoot := if String.eqb newRoot "." then "" else newRoot in
          (Some ErrorIsFile,
           mkFs newRoot (api f1) (pathCache f1) (entryCache f1) (rootID f1), n1)
        else (None, f1, n1)
    | Err _ => (None, f1, n1)
    end
  else (None, f, n).

(** The loop [for i := range fileEntries] of [List]. *)
Fixpoint listLoop (dir : string) (fileEntries : list FileEntry)
    (entries : list DirEntry) (f : Fs) : list DirEntry * Fs :=
  match fileEntries with
  | [] => (entries, f)
  | entry :: rest =>
      let remote := Join2 dir (Name entry) in
      let f1 := setEntryCache f (<[ID entry := entry]> (entryCache f)) in
      let fullPath := Join2 (root f1) remote in
      let f2 := setPathCache f1 (<[fullPath := ID entry]> (pathCache f1)) in
      if String.eqb (Type_ entry) "folder" then
        listLoop dir rest (entries ++ [EntryDir remote (UpdatedAt entry) (ID entry)]) f2
      else
        listLoop dir rest
          (entries ++ [EntryObject (mkObject remote (ID entry) (FileSize entry) (UpdatedAt entry))])
          f2
  end.

Definition List (dir : string) (f : Fs) (n : Net)
  : result (list DirEntry) * Fs * Net :=
  let dirPath := Join2 (root f) dir in
  let '(parent, f1, n1) :=
    if negb (String.eqb dirPath "") then
      let '(found, f1, n1) := findEntry dirPath f n in
      match found with
      | Err ErrorObjectNotFound => (Err ErrorDirNotFound, f1, n1)
      | Err err => (Err err, f1, n1)
      | Ok entry =>
          if negb (String.eqb (Type_ entry) "folder") then (Err ErrorIsFile, f1, n1)
          else (Ok (Some (ID entry)), f1, n1)
      end
    else (Ok (rootID f), f, n) in
  match parent with
  | Err e => (Err e, f1, n1)
  | Ok parentID =>
      let '(listed, n2) := listEntries (api f1) parentID n1 in
      match listed with
      | Err e => (Err e, f1, n2)
      | Ok fileEntries =>
          let '(entries, f2) := listLoop dir fileEntries [] f1 in
          (Ok entries, f2, n2)
      end
  end.

Definition Mkdir (dir : string) (f : Fs) (n : Net) : option error * Fs * Net :=
  let dirPath := Join2 (root f) dir in
  let '(found, f1, n1) := findEntry dirPath f n in
  match found with
  | Ok _ => (None, f1, n1)
  | Err _ =>
      let parentPath := Dir dirPath in
      let '(parent, f2, n2) :=
        if negb (String.eqb parentPath "") && negb (String.eqb parentPath ".") then
          let '(parentEntry, f2, n2) := findEntry parentPath f1 n1 in
          match parentEntry with
          | Err err => (Err err, f2, n2)
          | Ok e => (Ok (ID e), f2, n2)
          end
        else (Ok 0%Z, f1, n1) in
      match parent with
      | Err err => (Some err, f2, n2)
      | Ok parentID =>
          let name := Base dirPath in
          let '(created, n3) := createFolder (api f2) name parentID n2 in
          match created with
          | Err err => (Some err, f2, n3)
          | Ok entry =>
              let f3 := setEntryCache f2 (<[ID entry := entry]> (entryCache f2)) in
              (None, setPathCache f3 (<[dirPath := ID entry]> (pathCache f3)), n3)
          end
      end
  end.

Definition Rmdir (dir : string) (f : Fs) (n : Net) : option error * Fs * Net :=
  let dirPath := Join2 (root f) dir in
  let '(found, f1, n1) := findEntry dirPath f n in
  match found with
  | Err err => (Some err, f1, n1)
  | Ok entry =>
      if negb (String.eqb (Type_ entry) "folder") then (Some ErrorIsFile, f1, n1)
      else
        let '(listed, n2) := listEntries (api f1) (Some (ID entry)) n1 in
        match listed with
        | Err err => (Some err, f1, n2)
        | Ok entries =>
            if (0 <? length entries)%nat then (Some ErrorDirectoryNotEmpty, f1, n2)
            else
              let '(err, n3) := deleteEntries (api f1) [ID entry] true n2 in
              match err with
              | Some e => (Some e, f1, n3)
              | None =>
                  let f2 := setPathCache f1 (delete dirPath (pathCache f1)) in
                  (None, setEntryCache f2 (delete (ID entry) (entryCache f2)), n3)
              end
        end
  end.

Definition Purge (dir : string) (f : Fs) (n : Net) : option error * Fs * Net :=
  let dirPath := Join2 (root f) dir in
  let '(found, f1, n1) := findEntry dirPath f n in
  match found with
  | Err err => (Some err, f1, n1)
  | Ok entry =>
      if negb (String.eqb (Type_ entry) "folder") then (Some ErrorIsFile, f1, n1)
      else
        let '(err, n2) := deleteEntries (api f1) [ID entry] true n1 in
        (err, f1, n2)
  end.

(** [readMetadata] of [object.go]. *)
Definition readMetadata (o : Object) (f : Fs) (n : Net) : result Object * Fs * Net :=
  let remotePath := Join2 (root f) (objRemote o) in
  let '(found, f1, n1) := findEntry remotePath f n in
  match found with
  | Err err => (Err err, f1, n1)
  | Ok entry =>
      if String.eqb (Type_ entry) "folder" then (Err ErrorIsDir, f1, n1)
      else (Ok (setMetadata o entry), f1, n1)
  end.

(** [NewObject]: the object is of use to the caller only with a nil error. *)
Definition NewObject (remote : string) (f : Fs) (n : Net) : result Object * Fs * Net :=
  readMetadata (mkObject remote 0 0 0) f n.

(** [Object.Remove] of [object.go]. *)
Definition Remove (o : Object) (f : Fs) (n : Net) : option error * Fs * Net :=
  let '(err, n1) := deleteEntries (api f) [objID o] true n in
  match err with
  | Some e => (Some e, f, n1)
  | None =>
      let remotePath := Join2 (root f) (objRemote o) in
      let f1 := setPathCache f (delete remotePath (pathCache f)) in
      (None, setEntryCache f1 (delete (objID o) (entryCache f1)), n1)
  end.

(** The first half of [Move]: resolve the destination parent and call
    [moveEntries]. *)
Definition moveToParent (id : Z) (dstPath : string) (f : Fs) (n : Net)
  : option error * Fs * Net :=
  let dstParentPath := Dir dstPath in
  let '(parent, f1, n1) :=
    if negb (String.eqb dstParentPath "") && negb (String.eqb dstParentPath ".") then
      let '(parentEntry, f1, n1) := findEntry dstParentPath f n in
      match parentEntry with
      | Err err => (Err err, f1, n1)
      | Ok e => (Ok (ID e), f1, n1)
      end
    else (Ok 0%Z, f, n) in
  match parent with
  | Err err => (Some err, f1, n1)
  | Ok dstParentID =>
      let '(err, n2) := moveEntries (api f1) [id] dstParentID n1 in
      (err, f1, n2)
  end.

Definition Move (src : fsObject) (remote : string) (f : Fs) (n : Net)
  : result Object * Fs * Net :=
  match src with
  | ForeignObject => (Err ErrorCantMove, f, n)
  | DrimeObject srcObj =>
      let dstPath := Join2 (root f) remote in
      match moveToParent (objID srcObj) dstPath f n with
      | (Some err, f1, n1) => (Err err, f1, n1)
      | (None, f1, n1) =>
          let dstName := Base dstPath in
          let '(renamed, n2) :=
            if negb (String.eqb dstName (objRemote srcObj))
            then
              let '(r, n2) := renameEntry (api f1) (objID srcObj) dstName n1 in
              (match r with Err err => Some err | Ok _ => None end, n2)
            else (None, n1) in
          match renamed with
          | Some err => (Err err, f1, n2)
          | None => NewObject remote f1 n2
          end
      end
  end.

(** [DirMove] with [src] this very [Fs]. *)
Definition DirMove (srcRemote dstRemote : string) (f : Fs) (n : Net)
  : option error * Fs * Net :=
  let srcPath := Join2 (root f) srcRemote in
  let dstPath := Join2 (root f) dstRemote in
  let '(found, f1, n1) := findEntry srcPath f n in
  match found with
  | Err err => (Some err, f1, n1)
  | Ok srcEntry =>
      match moveToParent (ID srcEntry) dstPath f1 n1 with
      | (Some err, f2, n2) => (Some err, f2, n2)
      | (None, f2, n2) =>
          let dstName := Base dstPath in
          if negb (String.eqb dstName (Name srcEntry)) then
            let '(r, n3) := renameEntry (api f2) (ID srcEntry) dstName n2 in
            (match r with Err err => Some err | Ok _ => None end, f2, n3)
          else (None, f2, n2)
      end
  end.

(** [Object.Open] of [object.go]: [readMetadata] refreshes the object, the
    entry is taken from [entryCache] under the refreshed id and its URL
    downloaded.  The object is returned as the call leaves it; the body
    stream is not modelled. *)
Definition Open (o : Object) (f : Fs) (n : Net) : option error * Object * Fs * Net :=
  let '(read, f1, n1) := readMetadata o f n in
  match read with
  | Err err => (Some err, o, f1, n1)
  | Ok o1 =>
      match entryCache f1 !! objID o1 with
      | None => (Some ErrorObjectNotFound, o1, f1, n1)
      | Some entry =>
          let '(err, n2) := download (api f1) entry n1 in
          (err, o1, f1, n2)
      end
  end.

End PathCacheFs.

(** ** Concurrent callers of [Mkdir] (revision with [mkdirCache]) *)

(** Several goroutines call [Mkdir] for one directory path.  Each is at one
    of the points of the function where it touches the shared gate; the
    body [f.mkdir] runs as one step, which loses nothing while all callers
    are callers of that path: the others can only load the gate or wait in
    [once.Do] meanwhile. *)
Module MkdirCallers.
Import DirCacheFs.
Local Open Scope nat_scope.

Inductive Caller : Type :=
  | AtLoadOrStore                      (* before mkdirCache.LoadOrStore *)
  | AtDo                               (* holds the gate, before once.Do *)
  | InBody                             (* in once.Do, running f.mkdir *)
  | Finished (r : Run (option error)). (* has returned r, or is stuck *)

Record State : Type := mkState {
  fs : Fs;
  net : Net;
  callers : list Caller;
  bodies : nat   (* how many times f.mkdir has been run for the path *)
}.

(** One step of a caller that stands at [who]. *)
Definition stepCaller (fuel : nat) (dirPath : string) (who : Caller)
    (f : Fs) (n : Net) (b : nat) : Caller * Fs * Net * nat :=
  match who with
  | AtLoadOrStore =>
      match mkdirCache f !! dirPath with
      | Some _ => (AtDo, f, n, b)
      | None => (AtDo, setMkdirCache f (<[dirPath := OnceFresh]> (mkdirCache f)), n, b)
      end
  | AtDo =>
      match mkdirCache f !! dirPath with
      | Some OnceDone => (Finished (Returns None), f, n, b)
      | Some OnceFresh =>
          (InBody, setMkdirCache f (<[dirPath := OnceRunning]> (mkdirCache f)), n, b)
      | Some OnceRunning => (AtDo, f, n, b)
      | None => (AtDo, f, n, b)
      end
  | InBody =>
      match mkdir (Mkdir fuel) dirPath f n with
      | (Returns err, f2, n2) =>
          (Finished (Returns err),
           setMkdirCache f2 (<[dirPath := OnceDone]> (mkdirCache f2)), n2, S b)
      | (stuck, f2, n2) => (Finished stuck, f2, n2, S b)
      end
  | Finished r => (Finished r, f, n, b)
  end.

(** The scheduler lets caller [i] take a step. *)
Definition step (fuel : nat) (dirPath : string) (i : nat) (st : State) : State :=
  match callers st !! i with
  | None => st
  | Some who =>
      let '(who', f', n', b') :=
        stepCaller fuel dirPath who (fs st) (net st) (bodies st) in
      mkState f' n' (<[i := who']> (callers st)) b'
  end.

Fixpoint run (fuel : nat) (dirPath : string) (schedule : list nat) (st : State) : State :=
  match schedule with
  | [] => st
  | i :: rest => run fuel dirPath rest (step fuel dirPath i st)
  end.

(** [k] callers about to enter [Mkdir]. *)
Definition start (k : nat) (f : Fs) (n : Net) : State :=
  mkState f n (replicate k AtLoadOrStore) 0.

Definition inBody (who : Caller) : nat :=
  match who with InBody => 1 | _ => 0 end.

Definition failed (who : Caller) : nat :=
  match who with
  | Finished (Returns None) => 0
  | Finished _ => 1
  | _ => 0
  end.

(** The sum of a weight over the callers. *)
Fixpoint total (w : Caller -> nat) (l : list Caller) : nat :=
  match l with
  | [] => 0
  | who :: rest => w who + total w rest
  end.

(** The gate of the path has been entered. *)
Definition entered (dirPath : string) (f : Fs) : nat :=
  match mkdirCache f !! dirPath with
  | Some OnceRunning | Some OnceDone => 1
  | _ => 0
  end.

End MkdirCallers.

(** ** Concurrent callers of [Mkdir] (revision with [pathCache]) *)

(** This [Mkdir] has no gate: its callers share the caches and the remote
    and nothing else.  A caller stands between two of its exchanges with
    the remote; each step is a stretch of the function that one goroutine
    may run without another one being scheduled. *)
Module MkdirRacers.
Import GoStrings GoPath PathCacheFs.

(** [createFolder] up to the end of its existence check: the listing of
    the parent and the scan for a folder of that name. *)
Definition checkExisting (c : apiClient) (name : string) (parentID : Z) (n : Net)
  : option FileEntry * Net :=
  let checkParentID :=
    match revision c with
    | ApiGo => Some parentID
    | ApiPart0 => if (parentID =? 0)%Z then None else Some parentID
    end in
  let '(listed, n1) := listEntries c checkParentID n in
  (match listed with
   | Ok entries => findFolder name entries
   | Err _ => None
   end, n1).

(** [createFolder] from the creation request on. *)
Definition requestFolder (c : apiClient) (name : string) (parentID : Z) (n : Net)
  : result FileEntry * Net :=
  let '(err, cap, n2) :=
    pacerCall (lowLevelRetries c) (pacedCreate (ReqCreateFolder name parentID))
      (mkCaptured None zeroCreateFolderResponse) n in
  match revision c with
  | ApiGo =>
      match err with
      | Some e => (Err (ErrWrap "create folder failed" e), n2)
      | None => (Ok (Folder (resp cap)), n2)
      end
  | ApiPart0 =>
      let checkParentID := if (parentID =? 0)%Z then None else Some parentID in
      match err, httpResp cap with
      | Some e, Some code =>
          if (code =? 422)%Z then
            match Part0.searchAfter422 3 0 (lowLevelRetries c) name checkParentID n2 with
            | (Some found, n3) => (Ok found, n3)
            | (None, n3) => (Err (ErrWrap "create folder failed" e), n3)
            end
          else (Err (ErrWrap "create folder failed" e), n2)
      | Some e, None => (Err (ErrWrap "create folder failed" e), n2)
      | None, _ => (Ok (Folder (resp cap)), n2)
      end
  end.

Inductive Caller : Type :=
  | AtResolve                     (* before findEntry(ctx, dirPath) *)
  | AtParent                      (* dirPath did not resolve; before the parent *)
  | AtCheck (parentID : Z)        (* in createFolder, before the parent is listed *)
  | AtRequest (parentID : Z)      (* in createFolder, before the creation request *)
  | AtStore (entry : FileEntry)   (* createFolder has returned entry *)
  | Finished (r : option error).  (* has returned r *)

Record State : Type := mkState {
  fs : Fs;
  net : Net;
  callers : list Caller
}.

(** One step of a caller that stands at [who]. *)
Definition stepCaller (dirPath : string) (who : Caller) (f : Fs) (n : Net)
  : Caller * Fs * Net :=
  match who with
  | AtResolve =>
      let '(found, f1, n1) := findEntry dirPath f n in
      match found with
      | Ok _ => (Finished None, f1, n1)
      | Err _ => (AtParent, f1, n1)
      end
  | AtParent =>
      let parentPath := Dir dirPath in
      if negb (String.eqb parentPath "") && negb (String.eqb parentPath ".") then
        let '(parentEntry, f2, n2) := findEntry parentPath f n in
        match parentEntry with
        | Err err => (Finished (Some err), f2, n2)
        | Ok e => (AtCheck (ID e), f2, n2)
        end
      else (AtCheck 0%Z, f, n)
  | AtCheck parentID =>
      match checkExisting (api f) (Base dirPath) parentID n with
      | (Some e, n1) => (AtStore e, f, n1)
      | (None, n1) => (AtRequest parentID, f, n1)
      end
  | AtRequest parentID =>
      match requestFolder (api f) (Base dirPath) parentID n with
      | (Err err, n1) => (Finished (Some err), f, n1)
      | (Ok entry, n1) => (AtStore entry, f, n1)
      end
  | AtStore entry =>
      let f3 := setEntryCache f (<[ID entry := entry]> (entryCache f)) in
      (Finished None, setPathCache f3 (<[dirPath := ID entry]> (pathCache f3)), n)
  | Finished r => (Finished r, f, n)
  end.

(** The scheduler lets caller [i] take a step. *)
Definition step (dirPath : string) (i : nat) (st : State) : State :=
  match callers st !! i with
  | None => st
  | Some who =>
      let '(who', f', n') := stepCaller dirPath who (fs st) (net st) in
      mkState f' n' (<[i := who']> (callers st))
  end.

Fixpoint run (dirPath : string) (schedule : list nat) (st : State) : State :=
  match schedule with
  | [] => st
  | i :: rest => run dirPath rest (step dirPath i st)
  end.

(** [k] callers about to enter [Mkdir]. *)
Definition start (k : nat) (f : Fs) (n : Net) : State :=
  mkState f n (replicate k AtResolve).

End MkdirRacers.

(** * Vocabulary of the statements *)

Local Open Scope list_scope.
Local Open Scope Z_scope.

(** ** Traces *)

(** [Adds P n n']: the run from [n] to [n'] appended events satisfying [P]
    to the trace and consumed a part of the script. *)
Definition Adds (P : Event -> Prop) (n n' : Net) : Prop :=
  exists evs,
    trace n' = (trace n ++ evs)%list /\ Forall P evs /\
    (length (script n') <= length (script n))%nat.

Definition callOf (rq : Request) (ev : Event) : Prop := exists a, ev = EvCall rq a.

Definition isListEvent (ev : Event) : Prop := exists parentID page a, ev = EvCall (ReqList parentID page) a.

(** A closure that does one [CallJSON] of [rq] per attempt. *)
Definition singleCall {B} (rq : Request) (fn : Paced B) : Prop :=
  forall c n, Adds (callOf rq) n (snd (fn c n)).

Definition listOf (parentID : option Z) (ev : Event) : Prop :=
  exists page a, ev = EvCall (ReqList parentID page) a.

(** ** Replies of the remote *)

(** An attempt answered with [status] and the error the REST client makes of
    a status outside 2xx. *)
Definition httpError (status : Z) (msg : string) : Attempt :=
  mkAttempt (Some status) (Some (ErrHTTP msg)) BodyNone false.

(** An attempt answered 200 with [b] as its body. *)
Definition answered (b : Body) : Attempt :=
  mkAttempt (Some 200) None b false.

(** The server's answer to a page request: status 200 and the page. *)
Definition pageReply (r : ListEntriesResponse) : Attempt := answered (BodyList r).

(** The requests for the pages [page], [page + 1], ... met by [pages]. *)
Fixpoint pageEvents (parentID : option Z) (page : Z) (pages : list ListEntriesResponse)
  : list Event :=
  match pages with
  | [] => []
  | r :: rest => EvCall (ReqList parentID page) (pageReply r) :: pageEvents parentID (page + 1) rest
  end.

(** The server numbers the pages it returns from [page] on. *)
Fixpoint numberedFrom (page : Z) (pages : list ListEntriesResponse) : Prop :=
  match pages with
  | [] => True
  | r :: rest => CurrentPage r = page /\ numberedFrom (page + 1) rest
  end.

(** [count] entries, with ids from [first] on. *)
Fixpoint someEntries (first : Z) (count : nat) : list FileEntry :=
  match count with
  | O => []
  | S k => mkFileEntry first "f" "text" 1 None 0 None "" :: someEntries (first + 1) k
  end.

(** A listing in three pages of 50, 50 and 7 entries, last page 3. *)
Definition threePages : list ListEntriesResponse :=
  [mkListEntriesResponse (someEntries 1 50) 1 3;
   mkListEntriesResponse (someEntries 51 50) 2 3].

Definition thirdPage : ListEntriesResponse :=
  mkListEntriesResponse (someEntries 101 7) 3 3.

(** What [listEntries] of revision [rev] makes of that listing. *)
Definition threePagesRun (rev : ApiRevision) : result (list FileEntry) * Net :=
  listEntries (mkApiClient rev 10) (Some 5)
    (mkNet (map pageReply (threePages ++ [thirdPage]) ++ []) []).

(** ** Folder creation *)

(** The parent whose children [createFolder] lists: [&parentID] in
    [api.go]; nil for parent 0 in [part_000]. *)
Definition checkParent (c : apiClient) (parentID : Z) : option Z :=
  match revision c with
  | ApiGo => Some parentID
  | ApiPart0 => if parentID =? 0 then None else Some parentID
  end.

Definition folderA : FileEntry := mkFileEntry 9 "a" "folder" 0 None 0 (Some 5) "".
Definition fileA : FileEntry := mkFileEntry 8 "a" "text" 3 None 0 (Some 5) "".

Definition isCreateEvent (ev : Event) : Prop :=
  exists name parentID a, ev = EvCall (ReqCreateFolder name parentID) a.

(** [e] is the first folder called [name] among [entries]. *)
Definition firstFolder (name : string) (entries : list FileEntry) (e : FileEntry) : Prop :=
  exists before after,
    entries = before ++ e :: after
    /\ Name e = name /\ Type_ e = "folder"%string
    /\ forall x, In x before -> Name x = name -> Type_ x <> "folder"%string.

(** No folder called [name] among [entries]. *)
Definition noFolder (name : string) (entries : list FileEntry) : Prop :=
  forall x, In x entries -> Name x = name -> Type_ x <> "folder"%string.

(** A listing that shows no folder called [name]: it failed, or holds
    none. *)
Definition showsNoFolder (name : string) (listed : result (list FileEntry)) : Prop :=
  match listed with
  | Ok entries => noFolder name entries
  | Err _ => True
  end.

(** One listing of the children of [cp], from [n], in a search for the
    folder [name]: when the listing holds such a folder, [run] is the
    first of them and the net the listing leaves; when it fails or holds
    none, [otherwise] holds of the net it leaves. *)
Definition relisted (c : apiClient) (name : string) (cp : option Z) (n : Net)
    (run : result FileEntry * Net) (otherwise : Net -> Prop) : Prop :=
  match listEntries c cp n with
  | (Ok entries, m) =>
      (exists found, firstFolder name entries found /\ run = (Ok found, m))
      \/ (noFolder name entries /\ otherwise m)
  | (Err _, m) => otherwise m
  end.

(** The number of [time.Sleep] calls in a trace. *)
Fixpoint sleeps (t : list Event) : nat :=
  match t with
  | [] => O
  | EvSleep _ :: t' => S (sleeps t')
  | EvCall _ _ :: t' => sleeps t'
  end.

(** What the search after a 422 adds to the trace. *)
Definition searchEvent (checkParentID : option Z) (ev : Event) : Prop :=
  listOf checkParentID ev \/ ev = EvSleep 500.

(** A page without entries. *)
Definition emptyPage : Attempt := pageReply (mkListEntriesResponse [] 1 1).

Definition exists422 : Attempt := httpError 422 "422 Unprocessable Content".

(** The folder appears in the second listing after the 422. *)
Definition reconcileScript : list Attempt :=
  [emptyPage; exists422; emptyPage; pageReply (mkListEntriesResponse [folderA] 1 1)].

(** ** Cache rows and the move of A/x.txt to B/x.txt *)

(** What [pathCache] and [entryCache] together hold for a path. *)
Definition cachedEntry (f : PathCacheFs.Fs) (p : string) : option FileEntry :=
  match PathCacheFs.pathCache f !! p with
  | Some id => PathCacheFs.entryCache f !! id
  | None => None
  end.

(** The remote holds the folders A (id 1) and B (id 2) at the root and the
    file x.txt (id 7) in A. *)
Definition dirA : FileEntry := mkFileEntry 1 "A" "folder" 0 None 0 None "".
Definition dirB : FileEntry := mkFileEntry 2 "B" "folder" 0 None 0 None "".
Definition fileX (parent : Z) : FileEntry :=
  mkFileEntry 7 "x.txt" "text" 10 None 0 (Some parent) "api/v1/file-entries/7".

Definition listing (entries : list FileEntry) : Attempt :=
  pageReply (mkListEntriesResponse entries 1 1).

(** What the remote answers, in order: to [List "A"] (the root, then A);
    to [Move] (the root for B, the move, the rename, then the root and B
    for the new object); and, should it be asked again, the root and an
    empty A. *)
Definition moveScript : list Attempt :=
  [listing [dirA; dirB]; listing [fileX 1];
   listing [dirA; dirB]; answered BodyNone; answered (BodyEntry (fileX 2));
   listing [dirA; dirB]; listing [fileX 2];
   listing [dirA; dirB]; listing []].

Definition srcX : Object := mkObject "A/x.txt" 7 10 0.

Definition afterList : result (list DirEntry) * PathCacheFs.Fs * Net :=
  PathCacheFs.List "A" (PathCacheFs.newFs "" (mkApiClient ApiGo 10)) (mkNet moveScript []).

Definition afterMove : result Object * PathCacheFs.Fs * Net :=
  PathCacheFs.Move (DrimeObject srcX) "B/x.txt" (snd (fst afterList)) (snd afterList).

Definition afterResolve : result FileEntry * PathCacheFs.Fs * Net :=
  PathCacheFs.findEntry "A/x.txt" (snd (fst afterMove)) (snd afterMove).

(** ** Reachable states of the [dirCache] revision *)

(** Every value of [dirCache] is a folder entry. *)
Definition onlyFolders (f : DirCacheFs.Fs) : Prop :=
  forall p e, DirCacheFs.dirCache f !! p = Some e -> Type_ e = "folder"%string.

(** Every prefix of the path made of [walked] followed by one or more of
    the segments [ahead] is in [dirCache]. *)
Definition prefixesCached (f : DirCacheFs.Fs) (walked ahead : list string) : Prop :=
  forall k, (k < length ahead)%nat ->
            is_Some (DirCacheFs.dirCache f !! GoStrings.Join (walked ++ firstn (S k) ahead)).

(** A creation request answered without error carries a folder entry. *)
Definition folderReply (ev : Event) : Prop :=
  match ev with
  | EvCall (ReqCreateFolder _ _) a =>
      callErr a = None ->
      exists r, body a = BodyFolder r /\ Type_ (Folder r) = "folder"%string
  | _ => True
  end.

Definition anyEvent (ev : Event) : Prop := True.

(** [Good f n f' n']: a run from [(f, n)] to [(f', n')] only added to the
    trace, left [root] and [api] alone, and kept [dirCache] to folders if
    the pacer allows an attempt and the creation replies of the whole run
    carry folder entries. *)
Definition Good (f : DirCacheFs.Fs) (n : Net) (f' : DirCacheFs.Fs) (n' : Net) : Prop :=
  Adds anyEvent n n'
  /\ DirCacheFs.api f' = DirCacheFs.api f
  /\ DirCacheFs.root f' = DirCacheFs.root f
  /\ (onlyFolders f ->
      (1 <= lowLevelRetries (DirCacheFs.api f))%nat ->
      Forall folderReply (trace n') ->
      onlyFolders f').

(** The programs a caller can run against an [Fs] of the [dirCache]
    revision. *)
Inductive Op : Type :=
  | OpFindEntry (remotePath : string)
  | OpList (dir : string)
  | OpMkdir (fuel : nat) (dir : string)
  | OpRmdir (dir : string)
  | OpPurge (dir : string)
  | OpNewObject (remote : string)
  | OpRemove (o : Object)
  | OpMove (src : fsObject) (remote : string)
  | OpDirMove (srcRemote dstRemote : string).

Definition perform (op : Op) (f : DirCacheFs.Fs) (n : Net) : DirCacheFs.Fs * Net :=
  match op with
  | OpFindEntry p => let r := DirCacheFs.findEntry p f n in (snd (fst r), snd r)
  | OpList dir => let r := DirCacheFs.List dir f n in (snd (fst r), snd r)
  | OpMkdir fuel dir => let r := DirCacheFs.Mkdir fuel dir f n in (snd (fst r), snd r)
  | OpRmdir dir => let r := DirCacheFs.Rmdir dir f n in (snd (fst r), snd r)
  | OpPurge dir => let r := DirCacheFs.Purge dir f n in (snd (fst r), snd r)
  | OpNewObject remote => let r := DirCacheFs.NewObject remote f n in (snd (fst r), snd r)
  | OpRemove o => let r := DirCacheFs.Remove o f n in (snd (fst r), snd r)
  | OpMove src remote => let r := DirCacheFs.Move src remote f n in (snd (fst r), snd r)
  | OpDirMove s d => let r := DirCacheFs.DirMove s d f n in (snd (fst r), snd r)
  end.

Fixpoint performAll (ops : list Op) (f : DirCacheFs.Fs) (n : Net) : DirCacheFs.Fs * Net :=
  match ops with
  | [] => (f, n)
  | op :: rest => let '(f1, n1) := perform op f n in performAll rest f1 n1
  end.

(** The state reached from [NewFs] by the operations [ops], against a
    remote that answers with [script]. *)
Definition reached (root : string) (c : apiClient) (script : list Attempt) (ops : list Op)
  : DirCacheFs.Fs * Net :=
  let started := DirCacheFs.NewFs root c (mkNet script []) in
  performAll ops (snd (fst started)) (snd started).

(** A creation reply for the folder "a" with [kind] as its type. *)
Definition createdA (kind : string) : Attempt :=
  answered (BodyFolder (mkCreateFolderResponse (mkFileEntry 9 "a" kind 0 None 0 None ""))).

(** [Mkdir "a"] on an empty remote: the path does not resolve, the listing
    of the parent holds no such folder, the creation is answered. *)
Definition mkdirScript (kind : string) : list Attempt :=
  [listing []; listing []; createdA kind].

(** ** The gate of [Mkdir] *)

(** The gate of [p] is running or done. *)
Definition isEntered (p : string) (f : DirCacheFs.Fs) : Prop :=
  DirCacheFs.mkdirCache f !! p = Some DirCacheFs.OnceRunning
  \/ DirCacheFs.mkdirCache f !! p = Some DirCacheFs.OnceDone.

(** What holds of the callers of one path at every moment: the body has
    been run, or is being run, exactly when the gate has been entered; no
    more callers have returned an error or got stuck than bodies were run;
    and nothing is sent before a body runs. *)
Definition gateInvariant (dirPath : string) (n0 : Net) (st : MkdirCallers.State) : Prop :=
  (MkdirCallers.bodies st + MkdirCallers.total MkdirCallers.inBody (MkdirCallers.callers st)
   = MkdirCallers.entered dirPath (MkdirCallers.fs st))%nat
  /\ (MkdirCallers.total MkdirCallers.failed (MkdirCallers.callers st)
      <= MkdirCallers.bodies st)%nat
  /\ (MkdirCallers.bodies st = O -> MkdirCallers.net st = n0).

(** Two callers of [Mkdir "a"] on a remote without "a" that refuses the
    creation: the root lists nothing, the parent lists nothing, the
    creation request is answered 403, and "a" is still not there. *)
Definition refusedScript : list Attempt :=
  [listing []; listing []; httpError 403 "403 Forbidden"; listing []].

Definition twoCallers : MkdirCallers.State :=
  MkdirCallers.run 3 "a" [0; 1; 0; 1; 0; 1]%nat
    (MkdirCallers.start 2 (DirCacheFs.newFs "" (mkApiClient ApiGo 1))
       (mkNet refusedScript [])).

(** ** Callers of [Mkdir] without a gate *)

(** The creation reply for a second folder "a". *)
Definition createdAgain : Attempt :=
  answered (BodyFolder (mkCreateFolderResponse (mkFileEntry 10 "a" "folder" 0 None 0 None ""))).

(** Two callers of [Mkdir "a"] on a remote without "a", taking turns: the
    path resolves for neither, the listing of the parent shows neither a
    folder "a", and the first creation request is answered with the folder
    9; [later] answers what is sent after that. *)
Definition racers (rev : ApiRevision) (later : list Attempt) : MkdirRacers.State :=
  MkdirRacers.run "a" [0; 1; 0; 1; 0; 1; 0; 1; 0; 1]%nat
    (MkdirRacers.start 2 (PathCacheFs.newFs "" (mkApiClient rev 1))
       (mkNet ([listing []; listing []; listing []; listing []; createdA "folder"] ++ later)
          [])).

(** ** Directory entries *)

(** The directory entry [List] makes of a listed entry: a directory for a
    folder, an object for anything else, under [path.Join(dir, name)]. *)
Definition dirEntryOf (dir : string) (entry : FileEntry) : DirEntry :=
  let remote := GoPath.Join2 dir (Name entry) in
  if String.eqb (Type_ entry) "folder"
  then EntryDir remote (UpdatedAt entry) (ID entry)
  else EntryObject (mkObject remote (ID entry) (FileSize entry) (UpdatedAt entry)).

Definition entryRemote (d : DirEntry) : string :=
  match d with
  | EntryDir remote _ _ => remote
  | EntryObject o => objRemote o
  end.

(** ** Pages counted by the client *)

(** Replies to the requests for the pages [page], [page + 1], ..., each of
    which reports a last page beyond the number of the page it answers. *)
Fixpoint morePagesAfter (page : Z) (pages : list ListEntriesResponse) : Prop :=
  match pages with
  | [] => True
  | r :: rest => page < LastPage r /\ morePagesAfter (page + 1) rest
  end.

(** Whether the reply [r] to the request for page [page] ends the page loop
    of revision [rev]: [api.go] compares the current page the reply reports
    with its last page, [part_000] the number of the page it asked for. *)
Definition endsListing (rev : ApiRevision) (page : Z) (r : ListEntriesResponse) : Prop :=
  match rev with
  | ApiGo => CurrentPage r >= LastPage r
  | ApiPart0 => page >= LastPage r
  end.

(** Replies to the requests for the pages [page], [page + 1], ..., none of
    which ends the page loop of revision [rev]. *)
Fixpoint continuesFrom (rev : ApiRevision) (page : Z) (pages : list ListEntriesResponse)
  : Prop :=
  match pages with
  | [] => True
  | r :: rest => ~ endsListing rev page r /\ continuesFrom rev (page + 1) rest
  end.

(** ** Where a move goes *)




(** ** The id cache *)

(** Every row of [entryCache] stands under the id of its entry. *)
Definition keyedById (f : PathCacheFs.Fs) : Prop :=
  forall id e, PathCacheFs.entryCache f !! id = Some e -> ID e = id.

(** [Kept f f']: a run from [f] to [f'] kept the rows of [entryCache]
    under their ids and left [rootID] alone. *)
Definition Kept (f f' : PathCacheFs.Fs) : Prop :=
  (keyedById f -> keyedById f') /\ PathCacheFs.rootID f' = PathCacheFs.rootID f.

(** The programs a caller can run against an [Fs] of the [pathCache]
    revision. *)
Inductive PathOp : Type :=
  | PathFindEntry (remotePath : string)
  | PathList (dir : string)
  | PathMkdir (dir : string)
  | PathRmdir (dir : string)
  | PathPurge (dir : string)
  | PathNewObject (remote : string)
  | PathOpen (o : Object)
  | PathRemove (o : Object)
  | PathMove (src : fsObject) (remote : string)
  | PathDirMove (srcRemote dstRemote : string).

Definition performPath (op : PathOp) (f : PathCacheFs.Fs) (n : Net) : PathCacheFs.Fs * Net :=
  match op with
  | PathFindEntry p => let r := PathCacheFs.findEntry p f n in (snd (fst r), snd r)
  | PathList dir => let r := PathCacheFs.List dir f n in (snd (fst r), snd r)
  | PathMkdir dir => let r := PathCacheFs.Mkdir dir f n in (snd (fst r), snd r)
  | PathRmdir dir => let r := PathCacheFs.Rmdir dir f n in (snd (fst r), snd r)
  | PathPurge dir => let r := PathCacheFs.Purge dir f n in (snd (fst r), snd r)
  | PathNewObject remote => let r := PathCacheFs.NewObject remote f n in (snd (fst r), snd r)
  | PathOpen o => let r := PathCacheFs.Open o f n in (snd (fst r), snd r)
  | PathRemove o => let r := PathCacheFs.Remove o f n in (snd (fst r), snd r)
  | PathMove src remote => let r := PathCacheFs.Move src remote f n in (snd (fst r), snd r)
  | PathDirMove s d => let r := PathCacheFs.DirMove s d f n in (snd (fst r), snd r)
  end.

Fixpoint performAllPath (ops : list PathOp) (f : PathCacheFs.Fs) (n : Net)
  : PathCacheFs.Fs * Net :=
  match ops with
  | [] => (f, n)
  | op :: rest => let '(f1, n1) := performPath op f n in performAllPath rest f1 n1
  end.

(** The state reached from [NewFs] of the [pathCache] revision by the
    operations [ops], against a remote that answers with [script]. *)
Definition reachedPath (root : string) (c : apiClient) (script : list Attempt)
    (ops : list PathOp) : PathCacheFs.Fs * Net :=
  let started := PathCacheFs.NewFs root c (mkNet script []) in
  performAllPath ops (snd (fst started)) (snd started).

(** ** A root folder *)

(** The folder r (id 3) at the account root, and an [Fs] rooted there as
    [NewFs] leaves it. *)
Definition dirR : FileEntry := mkFileEntry 3 "r" "folder" 0 None 0 None "".

Definition rootedAtR : DirCacheFs.Fs :=
  snd (fst (DirCacheFs.NewFs "r" (mkApiClient ApiGo 10) (mkNet [listing [dirR]] []))).

(** * Properties *)

(** ** What a call adds to the trace *)

Lemma Adds_refl P n : Adds P n n.
Proof. exists []. rewrite app_nil_r. repeat split; [constructor | lia]. Qed.

Lemma Adds_trans P n1 n2 n3 : Adds P n1 n2 -> Adds P n2 n3 -> Adds P n1 n3.
Proof.
  intros (e1 & H1 & F1 & L1) (e2 & H2 & F2 & L2).
  exists (e1 ++ e2)%list. rewrite H2, H1, app_assoc.
  repeat split; [apply Forall_app; split; assumption | lia].
Qed.

Lemma Adds_mono (P Q : Event -> Prop) n n' :
  (forall ev, P ev -> Q ev) -> Adds P n n' -> Adds Q n n'.
Proof.
  intros HPQ (evs & H & F & L). exists evs. repeat split; try assumption.
  eapply Forall_impl; [exact F | exact HPQ].
Qed.

Lemma Adds_log P ev n : P ev -> Adds P n (logEvent ev n).
Proof.
  intros HP. exists [ev]. repeat split; [repeat constructor; exact HP | simpl; lia].
Qed.

Lemma roundTrip_Adds rq n :
  Adds (callOf rq) n (snd (roundTrip rq n)).
Proof.
  unfold Adds, roundTrip. destruct (script n) as [|a rest]; simpl.
  - exists [EvCall rq connectionLost]. repeat split; simpl; [|lia].
    repeat constructor. eexists; reflexivity.
  - exists [EvCall rq a]. repeat split; simpl; [|lia].
    repeat constructor. eexists; reflexivity.
Qed.

Lemma CallJSON_Adds {B} (decode : Body -> B -> B) rq c n :
  Adds (callOf rq) n (snd (CallJSON decode rq c n)).
Proof.
  unfold CallJSON. pose proof (roundTrip_Adds rq n) as H.
  destruct (roundTrip rq n) as [a n']. exact H.
Qed.

Lemma pacedJSON_single {B} (decode : Body -> B -> B) rq : singleCall rq (pacedJSON decode rq).
Proof.
  intros c n. unfold pacedJSON. pose proof (CallJSON_Adds decode rq c n) as H.
  destruct (CallJSON decode rq c n) as [[a c'] n']. exact H.
Qed.

Lemma pacedCreate_single rq : singleCall rq (pacedCreate rq).
Proof.
  intros c n. unfold pacedCreate. pose proof (CallJSON_Adds decodeFolder rq c n) as H.
  destruct (CallJSON decodeFolder rq c n) as [[a c'] n'].
  destruct (match httpResp c' with Some code => (code =? 422)%Z | None => false end); exact H.
Qed.

Lemma pacerLoop_Adds {B} rq (fn : Paced B) (Hfn : singleCall rq fn) retries :
  forall err c n, Adds (callOf rq) n (snd (pacerLoop retries fn err c n)).
Proof.
  induction retries as [|k IH]; intros err c n; simpl.
  - apply Adds_refl.
  - pose proof (Hfn c n) as H1.
    destruct (fn c n) as [[[retry err'] c'] n']. simpl in H1.
    destruct retry.
    + eapply Adds_trans; [exact H1 | apply IH].
    + exact H1.
Qed.

Lemma pacerCall_Adds {B} rq (fn : Paced B) (Hfn : singleCall rq fn) retries c n :
  Adds (callOf rq) n (snd (pacerCall retries fn c n)).
Proof. apply pacerLoop_Adds, Hfn. Qed.

(** ** The pacer and the page loop *)

Lemma pacedJSON_lost {B} (decode : Body -> B -> B) rq c n :
  script n = [] ->
  exists c' n', pacedJSON decode rq c n = ((true, callErr connectionLost), c', n')
                /\ script n' = [].
Proof.
  intros E. unfold pacedJSON, CallJSON, roundTrip. rewrite E. simpl.
  eexists _, _. split; reflexivity.
Qed.

Lemma pacerLoop_lost {B} (decode : Body -> B -> B) rq retries :
  forall err c n,
    script n = [] -> err <> None ->
    exists e c' n', pacerLoop retries (pacedJSON decode rq) err c n = (Some e, c', n').
Proof.
  induction retries as [|k IH]; intros err c n E Herr; simpl.
  - destruct err as [e|]; [|congruence]. eexists _, _, _. reflexivity.
  - destruct (pacedJSON_lost decode rq c n E) as (c' & n' & -> & E').
    apply IH; [exact E' | discriminate].
Qed.

(** A paced call that ends without error has consumed a part of the script,
    unless the pacer allows no attempt at all. *)
Lemma pacerCall_ok_consumes {B} (decode : Body -> B -> B) rq retries c n c' n' :
  pacerCall retries (pacedJSON decode rq) c n = (None, c', n') ->
  (retries = O /\ c' = c /\ n' = n) \/
  (length (script n') < length (script n))%nat.
Proof.
  unfold pacerCall. destruct retries as [|k]; simpl.
  - intros [= <- <-]. left. auto.
  - intros H. right.
    destruct (script n) as [|a rest] eqn:E.
    + destruct (pacedJSON_lost decode rq c n E) as (c1 & n1 & Hfn & E1).
      rewrite Hfn in H.
      destruct (pacerLoop_lost decode rq k (callErr connectionLost) c1 n1 E1)
        as (e & c2 & n2 & Hl); [discriminate|].
      rewrite Hl in H. discriminate.
    + pose proof (pacedJSON_single decode rq c n) as (evs & _ & _ & L1).
      assert (L0 : (length (script (snd (pacedJSON decode rq c n))) <= length rest)%nat).
      { unfold pacedJSON, CallJSON, roundTrip. rewrite E. simpl. lia. }
      destruct (pacedJSON decode rq c n) as [[[retry err'] c1] n1]. simpl in *.
      destruct retry.
      * pose proof (pacerLoop_Adds rq _ (pacedJSON_single decode rq) k err' c1 n1)
          as (evs2 & _ & _ & L2).
        rewrite H in L2. simpl in L2. lia.
      * injection H as _ _ <-. lia.
Qed.

Lemma callOf_listOf parentID page ev : callOf (ReqList parentID page) ev -> listOf parentID ev.
Proof. intros [a ->]. exists page, a. reflexivity. Qed.

Lemma listOf_isListEvent parentID ev : listOf parentID ev -> isListEvent ev.
Proof. intros (page & a & ->). exists parentID, page, a. reflexivity. Qed.

Lemma Api_go_listPages_fuel retries parentID :
  forall fuel1 fuel2 page acc n,
    (length (script n) < fuel1)%nat -> (length (script n) < fuel2)%nat ->
    Api_go.listPages fuel1 retries parentID page acc n
    = Api_go.listPages fuel2 retries parentID page acc n.
Proof.
  induction fuel1 as [|f1 IH]; intros fuel2 page acc n H1 H2; [lia|].
  destruct fuel2 as [|f2]; [lia|]. simpl.
  destruct (pacerCall retries (pacedJSON decodeList (ReqList parentID page))
              (mkCaptured None zeroListEntriesResponse) n) as [[err cap] n1] eqn:E.
  destruct err as [e|]; [reflexivity|].
  destruct (CurrentPage (resp cap) >=? LastPage (resp cap))%Z eqn:Hstop; [reflexivity|].
  destruct (pacerCall_ok_consumes _ _ _ _ _ _ _ E) as [(_ & -> & _)|Hlt].
  - simpl in Hstop. discriminate.
  - apply IH; lia.
Qed.

Lemma Part0_listPages_fuel retries parentID :
  forall fuel1 fuel2 page acc n,
    (0 <= page)%Z ->
    (length (script n) < fuel1)%nat -> (length (script n) < fuel2)%nat ->
    Part0.listPages fuel1 retries parentID page acc n
    = Part0.listPages fuel2 retries parentID page acc n.
Proof.
  induction fuel1 as [|f1 IH]; intros fuel2 page acc n Hp H1 H2; [lia|].
  destruct fuel2 as [|f2]; [lia|]. simpl.
  destruct (pacerCall retries (pacedJSON decodeList (ReqList parentID page))
              (mkCaptured None zeroListEntriesResponse) n) as [[err cap] n1] eqn:E.
  destruct err as [e|]; [reflexivity|].
  destruct (page >=? LastPage (resp cap))%Z eqn:Hstop; [reflexivity|].
  destruct (pacerCall_ok_consumes _ _ _ _ _ _ _ E) as [(_ & -> & _)|Hlt].
  - simpl in Hstop. lia.
  - apply IH; lia.
Qed.

(** The fuel [listEntries] passes to the page loop is enough: more fuel
    gives the same listing. *)
Lemma listPages_fuel c parentID n fuel :
  (length (script n) < fuel)%nat ->
  listEntries c parentID n
  = match revision c with
    | ApiGo => Api_go.listPages fuel (lowLevelRetries c) parentID 1 [] n
    | ApiPart0 => Part0.listPages fuel (lowLevelRetries c) parentID 1 [] n
    end.
Proof.
  intros H. unfold listEntries, Api_go.listEntries, Part0.listEntries.
  destruct (revision c).
  - apply Api_go_listPages_fuel; lia.
  - apply Part0_listPages_fuel; lia.
Qed.

Lemma Api_go_listPages_Adds retries parentID :
  forall fuel page acc n,
    Adds (listOf parentID) n (snd (Api_go.listPages fuel retries parentID page acc n)).
Proof.
  induction fuel as [|f IH]; intros page acc n; simpl; [apply Adds_refl|].
  pose proof (pacerCall_Adds _ _ (pacedJSON_single decodeList (ReqList parentID page))
                retries (mkCaptured None zeroListEntriesResponse) n) as H.
  destruct (pacerCall retries _ _ n) as [[err cap] n1]. simpl in H.
  apply (Adds_mono _ (listOf parentID)) in H; [|apply callOf_listOf].
  destruct err as [e|]; [exact H|].
  destruct (CurrentPage (resp cap) >=? LastPage (resp cap))%Z; [exact H|].
  eapply Adds_trans; [exact H | apply IH].
Qed.

Lemma Part0_listPages_Adds retries parentID :
  forall fuel page acc n,
    Adds (listOf parentID) n (snd (Part0.listPages fuel retries parentID page acc n)).
Proof.
  induction fuel as [|f IH]; intros page acc n; simpl; [apply Adds_refl|].
  pose proof (pacerCall_Adds _ _ (pacedJSON_single decodeList (ReqList parentID page))
                retries (mkCaptured None zeroListEntriesResponse) n) as H.
  destruct (pacerCall retries _ _ n) as [[err cap] n1]. simpl in H.
  apply (Adds_mono _ (listOf parentID)) in H; [|apply callOf_listOf].
  destruct err as [e|]; [exact H|].
  destruct (page >=? LastPage (resp cap))%Z; [exact H|].
  eapply Adds_trans; [exact H | apply IH].
Qed.

Lemma listEntries_Adds c parentID n :
  Adds (listOf parentID) n (snd (listEntries c parentID n)).
Proof.
  unfold listEntries, Api_go.listEntries, Part0.listEntries.
  destruct (revision c); [apply Api_go_listPages_Adds | apply Part0_listPages_Adds].
Qed.

(** ** Retry classification *)

(** What [shouldRetry] answers, case by case. *)
Lemma shouldRetry_classification :
  (forall status e, shouldRetry true status (Some e) = (false, Some e)) /\
  (forall status e, shouldRetry false status (Some e) = (true, Some e)) /\
  (forall ctxErr code, code = 429 \/ 500 <= code ->
     shouldRetry ctxErr (Some code) None = (true, None)) /\
  (forall ctxErr code, code <> 429 -> code < 500 ->
     shouldRetry ctxErr (Some code) None = (false, None)) /\
  (forall ctxErr, shouldRetry ctxErr None None = (false, None)).
Proof.
  repeat split; intros; simpl; try reflexivity.
  - destruct H as [->|H]; [reflexivity|].
    replace (500 <=? code)%Z with true by lia. rewrite orb_true_r. reflexivity.
  - replace (code =? 429)%Z with false by lia.
    replace (500 <=? code)%Z with false by lia. simpl.
    destruct (_ || _); reflexivity.
Qed.

(** The error is handed back as it came. *)
Lemma shouldRetry_error ctxErr status err : snd (shouldRetry ctxErr status err) = err.
Proof.
  unfold shouldRetry. destruct err; [destruct ctxErr; reflexivity|].
  destruct status as [code|]; [|reflexivity].
  destruct (_ || _); [reflexivity|]. destruct (_ || _); reflexivity.
Qed.

(** With a live context no outcome of status 401, 403, 404 or 422 is
    classified "fail now": it is retried when it carries an error and it
    counts as a success when it does not. *)
Lemma shouldRetry_terminal_status code err :
  code = 401 \/ code = 403 \/ code = 404 \/ code = 422 ->
  shouldRetry false (Some code) err
  = match err with
    | Some e => (true, Some e)
    | None => (false, None)
    end.
Proof.
  intros H. destruct err as [e|]; [reflexivity|].
  destruct H as [->|[->|[->| ->]]]; reflexivity.
Qed.

(** A 503 followed by a success: one retry, then the entry. *)
Lemma getEntry_503_then_success rev retries id e rest tr :
  getEntry (mkApiClient rev (S (S retries))) id
    (mkNet (httpError 503 "503 Service Unavailable" :: answered (BodyEntry e) :: rest) tr)
  = (Ok e,
     mkNet rest (tr ++ [EvCall (ReqGet id) (httpError 503 "503 Service Unavailable");
                        EvCall (ReqGet id) (answered (BodyEntry e))])).
Proof.
  unfold getEntry, pacerCall. simpl. rewrite <- app_assoc. reflexivity.
Qed.

(** C6, at the failing input: a 404 reported by the REST client (a response
    of status 404 together with a non-nil error) under a live context is
    classified [retry = true]; whatever comes with the 404, the classifier
    never answers "fail now with this error"; and the pacer sends the
    request again until its attempts are used up: the request does not fail
    at once. *)
Theorem shouldRetry_404_is_retried :
  shouldRetry false (Some 404) (Some (ErrHTTP "404 Not Found"))
  = (true, Some (ErrHTTP "404 Not Found")) /\
  (forall err e, shouldRetry false (Some 404) err <> (false, Some e)) /\
  getEntry (mkApiClient ApiGo 3) 42
    (mkNet [httpError 404 "404 Not Found"; httpError 404 "404 Not Found";
            httpError 404 "404 Not Found"; answered (BodyEntry zeroEntry)] [])
  = (Err (ErrHTTP "404 Not Found"),
     mkNet [answered (BodyEntry zeroEntry)]
       [EvCall (ReqGet 42) (httpError 404 "404 Not Found");
        EvCall (ReqGet 42) (httpError 404 "404 Not Found");
        EvCall (ReqGet 42) (httpError 404 "404 Not Found")]).
Proof.
  split; [reflexivity|]. split; [|reflexivity].
  intros [e0|] e; simpl; discriminate.
Qed.

(** ** Download locator *)

Lemma TrimPrefix_slash :
  (forall rest, GoStrings.TrimPrefix (String "/" rest) "/" = rest) /\
  (forall u, GoStrings.HasPrefix u "/" = false -> GoStrings.TrimPrefix u "/" = u).
Proof.
  split.
  - intros rest. unfold GoStrings.TrimPrefix, GoStrings.HasPrefix. simpl.
    destruct rest; reflexivity.
  - intros u H. unfold GoStrings.TrimPrefix. rewrite H. reflexivity.
Qed.

(** The request [download] sends is for [downloadURL] of the entry's URL,
    whatever the state of the client. *)
Lemma download_requests c entry n :
  Adds (callOf (ReqDownload (downloadURL (URL entry)))) n (snd (download c entry n)).
Proof.
  unfold download.
  pose proof (pacerCall_Adds _ _ (pacedJSON_single decodeNothing (ReqDownload (downloadURL (URL entry))))
                (lowLevelRetries c) (mkCaptured None tt) n) as H.
  destruct (pacerCall _ _ _ n) as [[err cap] n1]. simpl in H.
  destruct err; exact H.
Qed.

(** C8: the address [download] requests is a function of the locator alone:
    a locator beginning with "http://" or "https://" is used as it is; any
    other has one leading '/' stripped and is then put after the service
    host when it begins with "api/", and after the API base URL and a '/'
    otherwise. *)
Theorem download_locator_normalization (u : string) :
  (GoStrings.HasPrefix u "http://" = true \/ GoStrings.HasPrefix u "https://" = true ->
   downloadURL u = u) /\
  (GoStrings.HasPrefix u "http://" = false ->
   GoStrings.HasPrefix u "https://" = false ->
   let stripped := GoStrings.TrimPrefix u "/" in
   (GoStrings.HasPrefix stripped "api/" = true ->
    downloadURL u = ("https://app.drime.cloud/" ++ stripped)%string) /\
   (GoStrings.HasPrefix stripped "api/" = false ->
    downloadURL u = ("https://app.drime.cloud/api/v1" ++ "/" ++ stripped)%string)).
Proof.
  unfold downloadURL. split.
  - intros [H|H]; rewrite H; simpl; [reflexivity|].
    rewrite andb_false_r. reflexivity.
  - intros H1 H2. rewrite H1, H2. simpl. split; intros H3; rewrite H3; reflexivity.
Qed.

Lemma download_locator_normalization_witness :
  downloadURL "api/v1/file-entries/42" = "https://app.drime.cloud/api/v1/file-entries/42"
  /\ downloadURL "/files/42" = "https://app.drime.cloud/api/v1/files/42"
  /\ downloadURL "https://cdn.example/42" = "https://cdn.example/42".
Proof.
  split; [|split].
  - exact (proj1 (proj2 (download_locator_normalization "api/v1/file-entries/42")
                    eq_refl eq_refl) eq_refl).
  - exact (proj2 (proj2 (download_locator_normalization "/files/42")
                    eq_refl eq_refl) eq_refl).
  - exact (proj1 (download_locator_normalization "https://cdn.example/42")
             (or_intror eq_refl)).
Defined.

(** ** Pagination *)

Lemma pacerCall_page retries rq r s tr :
  pacerCall (S retries) (pacedJSON decodeList rq)
    (mkCaptured None zeroListEntriesResponse) (mkNet (pageReply r :: s) tr)
  = (None, mkCaptured (Some 200) r, mkNet s (tr ++ [EvCall rq (pageReply r)])).
Proof. reflexivity. Qed.

Lemma Api_go_listPages_run retries parentID final rest :
  (CurrentPage final >= LastPage final) ->
  forall front fuel page acc tr,
    (length front < fuel)%nat ->
    Forall (fun r => CurrentPage r < LastPage r) front ->
    Api_go.listPages fuel (S retries) parentID page acc
      (mkNet (map pageReply (front ++ [final]) ++ rest) tr)
    = (Ok (acc ++ concat (map Data (front ++ [final]))),
       mkNet rest (tr ++ pageEvents parentID page (front ++ [final]))).
Proof.
  intros Hfinal. induction front as [|r front IH]; intros fuel page acc tr Hfuel Hmore;
    (destruct fuel as [|fuel]; [simpl in Hfuel; lia|]).
  - cbn [app map Api_go.listPages]. rewrite pacerCall_page. cbn [resp].
    replace (CurrentPage final >=? LastPage final) with true by lia.
    simpl. rewrite app_nil_r. reflexivity.
  - inversion Hmore as [|? ? Hr Hrest]; subst.
    cbn [app map Api_go.listPages]. rewrite pacerCall_page. cbn [resp].
    replace (CurrentPage r >=? LastPage r) with false by lia.
    rewrite IH; [|simpl in Hfuel; lia|assumption].
    simpl. rewrite <- !app_assoc. reflexivity.
Qed.

Lemma Part0_listPages_run retries parentID final rest :
  forall front fuel page acc tr,
    (length front < fuel)%nat ->
    numberedFrom page (front ++ [final]) ->
    Forall (fun r => CurrentPage r < LastPage r) front ->
    (CurrentPage final >= LastPage final) ->
    Part0.listPages fuel (S retries) parentID page acc
      (mkNet (map pageReply (front ++ [final]) ++ rest) tr)
    = (Ok (acc ++ concat (map Data (front ++ [final]))),
       mkNet rest (tr ++ pageEvents parentID page (front ++ [final]))).
Proof.
  induction front as [|r front IH]; intros fuel page acc tr Hfuel Hnum Hmore Hfinal;
    (destruct fuel as [|fuel]; [simpl in Hfuel; lia|]).
  - cbn [app map Part0.listPages]. rewrite pacerCall_page. cbn [resp].
    destruct Hnum as [Hnum _].
    replace (page >=? LastPage final) with true by lia.
    simpl. rewrite app_nil_r. reflexivity.
  - inversion Hmore as [|? ? Hr Hrest]; subst.
    destruct Hnum as [Hnum Hnums].
    cbn [app map Part0.listPages]. rewrite pacerCall_page. cbn [resp].
    replace (page >=? LastPage r) with false by lia.
    rewrite IH; [|simpl in Hfuel; lia|assumption..].
    simpl. rewrite <- !app_assoc. reflexivity.
Qed.

(** The page loop of either revision, against replies that come at the
    first attempt: it goes on over the replies that do not end it and
    stops at the first that does. *)
Lemma listPages_run rev retries parentID final rest :
  forall front fuel page acc tr,
    (length front < fuel)%nat ->
    continuesFrom rev page front ->
    endsListing rev (page + Z.of_nat (length front)) final ->
    match rev with
    | ApiGo => Api_go.listPages
    | ApiPart0 => Part0.listPages
    end fuel (S retries) parentID page acc
      (mkNet (map pageReply (front ++ [final]) ++ rest) tr)
    = (Ok (acc ++ concat (map Data (front ++ [final]))),
       mkNet rest (tr ++ pageEvents parentID page (front ++ [final]))).
Proof.
  induction front as [|r front IH]; intros fuel page acc tr Hfuel Hmore Hfinal;
    (destruct fuel as [|fuel]; [simpl in Hfuel; lia|]).
  - cbn [length Z.of_nat] in Hfinal. rewrite Z.add_0_r in Hfinal.
    destruct rev; cbn [endsListing] in Hfinal.
    + cbn [app map Api_go.listPages]. rewrite pacerCall_page. cbn [resp].
      replace (CurrentPage final >=? LastPage final) with true by lia.
      simpl. rewrite app_nil_r. reflexivity.
    + cbn [app map Part0.listPages]. rewrite pacerCall_page. cbn [resp].
      replace (page >=? LastPage final) with true by lia.
      simpl. rewrite app_nil_r. reflexivity.
  - destruct Hmore as [Hr Hrest].
    assert (Hfinal' : endsListing rev (page + 1 + Z.of_nat (length front)) final).
    { replace (page + 1 + Z.of_nat (length front))
        with (page + Z.of_nat (length (r :: front))) by (cbn [length]; lia).
      exact Hfinal. }
    assert (Hfuel' : (length front < fuel)%nat) by (simpl in Hfuel; lia).
    specialize (IH fuel (page + 1) (acc ++ Data r) (tr ++ [EvCall (ReqList parentID page) (pageReply r)])
                  Hfuel' Hrest Hfinal').
    destruct rev; cbn [endsListing] in Hr.
    + cbn [app map Api_go.listPages]. rewrite pacerCall_page. cbn [resp].
      replace (CurrentPage r >=? LastPage r) with false by lia.
      rewrite IH. simpl. rewrite <- !app_assoc. reflexivity.
    + cbn [app map Part0.listPages]. rewrite pacerCall_page. cbn [resp].
      replace (page >=? LastPage r) with false by lia.
      rewrite IH. simpl. rewrite <- !app_assoc. reflexivity.
Qed.

(** C7, as amended.  Against a server that answers each page request at
    the first attempt, [listEntries] asks for page 1, then for the next
    page after each reply that does not end the listing, stops at the
    first reply that ends it, and returns the items of all replies, in the
    order requested.  What ends the listing is, in [api.go], a reply whose
    current page is not below its last page and, in [part_000], a reply
    whose last page is not beyond the number of the page asked for: the
    current page of the reply is not read there.  With a server that
    numbers the pages it returns from 1 the two agree: both revisions stop
    at the first reply whose current page is not below its last page.
    [front] are the replies before the last one, [final] the last. *)
Theorem listEntries_follows_pagination (c : apiClient) (parentID : option Z)
    (front : list ListEntriesResponse) (final : ListEntriesResponse)
    (rest : list Attempt) (tr : list Event) :
  (1 <= lowLevelRetries c)%nat ->
  let run := listEntries c parentID (mkNet (map pageReply (front ++ [final]) ++ rest) tr) in
  let all := (Ok (concat (map Data (front ++ [final]))),
              mkNet rest (tr ++ pageEvents parentID 1 (front ++ [final]))) in
  (continuesFrom (revision c) 1 front ->
   endsListing (revision c) (1 + Z.of_nat (length front)) final ->
   run = all)
  /\ (numberedFrom 1 (front ++ [final]) ->
      Forall (fun r => CurrentPage r < LastPage r) front ->
      CurrentPage final >= LastPage final ->
      run = all).
Proof.
  intros Hretries run all. subst run all.
  unfold listEntries, Api_go.listEntries, Part0.listEntries.
  destruct (lowLevelRetries c) as [|retries]; [lia|].
  assert (Hfuel : (length front <
                   S (length (script (mkNet (map pageReply (front ++ [final]) ++ rest) tr))))%nat).
  { cbn [script]. rewrite length_app, length_map, length_app. lia. }
  split.
  - intros Hmore Hfinal.
    pose proof (listPages_run (revision c) retries parentID final rest front _ 1 [] tr
                  Hfuel Hmore Hfinal) as H.
    destruct (revision c); exact H.
  - intros Hnum Hmore Hfinal. destruct (revision c).
    + rewrite (Api_go_listPages_run retries parentID final rest Hfinal front _ 1 [] tr Hfuel Hmore).
      reflexivity.
    + rewrite (Part0_listPages_run retries parentID final rest front _ 1 [] tr Hfuel Hnum Hmore Hfinal).
      reflexivity.
Qed.

(** Both revisions of [listEntries] return the 107 entries after exactly
    the requests for the pages 1, 2 and 3. *)
Lemma listEntries_follows_pagination_witness :
  (fst (threePagesRun ApiGo) = Ok (someEntries 1 107)
   /\ requests (trace (snd (threePagesRun ApiGo)))
      = [ReqList (Some 5) 1; ReqList (Some 5) 2; ReqList (Some 5) 3])
  /\ (fst (threePagesRun ApiPart0) = Ok (someEntries 1 107)
      /\ requests (trace (snd (threePagesRun ApiPart0)))
         = [ReqList (Some 5) 1; ReqList (Some 5) 2; ReqList (Some 5) 3]).
Proof.
  assert (Hnum : numberedFrom 1 (threePages ++ [thirdPage])).
  { simpl. repeat split; reflexivity. }
  assert (Hmore : Forall (fun r => CurrentPage r < LastPage r) threePages).
  { repeat constructor. }
  assert (Hfinal : CurrentPage thirdPage >= LastPage thirdPage).
  { simpl. lia. }
  split; unfold threePagesRun.
  - rewrite (proj2 (listEntries_follows_pagination (mkApiClient ApiGo 10) (Some 5)
                      threePages thirdPage [] [] ltac:(simpl; lia)) Hnum Hmore Hfinal).
    split; reflexivity.
  - rewrite (proj1 (listEntries_follows_pagination (mkApiClient ApiPart0 10) (Some 5)
                      threePages thirdPage [] [] ltac:(simpl; lia))
               ltac:(simpl; lia) ltac:(simpl; lia)).
    split; reflexivity.
Defined.

(** C7 as stated fails on the revision of [part_000], which does not go by
    the current page the server reports.  A first reply that reports
    current page 2 of 2 does not end the listing there: page 2 is asked
    for ([api.go] stops).  A first reply that reports current page 0 of 1,
    as one without that field does, ends it: page 2 is not asked for
    ([api.go] goes on). *)
Lemma listEntries_part0_counts_the_pages_itself :
  (listEntries (mkApiClient ApiPart0 10) (Some 5)
     (mkNet [pageReply (mkListEntriesResponse [dirA] 2 2);
             pageReply (mkListEntriesResponse [dirB] 2 2)] [])
   = (Ok [dirA; dirB],
      mkNet [] [EvCall (ReqList (Some 5) 1) (pageReply (mkListEntriesResponse [dirA] 2 2));
                EvCall (ReqList (Some 5) 2) (pageReply (mkListEntriesResponse [dirB] 2 2))])
   /\ listEntries (mkApiClient ApiGo 10) (Some 5)
        (mkNet [pageReply (mkListEntriesResponse [dirA] 2 2);
                pageReply (mkListEntriesResponse [dirB] 2 2)] [])
      = (Ok [dirA],
         mkNet [pageReply (mkListEntriesResponse [dirB] 2 2)]
           [EvCall (ReqList (Some 5) 1) (pageReply (mkListEntriesResponse [dirA] 2 2))]))
  /\ (listEntries (mkApiClient ApiPart0 10) (Some 5)
        (mkNet [pageReply (mkListEntriesResponse [dirA] 0 1);
                pageReply (mkListEntriesResponse [dirB] 1 1)] [])
      = (Ok [dirA],
         mkNet [pageReply (mkListEntriesResponse [dirB] 1 1)]
           [EvCall (ReqList (Some 5) 1) (pageReply (mkListEntriesResponse [dirA] 0 1))])
      /\ listEntries (mkApiClient ApiGo 10) (Some 5)
           (mkNet [pageReply (mkListEntriesResponse [dirA] 0 1);
                   pageReply (mkListEntriesResponse [dirB] 1 1)] [])
         = (Ok [dirA; dirB],
            mkNet [] [EvCall (ReqList (Some 5) 1) (pageReply (mkListEntriesResponse [dirA] 0 1));
                      EvCall (ReqList (Some 5) 2) (pageReply (mkListEntriesResponse [dirB] 1 1))])).
Proof. repeat split; reflexivity. Qed.

(** ** [createFolder] *)

Lemma findFolder_Some name entries e :
  findFolder name entries = Some e ->
  In e entries /\ Name e = name /\ Type_ e = "folder"%string.
Proof.
  unfold findFolder. intros H. apply find_some in H as [Hin Hp].
  apply andb_prop in Hp as [H1 H2].
  apply String.eqb_eq in H1, H2. auto.
Qed.

(** [createFolder] hands back a folder found by its first listing, and
    has then sent nothing but the requests of that listing. *)
Lemma createFolder_existing c name parentID n n1 entries e :
  listEntries c (checkParent c parentID) n = (Ok entries, n1) ->
  findFolder name entries = Some e ->
  createFolder c name parentID n = (Ok e, n1)
  /\ Adds (listOf (checkParent c parentID)) n n1.
Proof.
  intros Hlist Hfind. split.
  - unfold createFolder, checkParent, listEntries in *.
    destruct (revision c).
    + unfold Api_go.createFolder. rewrite Hlist, Hfind. reflexivity.
    + unfold Part0.createFolder. rewrite Hlist, Hfind. reflexivity.
  - pose proof (listEntries_Adds c (checkParent c parentID) n) as H.
    rewrite Hlist in H. exact H.
Qed.

(** A run of [createFolder] in which a creation request went out is one
    whose listing of the parent failed or found no folder of that name. *)
Lemma createFolder_request_only_if_absent c name parentID n evs :
  trace (snd (createFolder c name parentID n)) = trace n ++ evs ->
  Exists isCreateEvent evs ->
  match fst (listEntries c (checkParent c parentID) n) with
  | Ok entries => findFolder name entries = None
  | Err _ => True
  end.
Proof.
  intros Htrace Hex.
  destruct (listEntries c (checkParent c parentID) n) as [listed n1] eqn:Hlist.
  destruct listed as [entries|err]; [|exact I]. simpl.
  destruct (findFolder name entries) as [e|] eqn:Hfind; [|reflexivity].
  destruct (createFolder_existing c name parentID n n1 entries e Hlist Hfind)
    as (Hrun & (evs' & Ht & Hall & _)).
  rewrite Hrun in Htrace. simpl in Htrace. rewrite Ht in Htrace.
  apply app_inv_head in Htrace. subst evs'.
  exfalso. apply Exists_exists in Hex as (ev & Hin & (nm & pid & a & ->)).
  rewrite Forall_forall in Hall. destruct (Hall _ Hin) as (page & a' & Heq). discriminate.
Qed.

(** The scan finds the first folder of the name when the list holds one,
    and nothing exactly when it holds none. *)
Lemma findFolder_first name entries x :
  In x entries -> Name x = name -> Type_ x = "folder"%string ->
  exists e, findFolder name entries = Some e /\ firstFolder name entries e.
Proof.
  unfold findFolder. induction entries as [|y entries IH]; intros Hin Hname Hty; [destruct Hin|].
  cbn [find].
  destruct (String.eqb (Name y) name && String.eqb (Type_ y) "folder") eqn:Hy.
  - exists y. split; [reflexivity|].
    apply andb_prop in Hy as [H1 H2]. apply String.eqb_eq in H1, H2.
    exists [], entries. repeat split; try assumption. intros z [].
  - assert (Hy' : Name y = name -> Type_ y <> "folder"%string).
    { intros H1 H2. apply String.eqb_eq in H1, H2. rewrite H1, H2 in Hy. discriminate. }
    destruct Hin as [->|Hin]; [exfalso; exact (Hy' Hname Hty)|].
    destruct (IH Hin Hname Hty) as (e & Hfind & before & after & -> & He1 & He2 & Hbefore).
    exists e. split; [exact Hfind|].
    exists (y :: before), after. repeat split; try assumption.
    intros z [<-|Hz]; [exact Hy'|apply Hbefore; exact Hz].
Qed.

Lemma findFolder_None name entries :
  findFolder name entries = None <-> noFolder name entries.
Proof.
  unfold noFolder. split.
  - intros Hnone x Hin Hname Hty.
    destruct (findFolder_first name entries x Hin Hname Hty) as (e & He & _). congruence.
  - intros Hno. destruct (findFolder name entries) as [e|] eqn:Hfind; [|reflexivity].
    apply findFolder_Some in Hfind as (Hin & Hname & Hty).
    exfalso. exact (Hno e Hin Hname Hty).
Qed.

Lemma findFolder_showsNoFolder name (listed : result (list FileEntry)) :
  match listed with
  | Ok entries => findFolder name entries
  | Err _ => None
  end = None <-> showsNoFolder name listed.
Proof.
  destruct listed as [entries|err]; cbn [showsNoFolder].
  - apply findFolder_None.
  - split; [intros _; exact I|reflexivity].
Qed.

(** C9: when the listing of the parent succeeds and holds a folder named
    [name], [createFolder] returns the first such entry of the listing as
    its result and has sent nothing but the list requests of that listing:
    no creation request goes out.  And a run in which a creation request
    went out is one whose listing of the parent failed or held no folder
    of that name. *)
Theorem createFolder_returns_existing (c : apiClient) (name : string) (parentID : Z)
    (n : Net) :
  (forall entries n1 x,
     listEntries c (checkParent c parentID) n = (Ok entries, n1) ->
     In x entries -> Name x = name -> Type_ x = "folder"%string ->
     exists e,
       firstFolder name entries e
       /\ createFolder c name parentID n = (Ok e, n1)
       /\ Adds (listOf (checkParent c parentID)) n n1)
  /\ (forall evs,
        trace (snd (createFolder c name parentID n)) = trace n ++ evs ->
        Exists isCreateEvent evs ->
        showsNoFolder name (fst (listEntries c (checkParent c parentID) n))).
Proof.
  split.
  - intros entries n1 x Hlist Hin Hname Hty.
    destruct (findFolder_first name entries x Hin Hname Hty) as (e & Hfind & Hfirst).
    destruct (createFolder_existing c name parentID n n1 entries e Hlist Hfind) as [Hrun Hadds].
    exists e. repeat split; assumption.
  - intros evs Htrace Hex.
    pose proof (createFolder_request_only_if_absent c name parentID n evs Htrace Hex) as H.
    destruct (fst (listEntries c (checkParent c parentID) n)) as [entries|err]; [|exact I].
    apply findFolder_None. exact H.
Qed.

(** A parent that lists the file a and the folder a: the folder is
    returned after the one list request. *)
Lemma createFolder_returns_existing_witness :
  exists e,
    firstFolder "a" [fileA; folderA] e
    /\ createFolder (mkApiClient ApiPart0 10) "a" 5
         (mkNet [pageReply (mkListEntriesResponse [fileA; folderA] 1 1)] [])
       = (Ok e,
          mkNet [] [EvCall (ReqList (Some 5) 1)
                      (pageReply (mkListEntriesResponse [fileA; folderA] 1 1))])
    /\ Adds (listOf (Some 5))
         (mkNet [pageReply (mkListEntriesResponse [fileA; folderA] 1 1)] [])
         (mkNet [] [EvCall (ReqList (Some 5) 1)
                      (pageReply (mkListEntriesResponse [fileA; folderA] 1 1))]).
Proof.
  exact (proj1 (createFolder_returns_existing (mkApiClient ApiPart0 10) "a" 5
                  (mkNet [pageReply (mkListEntriesResponse [fileA; folderA] 1 1)] []))
           [fileA; folderA]
           (mkNet [] [EvCall (ReqList (Some 5) 1)
                        (pageReply (mkListEntriesResponse [fileA; folderA] 1 1))])
           folderA eq_refl (or_intror (or_introl eq_refl)) eq_refl eq_refl).
Defined.

(** ** Reconciliation after a 422 *)

Lemma sleeps_app t1 t2 : sleeps (t1 ++ t2) = (sleeps t1 + sleeps t2)%nat.
Proof.
  induction t1 as [|ev t1 IH]; simpl; [reflexivity|].
  destruct ev; rewrite IH; reflexivity.
Qed.

Lemma Adds_calls_sleeps (P : Event -> Prop) n n' :
  (forall ev, P ev -> exists rq a, ev = EvCall rq a) ->
  Adds P n n' -> sleeps (trace n') = sleeps (trace n).
Proof.
  intros HP (evs & -> & Hall & _). rewrite sleeps_app.
  assert (sleeps evs = O) as ->; [|lia].
  induction Hall as [|ev evs Hev _ IH]; simpl; [reflexivity|].
  destruct (HP _ Hev) as (rq & a & ->). exact IH.
Qed.

Lemma listEntries_sleeps c parentID n :
  sleeps (trace (snd (listEntries c parentID n))) = sleeps (trace n).
Proof.
  apply (Adds_calls_sleeps (listOf parentID)); [|apply listEntries_Adds].
  intros ev (page & a & ->). eauto.
Qed.

(** A 422 ends the paced call of [createFolder] at once: the creation
    request is not sent again. *)
Lemma pacerCall_create_422 retries rq a rest tr :
  respStatus a = Some 422 ->
  exists cap,
    pacerCall (S retries) (pacedCreate rq)
      (mkCaptured None zeroCreateFolderResponse) (mkNet (a :: rest) tr)
    = (callErr a, cap, mkNet rest (tr ++ [EvCall rq a]))
    /\ httpResp cap = Some 422.
Proof.
  intros H. unfold pacerCall, pacedCreate, CallJSON, roundTrip. simpl.
  rewrite H. simpl. eexists. split; reflexivity.
Qed.

(** In any paced call of [createFolder], an attempt answered 422 is the
    last one. *)
Lemma pacerLoop_create_422_last rq retries :
  forall err c n,
  exists evs,
    trace (snd (pacerLoop retries (pacedCreate rq) err c n)) = trace n ++ evs /\
    forall front a back,
      evs = front ++ EvCall rq a :: back -> respStatus a = Some 422 -> back = [].
Proof.
  induction retries as [|k IH]; intros err c n; simpl.
  - exists []. rewrite app_nil_r. split; [reflexivity|].
    intros front a back H. destruct front; discriminate.
  - unfold pacedCreate at 1. unfold CallJSON.
    destruct (roundTrip rq n) as [a n1] eqn:Hrt.
    assert (Ht : trace n1 = trace n ++ [EvCall rq a]).
    { unfold roundTrip in Hrt. destruct (script n); injection Hrt as <- <-; reflexivity. }
    cbn [httpResp].
    destruct (respStatus a) as [code|] eqn:Hst.
    + destruct (code =? 422) eqn:Hc.
      * exists [EvCall rq a]. split; [exact Ht|].
        intros front a' back H _. destruct front as [|x front].
        -- injection H as _ <-. reflexivity.
        -- destruct front; discriminate.
      * destruct (shouldRetry (ctxDone a) (Some code) (callErr a)) as [retry err'].
        destruct retry.
        -- destruct (IH err' (mkCaptured (Some code)
                               match callErr a with
                               | Some _ => resp c
                               | None => decodeFolder (body a) (resp c)
                               end) n1) as (evs & Hevs & Hlast).
           exists (EvCall rq a :: evs). split.
           ++ rewrite Hevs, Ht, <- app_assoc. reflexivity.
           ++ intros front a' back H H422. destruct front as [|x front].
              ** injection H as <- _. rewrite Hst in H422.
                 injection H422 as ->. discriminate.
              ** injection H as _ H. eapply Hlast; eassumption.
        -- exists [EvCall rq a]. split; [exact Ht|].
           intros front a' back H _. destruct front as [|x front].
           ++ injection H as _ <-. reflexivity.
           ++ destruct front; discriminate.
    + destruct (shouldRetry (ctxDone a) None (callErr a)) as [retry err'].
      destruct retry.
      * destruct (IH err' (mkCaptured None
                             match callErr a with
                             | Some _ => resp c
                             | None => decodeFolder (body a) (resp c)
                             end) n1) as (evs & Hevs & Hlast).
        exists (EvCall rq a :: evs). split.
        -- rewrite Hevs, Ht, <- app_assoc. reflexivity.
        -- intros front a' back H H422. destruct front as [|x front].
           ++ injection H as <- _. rewrite Hst in H422. discriminate.
           ++ injection H as _ H. eapply Hlast; eassumption.
      * exists [EvCall rq a]. split; [exact Ht|].
        intros front a' back H _. destruct front as [|x front].
        -- injection H as _ <-. reflexivity.
        -- destruct front; discriminate.
Qed.

Lemma searchAfter422_spec retries name checkParentID :
  forall left attempt n,
    0 <= attempt ->
    let run := Part0.searchAfter422 left attempt retries name checkParentID n in
    Adds (searchEvent checkParentID) n (snd run)
    /\ (sleeps (trace (snd run))
        <= sleeps (trace n) + (if (attempt =? 0)%Z then Nat.pred left else left))%nat
    /\ (forall found, fst run = Some found ->
          Name found = name /\ Type_ found = "folder"%string).
Proof.
  induction left as [|left IH]; intros attempt n Hatt; cbn zeta.
  - simpl. split; [apply Adds_refl|]. split; [lia|]. intros found H; discriminate.
  - cbn [Part0.searchAfter422].
    set (n0 := if attempt >? 0 then logEvent (EvSleep 500) n else n).
    assert (H0 : Adds (searchEvent checkParentID) n n0
                 /\ (sleeps (trace n0)
                     <= sleeps (trace n) + (if (attempt =? 0)%Z then 0 else 1))%nat).
    { unfold n0. destruct (attempt >? 0) eqn:Hgt.
      - split; [apply Adds_log; right; reflexivity|].
        replace (attempt =? 0) with false by lia.
        unfold logEvent. cbn [trace]. rewrite sleeps_app. simpl. lia.
      - replace (attempt =? 0) with true by lia.
        split; [apply Adds_refl | lia]. }
    destruct H0 as [HA0 HS0].
    pose proof (listEntries_sleeps (mkApiClient ApiPart0 retries) checkParentID n0) as HS1.
    pose proof (listEntries_Adds (mkApiClient ApiPart0 retries) checkParentID n0) as HA1.
    unfold listEntries in HS1, HA1. cbn [revision lowLevelRetries] in HS1, HA1.
    destruct (Part0.listEntries retries checkParentID n0) as [listed n1].
    cbn [snd] in HS1, HA1.
    apply (Adds_mono _ (searchEvent checkParentID)) in HA1; [|intros ev H; left; exact H].
    destruct (match listed with
              | Ok entries => findFolder name entries
              | Err _ => None
              end) as [e|] eqn:Hhit.
    + cbn [fst snd]. split; [eapply Adds_trans; eassumption|]. split.
      * destruct (attempt =? 0); simpl; lia.
      * intros found [= <-]. destruct listed as [entries|]; [|discriminate].
        apply findFolder_Some in Hhit. tauto.
    + destruct (IH (attempt + 1) n1 ltac:(lia)) as (HA2 & HS2 & Hf2).
      replace (attempt + 1 =? 0) with false in HS2 by lia.
      split; [eapply Adds_trans; [eapply Adds_trans|]; eassumption|].
      split; [|exact Hf2].
      destruct (attempt =? 0); simpl; lia.
Qed.

(** One listing of the search, by what the scan of the code makes of it. *)
Lemma relisted_scan retries name cp n (run : result FileEntry * Net)
    (otherwise : Net -> Prop) :
  (forall entries m found,
     Part0.listEntries retries cp n = (Ok entries, m) ->
     findFolder name entries = Some found -> run = (Ok found, m)) ->
  (forall listed m,
     Part0.listEntries retries cp n = (listed, m) ->
     match listed with
     | Ok entries => findFolder name entries
     | Err _ => None
     end = None -> otherwise m) ->
  relisted (mkApiClient ApiPart0 retries) name cp n run otherwise.
Proof.
  intros Hhit Hmiss. unfold relisted, listEntries. cbn [revision lowLevelRetries].
  destruct (Part0.listEntries retries cp n) as [[entries|err] m] eqn:Hlist.
  - destruct (findFolder name entries) as [found|] eqn:Hfind.
    + left. exists found. split; [|exact (Hhit entries m found eq_refl Hfind)].
      pose proof (findFolder_Some _ _ _ Hfind) as (Hin & Hname & Hty).
      destruct (findFolder_first name entries found Hin Hname Hty) as (e & He & Hfirst).
      congruence.
    + right. split; [apply findFolder_None; exact Hfind|].
      exact (Hmiss (Ok entries) m eq_refl Hfind).
  - exact (Hmiss (Err err) m eq_refl eq_refl).
Qed.

(** The search after a 422, listing by listing. *)
Lemma searchAfter422_relisted retries name cp n e :
  let run := match Part0.searchAfter422 3 0 retries name cp n with
             | (Some found, n3) => (Ok found, n3)
             | (None, n3) => (Err (ErrWrap "create folder failed" e), n3)
             end in
  relisted (mkApiClient ApiPart0 retries) name cp n run
    (fun m1 =>
       relisted (mkApiClient ApiPart0 retries) name cp (logEvent (EvSleep 500) m1) run
         (fun m2 =>
            relisted (mkApiClient ApiPart0 retries) name cp (logEvent (EvSleep 500) m2) run
              (fun m3 => run = (Err (ErrWrap "create folder failed" e), m3)))).
Proof.
  intros run. subst run. cbn [Part0.searchAfter422].
  change (0 >? 0) with false. change (0 + 1 >? 0) with true. change (0 + 1 + 1 >? 0) with true.
  cbv iota.
  apply relisted_scan.
  { intros entries m found Hlist Hfind. rewrite Hlist, Hfind. reflexivity. }
  intros l1 m1 Hlist1 Hmiss1. rewrite Hlist1, Hmiss1.
  apply relisted_scan.
  { intros entries m found Hlist Hfind. rewrite Hlist, Hfind. reflexivity. }
  intros l2 m2 Hlist2 Hmiss2. rewrite Hlist2, Hmiss2.
  apply relisted_scan.
  { intros entries m found Hlist Hfind. rewrite Hlist, Hfind. reflexivity. }
  intros l3 m3 Hlist3 Hmiss3. rewrite Hlist3, Hmiss3. reflexivity.
Qed.

(** C5, as amended.  A creation request that ends with a 422 and its error,
    after a first listing that showed no folder of that name:
    - in the revision of [part_000], is followed by a listing of the
      parent; when that listing fails or holds no folder of the name, by
      a sleep of 500 ms and a second listing; and when that one fails or
      holds none, by a sleep of 500 ms and a third listing.  The first of
      these listings to hold a folder of the name ends the run, which
      returns the first such folder of that listing; when none of the
      three does, the run returns the error of the 422 wrapped as "create
      folder failed".  So what follows the 422 is listings of the parent
      and sleeps of 500 ms only, at most two sleeps and three listings:
      no creation request;
    - in the revision of [api.go], ends the call: the failure is returned
      at once and nothing more is sent. *)
Theorem createFolder_422_reconciliation (c : apiClient) (name : string) (parentID : Z)
    (n n1 n2 : Net) (listed : result (list FileEntry)) (e : error)
    (cap : Captured CreateFolderResponse) :
  listEntries c (checkParent c parentID) n = (listed, n1) ->
  showsNoFolder name listed ->
  pacerCall (lowLevelRetries c) (pacedCreate (ReqCreateFolder name parentID))
    (mkCaptured None zeroCreateFolderResponse) n1 = (Some e, cap, n2) ->
  httpResp cap = Some 422 ->
  let run := createFolder c name parentID n in
  let cp := checkParent c parentID in
  match revision c with
  | ApiPart0 =>
      relisted c name cp n2 run
        (fun m1 =>
           relisted c name cp (logEvent (EvSleep 500) m1) run
             (fun m2 =>
                relisted c name cp (logEvent (EvSleep 500) m2) run
                  (fun m3 => run = (Err (ErrWrap "create folder failed" e), m3))))
      /\ Adds (searchEvent cp) n2 (snd run)
      /\ (sleeps (trace (snd run)) <= sleeps (trace n2) + 2)%nat
      /\ ((exists found, fst run = Ok found /\ Name found = name
                         /\ Type_ found = "folder"%string)
          \/ fst run = Err (ErrWrap "create folder failed" e))
  | ApiGo => run = (Err (ErrWrap "create folder failed" e), n2)
  end.
Proof.
  intros Hlist Hmiss Hpost H422 run cp. subst run cp.
  apply findFolder_showsNoFolder in Hmiss.
  destruct c as [rev retries]. cbn [lowLevelRetries] in Hpost.
  unfold createFolder, listEntries, checkParent in Hlist |- *.
  cbn [revision lowLevelRetries] in Hlist |- *.
  destruct rev.
  - unfold Api_go.createFolder. rewrite Hlist, Hmiss, Hpost. reflexivity.
  - unfold Part0.createFolder. rewrite Hlist, Hmiss, Hpost, H422. cbn [Z.eqb Pos.eqb].
    set (cp := if parentID =? 0 then None else Some parentID).
    split; [exact (searchAfter422_relisted retries name cp n2 e)|].
    destruct (searchAfter422_spec retries name cp 3 0 n2 ltac:(lia))
      as (HA & HS & Hfound).
    destruct (Part0.searchAfter422 3 0 retries name cp n2) as [[found|] n3];
      cbn [fst snd] in *.
    + split; [exact HA|]. split; [exact HS|]. left. exists found.
      split; [reflexivity|]. apply Hfound. reflexivity.
    + split; [exact HA|]. split; [exact HS|]. right. reflexivity.
Qed.

(** A run in which the first listing after the 422 holds nothing and the
    second holds the folder. *)
Lemma createFolder_422_reconciliation_witness :
  let c := mkApiClient ApiPart0 10 in
  let run := createFolder c "a" 5 (mkNet reconcileScript []) in
  let n2 := mkNet [emptyPage; pageReply (mkListEntriesResponse [folderA] 1 1)]
              [EvCall (ReqList (Some 5) 1) emptyPage;
               EvCall (ReqCreateFolder "a" 5) exists422] in
  relisted c "a" (Some 5) n2 run
    (fun m1 =>
       relisted c "a" (Some 5) (logEvent (EvSleep 500) m1) run
         (fun m2 =>
            relisted c "a" (Some 5) (logEvent (EvSleep 500) m2) run
              (fun m3 =>
                 run = (Err (ErrWrap "create folder failed"
                               (ErrHTTP "422 Unprocessable Content")), m3))))
  /\ Adds (searchEvent (Some 5)) n2 (snd run)
  /\ (sleeps (trace (snd run)) <= sleeps (trace n2) + 2)%nat
  /\ ((exists found, fst run = Ok found /\ Name found = "a"%string
                     /\ Type_ found = "folder"%string)
      \/ fst run = Err (ErrWrap "create folder failed" (ErrHTTP "422 Unprocessable Content"))).
Proof.
  exact (createFolder_422_reconciliation (mkApiClient ApiPart0 10) "a" 5
           (mkNet reconcileScript [])
           (mkNet [exists422; emptyPage; pageReply (mkListEntriesResponse [folderA] 1 1)]
              [EvCall (ReqList (Some 5) 1) emptyPage])
           (mkNet [emptyPage; pageReply (mkListEntriesResponse [folderA] 1 1)]
              [EvCall (ReqList (Some 5) 1) emptyPage; EvCall (ReqCreateFolder "a" 5) exists422])
           (Ok []) (ErrHTTP "422 Unprocessable Content")
           (mkCaptured (Some 422) zeroCreateFolderResponse)
           eq_refl (fun x (H : In x []) => match H with end) eq_refl eq_refl).
Defined.

(** What the run above does: one sleep, the folder found at the second
    listing. *)
Lemma createFolder_422_found_on_second_listing :
  createFolder (mkApiClient ApiPart0 10) "a" 5 (mkNet reconcileScript [])
  = (Ok folderA,
     mkNet []
       [EvCall (ReqList (Some 5) 1) emptyPage;
        EvCall (ReqCreateFolder "a" 5) exists422;
        EvCall (ReqList (Some 5) 1) emptyPage;
        EvSleep 500;
        EvCall (ReqList (Some 5) 1) (pageReply (mkListEntriesResponse [folderA] 1 1))]).
Proof. reflexivity. Qed.

(** C5 as stated fails on the revision of [api.go]: after the 422 the parent
    is not listed again; the listing that holds the folder stays unread and
    the failure is returned. *)
Lemma createFolder_api_go_does_not_relist :
  createFolder (mkApiClient ApiGo 10) "a" 5 (mkNet reconcileScript [])
  = (Err (ErrWrap "create folder failed" (ErrHTTP "422 Unprocessable Content")),
     mkNet [emptyPage; pageReply (mkListEntriesResponse [folderA] 1 1)]
       [EvCall (ReqList (Some 5) 1) emptyPage;
        EvCall (ReqCreateFolder "a" 5) exists422]).
Proof. reflexivity. Qed.

(** ** Resolving the empty path *)

(** C3, as amended.  For a path that is empty once its leading and trailing
    separators are trimmed, no request is sent and the caches are left as
    they are, and
    - the revision with [dirCache] returns the made-up folder entry of id 0;
    - the revision with [pathCache] returns what the caches hold for the
      path as given and fails with [ErrorObjectNotFound] when they hold
      nothing ([rootID] being nil, as [NewFs] leaves it). *)
Theorem findEntry_empty_path (p : string) :
  GoStrings.Trim p = ""%string ->
  (forall f n, DirCacheFs.findEntry p f n = (Ok DirCacheFs.rootEntry, f, n))
  /\ (forall f n,
        PathCacheFs.rootID f = None ->
        PathCacheFs.findEntry p f n
        = (match cachedEntry f p with
           | Some entry => Ok entry
           | None => Err ErrorObjectNotFound
           end, f, n)).
Proof.
  intros Hp. split.
  - intros f n. unfold DirCacheFs.findEntry. rewrite Hp. reflexivity.
  - intros f n Hroot. unfold PathCacheFs.findEntry, cachedEntry.
    destruct (match PathCacheFs.pathCache f !! p with
              | Some id => PathCacheFs.entryCache f !! id
              | None => None
              end) as [entry|]; [reflexivity|].
    rewrite Hp, Hroot. reflexivity.
Qed.

Lemma findEntry_empty_path_witness :
  DirCacheFs.findEntry "//" (DirCacheFs.newFs "" (mkApiClient ApiGo 10)) (mkNet [emptyPage] [])
  = (Ok (mkFileEntry 0 "" "folder" 0 None 0 None ""),
     DirCacheFs.newFs "" (mkApiClient ApiGo 10), mkNet [emptyPage] [])
  /\ PathCacheFs.findEntry "//" (PathCacheFs.newFs "" (mkApiClient ApiGo 10))
       (mkNet [emptyPage] [])
     = (Err ErrorObjectNotFound,
        PathCacheFs.newFs "" (mkApiClient ApiGo 10), mkNet [emptyPage] []).
Proof.
  split.
  - exact (proj1 (findEntry_empty_path "//" eq_refl)
             (DirCacheFs.newFs "" (mkApiClient ApiGo 10)) (mkNet [emptyPage] [])).
  - exact (proj2 (findEntry_empty_path "//" eq_refl)
             (PathCacheFs.newFs "" (mkApiClient ApiGo 10)) (mkNet [emptyPage] []) eq_refl).
Defined.

(** C3 as stated fails on the revision with [pathCache]: on a fresh [Fs]
    the empty path does not resolve. *)
Lemma findEntry_pathCache_root_not_found :
  GoStrings.Trim "" = ""%string
  /\ PathCacheFs.findEntry "" (PathCacheFs.newFs "" (mkApiClient ApiGo 10))
       (mkNet [emptyPage] [])
     = (Err ErrorObjectNotFound,
        PathCacheFs.newFs "" (mkApiClient ApiGo 10), mkNet [emptyPage] []).
Proof. split; reflexivity. Qed.

(** ** What the operations of the two revisions send *)

Lemma DirCacheFs_walk_Adds remotePath :
  forall ahead walked currentID f n,
    Adds isListEvent n (snd (DirCacheFs.walk remotePath walked ahead currentID f n)).
Proof.
  induction ahead as [|part ahead IH]; intros walked currentID f n; simpl.
  - apply Adds_refl.
  - destruct (DirCacheFs.dirCache f !! GoStrings.Join (walked ++ [part])); [apply IH|].
    set (parentID := match walked with [] => None | _ :: _ => Some currentID end).
    pose proof (listEntries_Adds (DirCacheFs.api f) parentID n) as H.
    apply (Adds_mono _ isListEvent) in H; [|apply listOf_isListEvent].
    destruct (listEntries (DirCacheFs.api f) parentID n) as [listed n1]. simpl in H.
    destruct listed as [entries|e]; [|exact H].
    destruct (find _ entries) as [e|]; [|exact H].
    destruct (String.eqb (GoStrings.Join (walked ++ [part])) remotePath); [exact H|].
    eapply Adds_trans; [exact H | apply IH].
Qed.

Lemma DirCacheFs_findEntry_Adds remotePath f n :
  Adds isListEvent n (snd (DirCacheFs.findEntry remotePath f n)).
Proof.
  unfold DirCacheFs.findEntry.
  destruct (String.eqb (GoStrings.Trim remotePath) ""); [apply Adds_refl|].
  destruct (DirCacheFs.dirCache f !! GoStrings.Trim remotePath); [apply Adds_refl|].
  apply DirCacheFs_walk_Adds.
Qed.

Lemma PathCacheFs_walk_Adds :
  forall parts currentID f n,
    Adds isListEvent n (snd (PathCacheFs.walk parts currentID f n)).
Proof.
  induction parts as [|part parts IH]; intros currentID f n; simpl.
  - apply Adds_refl.
  - destruct (String.eqb part ""); [apply IH|].
    pose proof (listEntries_Adds (PathCacheFs.api f) currentID n) as H.
    apply (Adds_mono _ isListEvent) in H; [|apply listOf_isListEvent].
    destruct (listEntries (PathCacheFs.api f) currentID n) as [listed n1]. simpl in H.
    destruct listed as [entries|e]; [|exact H].
    destruct (find _ entries) as [e|]; [|exact H].
    eapply Adds_trans; [exact H | apply IH].
Qed.

Lemma PathCacheFs_findEntry_Adds remotePath f n :
  Adds isListEvent n (snd (PathCacheFs.findEntry remotePath f n)).
Proof.
  unfold PathCacheFs.findEntry.
  destruct (match PathCacheFs.pathCache f !! remotePath with
            | Some id => PathCacheFs.entryCache f !! id
            | None => None
            end); [apply Adds_refl|].
  pose proof (PathCacheFs_walk_Adds (GoStrings.Split (GoStrings.Trim remotePath))
                (PathCacheFs.rootID f) f n) as H.
  destruct (PathCacheFs.walk _ _ f n) as [[walked f1] n1]. simpl in H.
  destruct walked as [[currentID|]|e]; try exact H.
  destruct (PathCacheFs.entryCache f1 !! currentID); exact H.
Qed.

Lemma pacerCall_first {B} (decode : Body -> B -> B) rq retries c n :
  exists a evs,
    trace (snd (pacerCall (S retries) (pacedJSON decode rq) c n))
    = trace n ++ EvCall rq a :: evs
    /\ Forall (callOf rq) evs.
Proof.
  unfold pacerCall. cbn [pacerLoop].
  unfold pacedJSON at 1. unfold CallJSON.
  destruct (roundTrip rq n) as [a n1] eqn:Hrt.
  assert (Ht : trace n1 = trace n ++ [EvCall rq a]).
  { unfold roundTrip in Hrt. destruct (script n); injection Hrt as <- <-; reflexivity. }
  cbn [httpResp].
  destruct (shouldRetry (ctxDone a) (respStatus a) (callErr a)) as [retry err'].
  destruct retry.
  - pose proof (pacerLoop_Adds rq _ (pacedJSON_single decode rq) retries err'
                  (mkCaptured (respStatus a)
                     match callErr a with
                     | Some _ => resp c
                     | None => decode (body a) (resp c)
                     end) n1) as (evs & Hevs & Hall & _).
    exists a, evs. split; [|exact Hall].
    rewrite Hevs, Ht, <- app_assoc. reflexivity.
  - exists a, []. split; [exact Ht | constructor].
Qed.

Lemma renameEntry_Adds c id newName n :
  Adds (callOf (ReqRename id newName)) n (snd (renameEntry c id newName n)).
Proof.
  unfold renameEntry.
  pose proof (pacerCall_Adds _ _ (pacedJSON_single decodeEntry (ReqRename id newName))
                (lowLevelRetries c) (mkCaptured None zeroEntry) n) as H.
  destruct (pacerCall _ _ _ n) as [[err cap] n1]. simpl in H.
  destruct err; exact H.
Qed.

Lemma renameEntry_sends c id newName n :
  (1 <= lowLevelRetries c)%nat ->
  exists a evs,
    trace (snd (renameEntry c id newName n)) = trace n ++ EvCall (ReqRename id newName) a :: evs.
Proof.
  intros Hr. unfold renameEntry.
  destruct (lowLevelRetries c) as [|k]; [lia|].
  destruct (pacerCall_first decodeEntry (ReqRename id newName) k (mkCaptured None zeroEntry) n)
    as (a & evs & Ht & _).
  destruct (pacerCall _ _ _ n) as [[err cap] n1]. simpl in Ht.
  exists a, evs. destruct err; exact Ht.
Qed.

Lemma moveEntries_Adds c ids destinationID n :
  Adds (callOf (ReqMove ids destinationID)) n (snd (moveEntries c ids destinationID n)).
Proof.
  unfold moveEntries.
  pose proof (pacerCall_Adds _ _ (pacedJSON_single decodeNothing (ReqMove ids destinationID))
                (lowLevelRetries c) (mkCaptured None tt) n) as H.
  destruct (pacerCall _ _ _ n) as [[err cap] n1]. simpl in H.
  destruct err; exact H.
Qed.

Lemma deleteEntries_Adds c ids permanent n :
  Adds (callOf (ReqDelete ids permanent)) n (snd (deleteEntries c ids permanent n)).
Proof.
  unfold deleteEntries.
  pose proof (pacerCall_Adds _ _ (pacedJSON_single decodeNothing (ReqDelete ids permanent))
                (lowLevelRetries c) (mkCaptured None tt) n) as H.
  destruct (pacerCall _ _ _ n) as [[err cap] n1]. simpl in H.
  destruct err; exact H.
Qed.

(** [findEntry] of the [dirCache] revision changes nothing but [dirCache]. *)
Lemma DirCacheFs_addDirCacheEntry_frame absPath entry f :
  DirCacheFs.root (DirCacheFs.addDirCacheEntry absPath entry f) = DirCacheFs.root f
  /\ DirCacheFs.api (DirCacheFs.addDirCacheEntry absPath entry f) = DirCacheFs.api f
  /\ DirCacheFs.mkdirCache (DirCacheFs.addDirCacheEntry absPath entry f)
     = DirCacheFs.mkdirCache f.
Proof.
  unfold DirCacheFs.addDirCacheEntry. destruct (negb _); auto.
Qed.

Lemma DirCacheFs_walk_frame remotePath :
  forall ahead walked currentID f n,
    let f' := snd (fst (DirCacheFs.walk remotePath walked ahead currentID f n)) in
    DirCacheFs.root f' = DirCacheFs.root f
    /\ DirCacheFs.api f' = DirCacheFs.api f
    /\ DirCacheFs.mkdirCache f' = DirCacheFs.mkdirCache f.
Proof.
  induction ahead as [|part ahead IH]; intros walked currentID f n; simpl; [auto|].
  destruct (DirCacheFs.dirCache f !! GoStrings.Join (walked ++ [part])); [apply IH|].
  destruct (listEntries (DirCacheFs.api f) _ n) as [listed n1].
  destruct listed as [entries|e]; [|simpl; auto].
  destruct (find _ entries) as [e|]; [|simpl; auto].
  set (f1 := if String.eqb (Type_ e) "folder"
             then DirCacheFs.addDirCacheEntry (GoStrings.Join (walked ++ [part])) e f
             else f).
  assert (Hf1 : DirCacheFs.root f1 = DirCacheFs.root f
                /\ DirCacheFs.api f1 = DirCacheFs.api f
                /\ DirCacheFs.mkdirCache f1 = DirCacheFs.mkdirCache f).
  { unfold f1. destruct (String.eqb (Type_ e) "folder"); [|auto].
    apply DirCacheFs_addDirCacheEntry_frame. }
  destruct (String.eqb (GoStrings.Join (walked ++ [part])) remotePath); [exact Hf1|].
  destruct Hf1 as (H1 & H2 & H3).
  destruct (IH (walked ++ [part]) (ID e) f1 n1) as (G1 & G2 & G3).
  cbn zeta in *. rewrite G1, G2, G3. auto.
Qed.

Lemma DirCacheFs_findEntry_frame remotePath f n :
  let f' := snd (fst (DirCacheFs.findEntry remotePath f n)) in
  DirCacheFs.root f' = DirCacheFs.root f
  /\ DirCacheFs.api f' = DirCacheFs.api f
  /\ DirCacheFs.mkdirCache f' = DirCacheFs.mkdirCache f.
Proof.
  unfold DirCacheFs.findEntry.
  destruct (String.eqb (GoStrings.Trim remotePath) ""); [simpl; auto|].
  destruct (DirCacheFs.dirCache f !! GoStrings.Trim remotePath); [simpl; auto|].
  apply DirCacheFs_walk_frame.
Qed.

Lemma DirCacheFs_readMetadata_Adds o f n :
  Adds isListEvent n (snd (DirCacheFs.readMetadata o f n)).
Proof.
  unfold DirCacheFs.readMetadata.
  set (remotePath := GoPath.Join2 (DirCacheFs.root f) (objRemote o)).
  destruct (negb (String.eqb (GoPath.Dir remotePath) "")
            && negb (String.eqb (GoPath.Dir remotePath) ".")).
  - pose proof (DirCacheFs_findEntry_Adds (GoPath.Dir remotePath) f n) as H.
    destruct (DirCacheFs.findEntry (GoPath.Dir remotePath) f n) as [[parentEntry f1] n1].
    simpl in H. destruct parentEntry as [e|err]; [|exact H].
    pose proof (listEntries_Adds (DirCacheFs.api f1) (Some (ID e)) n1) as H2.
    apply (Adds_mono _ isListEvent) in H2; [|apply listOf_isListEvent].
    destruct (listEntries (DirCacheFs.api f1) (Some (ID e)) n1) as [listed n2]. simpl in H2.
    assert (H3 : Adds isListEvent n n2) by (eapply Adds_trans; eassumption).
    destruct listed as [entries|err]; [|exact H3].
    destruct (find _ entries); exact H3.
  - pose proof (listEntries_Adds (DirCacheFs.api f) None n) as H2.
    apply (Adds_mono _ isListEvent) in H2; [|apply listOf_isListEvent].
    destruct (listEntries (DirCacheFs.api f) None n) as [listed n2]. simpl in H2.
    destruct listed as [entries|err]; [|exact H2].
    destruct (find _ entries); exact H2.
Qed.

Lemma PathCacheFs_readMetadata_Adds o f n :
  Adds isListEvent n (snd (PathCacheFs.readMetadata o f n)).
Proof.
  unfold PathCacheFs.readMetadata.
  pose proof (PathCacheFs_findEntry_Adds
                (GoPath.Join2 (PathCacheFs.root f) (objRemote o)) f n) as H.
  destruct (PathCacheFs.findEntry _ f n) as [[found f1] n1]. simpl in H.
  destruct found as [entry|err]; [|exact H].
  destruct (String.eqb (Type_ entry) "folder"); exact H.
Qed.

Lemma DirCacheFs_moveToParent_api id dstPath f n :
  DirCacheFs.api (snd (fst (DirCacheFs.moveToParent id dstPath f n))) = DirCacheFs.api f.
Proof.
  unfold DirCacheFs.moveToParent.
  destruct (negb (String.eqb (GoPath.Dir dstPath) "")
            && negb (String.eqb (GoPath.Dir dstPath) ".")).
  - pose proof (DirCacheFs_findEntry_frame (GoPath.Dir dstPath) f n) as (_ & H & _).
    destruct (DirCacheFs.findEntry (GoPath.Dir dstPath) f n) as [[parentEntry f1] n1].
    simpl in H. destruct parentEntry as [e|err]; [|exact H].
    destruct (moveEntries (DirCacheFs.api f1) [id] (ID e) n1). exact H.
  - destruct (moveEntries (DirCacheFs.api f) [id] 0 n). reflexivity.
Qed.

(** A list request is not a rename request. *)
Lemma no_rename_among_lists id newName evs :
  Forall isListEvent evs -> ~ Exists (callOf (ReqRename id newName)) evs.
Proof.
  intros Hall Hex. apply Exists_exists in Hex as (ev & Hin & (a & ->)).
  rewrite Forall_forall in Hall. destruct (Hall _ Hin) as (p & pg & a' & H). discriminate.
Qed.

(** In the revision with [dirCache], once [moveEntries] has succeeded,
    [Move] sends a rename request exactly when the base name of the
    destination differs from the base name of the source's remote path,
    and a rename that fails is what [Move] returns. *)
Lemma DirCacheFs_Move_renames_iff (srcObj : Object) (remote : string)
    (f f1 : DirCacheFs.Fs) (n n1 : Net) :
  (1 <= lowLevelRetries (DirCacheFs.api f))%nat ->
  let dstPath := GoPath.Join2 (DirCacheFs.root f) remote in
  DirCacheFs.moveToParent (objID srcObj) dstPath f n = (None, f1, n1) ->
  let run := DirCacheFs.Move (DrimeObject srcObj) remote f n in
  (exists evs,
     trace (snd run) = trace n1 ++ evs /\
     (Exists (callOf (ReqRename (objID srcObj) (GoPath.Base dstPath))) evs
      <-> GoPath.Base dstPath <> GoPath.Base (objRemote srcObj)))
  /\ (forall err n2,
        GoPath.Base dstPath <> GoPath.Base (objRemote srcObj) ->
        renameEntry (DirCacheFs.api f1) (objID srcObj) (GoPath.Base dstPath) n1 = (Err err, n2) ->
        run = (Err err, f1, n2)).
Proof.
  intros Hretries dstPath Hmove run.
  pose proof (DirCacheFs_moveToParent_api (objID srcObj) dstPath f n) as Hapi.
  rewrite Hmove in Hapi. simpl in Hapi.
  subst run. unfold DirCacheFs.Move. fold dstPath. rewrite Hmove.
  destruct (String.eqb (GoPath.Base dstPath) (GoPath.Base (objRemote srcObj))) eqn:Heq.
  - apply String.eqb_eq in Heq. cbn [negb]. split.
    + destruct (DirCacheFs_readMetadata_Adds (mkObject remote 0 0 0) f1 n1)
        as (evs & Ht & Hall & _).
      exists evs. split; [exact Ht|]. split.
      * intros Hex. exfalso. eapply no_rename_among_lists; eassumption.
      * intros Hne. congruence.
    + intros err n2 Hne. congruence.
  - apply String.eqb_neq in Heq. cbn [negb]. split.
    + destruct (renameEntry_sends (DirCacheFs.api f1) (objID srcObj) (GoPath.Base dstPath) n1)
        as (a & evs & Ht); [rewrite Hapi; exact Hretries|].
      destruct (renameEntry (DirCacheFs.api f1) (objID srcObj) (GoPath.Base dstPath) n1)
        as [r n2]. simpl in Ht.
      destruct r as [renamed|err].
      * destruct (DirCacheFs_readMetadata_Adds (mkObject remote 0 0 0) f1 n2)
          as (evs2 & Ht2 & _ & _).
        exists ((EvCall (ReqRename (objID srcObj) (GoPath.Base dstPath)) a :: evs) ++ evs2).
        split.
        -- unfold DirCacheFs.NewObject. rewrite Ht2, Ht, <- app_assoc. reflexivity.
        -- split; [intros _; exact Heq|]. intros _. simpl. left. eexists; reflexivity.
      * exists (EvCall (ReqRename (objID srcObj) (GoPath.Base dstPath)) a :: evs).
        split; [exact Ht|].
        split; [intros _; exact Heq|]. intros _. left. eexists; reflexivity.
    + intros err n2 _ Hren. rewrite Hren. reflexivity.
Qed.

Lemma PathCacheFs_walk_api :
  forall parts currentID f n,
    PathCacheFs.api (snd (fst (PathCacheFs.walk parts currentID f n))) = PathCacheFs.api f
    /\ PathCacheFs.root (snd (fst (PathCacheFs.walk parts currentID f n))) = PathCacheFs.root f
    /\ PathCacheFs.rootID (snd (fst (PathCacheFs.walk parts currentID f n))) = PathCacheFs.rootID f.
Proof.
  induction parts as [|part parts IH]; intros currentID f n; simpl; [auto|].
  destruct (String.eqb part ""); [apply IH|].
  destruct (listEntries (PathCacheFs.api f) currentID n) as [listed n1].
  destruct listed as [entries|e]; [|simpl; auto].
  destruct (find _ entries) as [e|]; [|simpl; auto].
  apply (IH (Some (ID e))
           (PathCacheFs.setEntryCache f (<[ID e:=e]> (PathCacheFs.entryCache f))) n1).
Qed.

Lemma PathCacheFs_findEntry_api remotePath f n :
  PathCacheFs.api (snd (fst (PathCacheFs.findEntry remotePath f n))) = PathCacheFs.api f
  /\ PathCacheFs.root (snd (fst (PathCacheFs.findEntry remotePath f n))) = PathCacheFs.root f
  /\ PathCacheFs.rootID (snd (fst (PathCacheFs.findEntry remotePath f n))) = PathCacheFs.rootID f.
Proof.
  unfold PathCacheFs.findEntry.
  destruct (match PathCacheFs.pathCache f !! remotePath with
            | Some id => PathCacheFs.entryCache f !! id
            | None => None
            end); [simpl; auto|].
  pose proof (PathCacheFs_walk_api (GoStrings.Split (GoStrings.Trim remotePath))
                (PathCacheFs.rootID f) f n) as H.
  destruct (PathCacheFs.walk _ _ f n) as [[walked f1] n1]. simpl in H.
  destruct walked as [[currentID|]|e]; try exact H.
  destruct (PathCacheFs.entryCache f1 !! currentID); exact H.
Qed.

Lemma PathCacheFs_moveToParent_api id dstPath f n :
  PathCacheFs.api (snd (fst (PathCacheFs.moveToParent id dstPath f n))) = PathCacheFs.api f.
Proof.
  unfold PathCacheFs.moveToParent.
  destruct (negb (String.eqb (GoPath.Dir dstPath) "")
            && negb (String.eqb (GoPath.Dir dstPath) ".")).
  - pose proof (PathCacheFs_findEntry_api (GoPath.Dir dstPath) f n) as (H & _).
    destruct (PathCacheFs.findEntry (GoPath.Dir dstPath) f n) as [[parentEntry f1] n1].
    simpl in H. destruct parentEntry as [e|err]; [|exact H].
    destruct (moveEntries (PathCacheFs.api f1) [id] (ID e) n1). exact H.
  - destruct (moveEntries (PathCacheFs.api f) [id] 0 n). reflexivity.
Qed.

(** In the revision with [pathCache] the test is against the whole remote
    path of the source: the rename request goes out exactly when the base
    name of the destination differs from that path. *)
Lemma PathCacheFs_Move_renames_iff (srcObj : Object) (remote : string)
    (f f1 : PathCacheFs.Fs) (n n1 : Net) :
  (1 <= lowLevelRetries (PathCacheFs.api f))%nat ->
  let dstPath := GoPath.Join2 (PathCacheFs.root f) remote in
  PathCacheFs.moveToParent (objID srcObj) dstPath f n = (None, f1, n1) ->
  exists evs,
    trace (snd (PathCacheFs.Move (DrimeObject srcObj) remote f n)) = trace n1 ++ evs /\
    (Exists (callOf (ReqRename (objID srcObj) (GoPath.Base dstPath))) evs
     <-> GoPath.Base dstPath <> objRemote srcObj).
Proof.
  intros Hretries dstPath Hmove.
  pose proof (PathCacheFs_moveToParent_api (objID srcObj) dstPath f n) as Hapi.
  rewrite Hmove in Hapi. simpl in Hapi.
  unfold PathCacheFs.Move. fold dstPath. rewrite Hmove.
  destruct (String.eqb (GoPath.Base dstPath) (objRemote srcObj)) eqn:Heq.
  - apply String.eqb_eq in Heq. cbn [negb].
    destruct (PathCacheFs_readMetadata_Adds (mkObject remote 0 0 0) f1 n1)
      as (evs & Ht & Hall & _).
    exists evs. split; [exact Ht|]. split.
    + intros Hex. exfalso. eapply no_rename_among_lists; eassumption.
    + intros Hne. congruence.
  - apply String.eqb_neq in Heq. cbn [negb].
    destruct (renameEntry_sends (PathCacheFs.api f1) (objID srcObj) (GoPath.Base dstPath) n1)
      as (a & evs & Ht); [rewrite Hapi; exact Hretries|].
    destruct (renameEntry (PathCacheFs.api f1) (objID srcObj) (GoPath.Base dstPath) n1)
      as [r n2]. simpl in Ht.
    destruct r as [renamed|err].
    + destruct (PathCacheFs_readMetadata_Adds (mkObject remote 0 0 0) f1 n2)
        as (evs2 & Ht2 & _ & _).
      exists ((EvCall (ReqRename (objID srcObj) (GoPath.Base dstPath)) a :: evs) ++ evs2).
      split.
      * unfold PathCacheFs.NewObject. rewrite Ht2, Ht, <- app_assoc. reflexivity.
      * split; [intros _; exact Heq|]. intros _. simpl. left. eexists; reflexivity.
    + exists (EvCall (ReqRename (objID srcObj) (GoPath.Base dstPath)) a :: evs).
      split; [exact Ht|].
      split; [intros _; exact Heq|]. intros _. left. eexists; reflexivity.
Qed.

(** ** Cache rows after a mutation (revision with [pathCache]) *)

(** [findEntry] answers from the caches, without a request, whenever they
    hold the path. *)
Lemma PathCacheFs_findEntry_cached p f n entry :
  cachedEntry f p = Some entry ->
  PathCacheFs.findEntry p f n = (Ok entry, f, n).
Proof.
  unfold cachedEntry, PathCacheFs.findEntry. intros ->. reflexivity.
Qed.

Lemma cachedEntry_setEntryCache_insert f p id e :
  is_Some (cachedEntry f p) ->
  is_Some (cachedEntry
             (PathCacheFs.setEntryCache f (<[id:=e]> (PathCacheFs.entryCache f))) p).
Proof.
  unfold cachedEntry. cbn [PathCacheFs.pathCache PathCacheFs.entryCache PathCacheFs.setEntryCache].
  destruct (PathCacheFs.pathCache f !! p) as [i|]; [|intros []; discriminate].
  intros H. rewrite lookup_insert_is_Some.
  destruct (decide (id = i)); [left; assumption | right; split; assumption].
Qed.

Lemma PathCacheFs_walk_keeps p :
  forall parts currentID f n,
    is_Some (cachedEntry f p) ->
    is_Some (cachedEntry (snd (fst (PathCacheFs.walk parts currentID f n))) p).
Proof.
  induction parts as [|part parts IH]; intros currentID f n H; simpl; [exact H|].
  destruct (String.eqb part ""); [apply IH; exact H|].
  destruct (listEntries (PathCacheFs.api f) currentID n) as [listed n1].
  destruct listed as [entries|e]; [|exact H].
  destruct (find _ entries) as [e|]; [|exact H].
  apply IH. apply cachedEntry_setEntryCache_insert. exact H.
Qed.

(** No row that resolves a path is lost by [findEntry]. *)
Lemma PathCacheFs_findEntry_keeps p q f n :
  is_Some (cachedEntry f p) ->
  is_Some (cachedEntry (snd (fst (PathCacheFs.findEntry q f n))) p).
Proof.
  intros H. unfold PathCacheFs.findEntry.
  destruct (match PathCacheFs.pathCache f !! q with
            | Some id => PathCacheFs.entryCache f !! id
            | None => None
            end) as [hit|] eqn:Hq; [exact H|].
  pose proof (PathCacheFs_walk_keeps p (GoStrings.Split (GoStrings.Trim q))
                (PathCacheFs.rootID f) f n H) as Hw.
  destruct (PathCacheFs.walk _ _ f n) as [[walked f1] n1]. simpl in Hw.
  destruct walked as [[currentID|]|e]; try exact Hw.
  destruct (PathCacheFs.entryCache f1 !! currentID) as [entry|] eqn:He; [|exact Hw].
  cbn [fst snd]. unfold cachedEntry in *.
  cbn [PathCacheFs.pathCache PathCacheFs.entryCache PathCacheFs.setPathCache].
  destruct (decide (q = p)) as [->|Hne].
  - (* [p] itself was not resolvable: excluded by [H] and [Hq] *)
    exfalso. unfold cachedEntry in H. rewrite Hq in H. destruct H; discriminate.
  - rewrite lookup_insert_ne by exact Hne. exact Hw.
Qed.

Lemma PathCacheFs_moveToParent_keeps p id dstPath f n :
  is_Some (cachedEntry f p) ->
  is_Some (cachedEntry (snd (fst (PathCacheFs.moveToParent id dstPath f n))) p).
Proof.
  intros H. unfold PathCacheFs.moveToParent.
  destruct (negb (String.eqb (GoPath.Dir dstPath) "")
            && negb (String.eqb (GoPath.Dir dstPath) ".")).
  - pose proof (PathCacheFs_findEntry_keeps p (GoPath.Dir dstPath) f n H) as Hk.
    destruct (PathCacheFs.findEntry (GoPath.Dir dstPath) f n) as [[parentEntry f1] n1].
    simpl in Hk. destruct parentEntry as [e|err]; [|exact Hk].
    destruct (moveEntries (PathCacheFs.api f1) [id] (ID e) n1). exact Hk.
  - destruct (moveEntries (PathCacheFs.api f) [id] 0 n). exact H.
Qed.

Lemma PathCacheFs_readMetadata_keeps p o f n :
  is_Some (cachedEntry f p) ->
  is_Some (cachedEntry (snd (fst (PathCacheFs.readMetadata o f n))) p).
Proof.
  intros H. unfold PathCacheFs.readMetadata.
  pose proof (PathCacheFs_findEntry_keeps p
                (GoPath.Join2 (PathCacheFs.root f) (objRemote o)) f n H) as Hk.
  destruct (PathCacheFs.findEntry _ f n) as [[found f1] n1]. simpl in Hk.
  destruct found as [entry|err]; [|exact Hk].
  destruct (String.eqb (Type_ entry) "folder"); exact Hk.
Qed.

(** [Move] removes no cache row: every path the caches resolved before the
    call they still resolve after it, whatever the call returns. *)
Lemma PathCacheFs_Move_keeps_rows p src remote f n :
  is_Some (cachedEntry f p) ->
  is_Some (cachedEntry (snd (fst (PathCacheFs.Move src remote f n))) p).
Proof.
  intros H. unfold PathCacheFs.Move. destruct src as [srcObj|]; [|exact H].
  pose proof (PathCacheFs_moveToParent_keeps p (objID srcObj)
                (GoPath.Join2 (PathCacheFs.root f) remote) f n H) as Hk.
  destruct (PathCacheFs.moveToParent _ _ f n) as [[err f1] n1]. simpl in Hk.
  destruct err as [err|]; [exact Hk|].
  destruct (negb (String.eqb (GoPath.Base (GoPath.Join2 (PathCacheFs.root f) remote))
                    (objRemote srcObj))).
  - destruct (renameEntry _ _ _ n1) as [r n2].
    destruct r as [renamed|err]; [|exact Hk].
    apply PathCacheFs_readMetadata_keeps. exact Hk.
  - apply PathCacheFs_readMetadata_keeps. exact Hk.
Qed.

Lemma PathCacheFs_DirMove_keeps_rows p srcRemote dstRemote f n :
  is_Some (cachedEntry f p) ->
  is_Some (cachedEntry (snd (fst (PathCacheFs.DirMove srcRemote dstRemote f n))) p).
Proof.
  intros H. unfold PathCacheFs.DirMove.
  pose proof (PathCacheFs_findEntry_keeps p
                (GoPath.Join2 (PathCacheFs.root f) srcRemote) f n H) as Hk.
  destruct (PathCacheFs.findEntry _ f n) as [[found f1] n1]. simpl in Hk.
  destruct found as [srcEntry|err]; [|exact Hk].
  pose proof (PathCacheFs_moveToParent_keeps p (ID srcEntry)
                (GoPath.Join2 (PathCacheFs.root f) dstRemote) f1 n1 Hk) as Hk2.
  destruct (PathCacheFs.moveToParent _ _ f1 n1) as [[err f2] n2]. simpl in Hk2.
  destruct err as [err|]; [exact Hk2|].
  destruct (negb _); [|exact Hk2].
  destruct (renameEntry _ _ _ n2) as [r n3]. exact Hk2.
Qed.

(** What [walk] ends on: the id it started from, with the caches untouched,
    or the id of an entry it has just put in [entryCache]. *)
Lemma PathCacheFs_walk_result :
  forall parts currentID f n cid f1 n1,
    PathCacheFs.walk parts currentID f n = (Ok (Some cid), f1, n1) ->
    (currentID = Some cid /\ f1 = f)
    \/ (exists e, PathCacheFs.entryCache f1 !! cid = Some e /\ ID e = cid).
Proof.
  induction parts as [|part parts IH]; intros currentID f n cid f1 n1; simpl.
  - intros [= -> -> _]. left. auto.
  - destruct (String.eqb part ""); [apply IH|].
    destruct (listEntries (PathCacheFs.api f) currentID n) as [listed n0].
    destruct listed as [entries|e]; [|discriminate].
    destruct (find _ entries) as [e|]; [|discriminate].
    intros H. apply IH in H as [[[= <-] ->]|H]; [|right; exact H].
    right. exists e. split; [|reflexivity].
    cbn [PathCacheFs.entryCache PathCacheFs.setEntryCache]. apply lookup_insert_eq.
Qed.

(** A path [findEntry] has resolved is in the caches afterwards. *)
Lemma PathCacheFs_findEntry_caches q f n entry f1 n1 :
  PathCacheFs.rootID f = None ->
  PathCacheFs.findEntry q f n = (Ok entry, f1, n1) ->
  cachedEntry f1 q = Some entry.
Proof.
  intros Hroot. unfold PathCacheFs.findEntry.
  destruct (match PathCacheFs.pathCache f !! q with
            | Some id => PathCacheFs.entryCache f !! id
            | None => None
            end) as [hit|] eqn:Hq.
  - intros [= <- <- _]. exact Hq.
  - destruct (PathCacheFs.walk _ _ f n) as [[walked f0] n0] eqn:Hw.
    destruct walked as [[currentID|]|e]; try discriminate.
    destruct (PathCacheFs.entryCache f0 !! currentID) as [found|] eqn:He; [|discriminate].
    intros [= <- <- _].
    apply PathCacheFs_walk_result in Hw as [[Hc _]|(e & He' & Hid)];
      [rewrite Hroot in Hc; discriminate|].
    rewrite He in He'. injection He' as <-.
    unfold cachedEntry.
    cbn [PathCacheFs.pathCache PathCacheFs.entryCache PathCacheFs.setPathCache].
    rewrite lookup_insert_eq, Hid. exact He.
Qed.

(** After a [Purge] that returned success the purged directory still
    resolves, from the caches and without a request, to the folder entry
    that was deleted. *)
Lemma PathCacheFs_Purge_leaves_rows dir f n f1 n1 :
  PathCacheFs.rootID f = None ->
  PathCacheFs.Purge dir f n = (None, f1, n1) ->
  exists entry,
    PathCacheFs.findEntry (GoPath.Join2 (PathCacheFs.root f) dir) f1 n1 = (Ok entry, f1, n1)
    /\ Type_ entry = "folder"%string.
Proof.
  intros Hroot. unfold PathCacheFs.Purge.
  set (dirPath := GoPath.Join2 (PathCacheFs.root f) dir).
  destruct (PathCacheFs.findEntry dirPath f n) as [[found f0] n0] eqn:Hfind.
  destruct found as [entry|err]; [|discriminate].
  destruct (negb (String.eqb (Type_ entry) "folder")) eqn:Hty; [discriminate|].
  destruct (deleteEntries (PathCacheFs.api f0) [ID entry] true n0) as [err n2] eqn:Hdel.
  intros [= -> -> ->].
  exists entry. split.
  - apply PathCacheFs_findEntry_cached.
    eapply PathCacheFs_findEntry_caches; eassumption.
  - apply negb_false_iff, String.eqb_eq in Hty. exact Hty.
Qed.

(** ** A move of A/x.txt to B/x.txt *)

(** C1, at the failing input: [List "A"] caches A/x.txt; [Move] of it to
    B/x.txt returns success and leaves the rows of A/x.txt in [pathCache]
    and [entryCache]; resolving A/x.txt afterwards succeeds from those rows
    without a request, where the remote, had it been asked, would have
    shown A empty. *)
Theorem Move_leaves_stale_rows :
  fst (fst afterList) = Ok [EntryObject srcX]
  /\ fst (fst afterMove) = Ok (mkObject "B/x.txt" 7 10 0)
  /\ cachedEntry (snd (fst afterMove)) "A/x.txt" = Some (fileX 2)
  /\ afterResolve = (Ok (fileX 2), snd (fst afterMove), snd afterMove)
  /\ script (snd afterMove) = [listing [dirA; dirB]; listing []].
Proof. vm_compute. repeat split; reflexivity. Qed.

(** The same with [Purge]: the purged folder A still resolves. *)
Lemma Purge_leaves_stale_rows :
  let purged := PathCacheFs.Purge "A" (PathCacheFs.newFs "" (mkApiClient ApiGo 10))
                  (mkNet [listing [dirA; dirB]; answered BodyNone; listing [dirB]] []) in
  fst (fst purged) = None
  /\ PathCacheFs.findEntry "A" (snd (fst purged)) (snd purged)
     = (Ok dirA, snd (fst purged), snd purged)
  /\ script (snd purged) = [listing [dirB]].
Proof. vm_compute. repeat split; reflexivity. Qed.

(** In the revision with [dirCache] it is folders that stay behind: after
    [DirMove] of A to C the old path A still resolves from [dirCache]. *)
Lemma DirMove_leaves_stale_rows :
  let moved := DirCacheFs.DirMove "A" "C" (DirCacheFs.newFs "" (mkApiClient ApiGo 10))
                 (mkNet [listing [dirA; dirB]; answered BodyNone;
                         answered (BodyEntry (mkFileEntry 1 "C" "folder" 0 None 0 None ""));
                         listing [mkFileEntry 1 "C" "folder" 0 None 0 None ""; dirB]] []) in
  fst (fst moved) = None
  /\ DirCacheFs.findEntry "A" (snd (fst moved)) (snd moved)
     = (Ok dirA, snd (fst moved), snd moved)
  /\ script (snd moved) = [listing [mkFileEntry 1 "C" "folder" 0 None 0 None ""; dirB]].
Proof. vm_compute. repeat split; reflexivity. Qed.

(** C4, at the failing input: in the revision with [pathCache], [Move] of
    A/x.txt to B/x.txt, whose base names are both x.txt, sends a rename
    request after the move request; and when that rename fails, [Move]
    fails although the entry is where and what it was asked to be. *)
Theorem Move_renames_despite_equal_basenames :
  GoPath.Base "B/x.txt" = GoPath.Base (objRemote srcX)
  /\ requests (trace (snd afterMove))
     = [ReqList None 1; ReqList (Some 1) 1;
        ReqList None 1; ReqMove [7] 2; ReqRename 7 "x.txt";
        ReqList None 1; ReqList (Some 2) 1]
  /\ fst (fst (PathCacheFs.Move (DrimeObject srcX) "B/x.txt"
                 (PathCacheFs.newFs "" (mkApiClient ApiGo 1))
                 (mkNet [listing [dirA; dirB]; answered BodyNone;
                         httpError 403 "403 Forbidden"] [])))
     = Err (ErrWrap "rename failed" (ErrHTTP "403 Forbidden")).
Proof. vm_compute. repeat split; reflexivity. Qed.

(** The revision with [dirCache] on the same move: no rename request. *)
Lemma Move_dirCache_no_rename :
  requests (trace (snd (DirCacheFs.Move (DrimeObject srcX) "B/x.txt"
                          (DirCacheFs.newFs "" (mkApiClient ApiGo 10))
                          (mkNet [listing [dirA; dirB]; answered BodyNone;
                                  listing [fileX 2]] []))))
  = [ReqList None 1; ReqMove [7] 2; ReqList (Some 2) 1].
Proof. vm_compute. reflexivity. Qed.

(** ** [dirCache] holds folders *)

Lemma Adds_any P n n' : Adds P n n' -> Adds anyEvent n n'.
Proof. apply Adds_mono. intros ev _. exact I. Qed.

Lemma Forall_trace_prefix (Q : Event -> Prop) P n n' :
  Adds P n n' -> Forall Q (trace n') -> Forall Q (trace n).
Proof.
  intros (evs & -> & _ & _) H. apply Forall_app in H. tauto.
Qed.

Lemma roundTrip_trace rq n :
  trace (snd (roundTrip rq n)) = trace n ++ [EvCall rq (fst (roundTrip rq n))].
Proof. unfold roundTrip. destruct (script n); reflexivity. Qed.

Lemma pacerLoop_create_typed name parentID retries :
  forall err c n cap n',
    pacerLoop retries (pacedCreate (ReqCreateFolder name parentID)) err c n = (None, cap, n') ->
    Forall folderReply (trace n') ->
    Type_ (Folder (resp cap)) = "folder"%string \/ (retries = O /\ cap = c).
Proof.
  induction retries as [|k IH]; intros err c n cap n' Hrun Hall; simpl in Hrun.
  - injection Hrun as _ <- _. right. auto.
  - left. unfold pacedCreate at 1 in Hrun. unfold CallJSON in Hrun.
    pose proof (roundTrip_trace (ReqCreateFolder name parentID) n) as Ht.
    destruct (roundTrip (ReqCreateFolder name parentID) n) as [a n1]. cbn [fst snd] in Ht.
    cbn [httpResp] in Hrun.
    set (c' := mkCaptured (respStatus a)
                 match callErr a with
                 | Some _ => resp c
                 | None => decodeFolder (body a) (resp c)
                 end) in *.
    assert (Hstop : forall n2, Adds anyEvent n1 n2 -> Forall folderReply (trace n2) ->
                               callErr a = None ->
                               Type_ (Folder (resp c')) = "folder"%string).
    { intros n2 Hadds Hall2 Herr.
      apply (Forall_trace_prefix _ _ _ _ Hadds) in Hall2.
      rewrite Ht in Hall2. apply Forall_app in Hall2 as [_ Hev].
      inversion Hev as [|? ? Hfr _]; subst. simpl in Hfr.
      destruct (Hfr Herr) as (r & Hbody & Hty).
      unfold c'. cbn [resp]. rewrite Herr, Hbody. exact Hty. }
    destruct (match respStatus a with
              | Some code => code =? 422
              | None => false
              end).
    + injection Hrun as Herr <- <-. apply (Hstop n1); [apply Adds_refl|exact Hall|exact Herr].
    + pose proof (shouldRetry_error (ctxDone a) (respStatus a) (callErr a)) as Hse.
      destruct (shouldRetry (ctxDone a) (respStatus a) (callErr a)) as [retry err'].
      simpl in Hse. subst err'. destruct retry.
      * pose proof (pacerLoop_Adds _ _ (pacedCreate_single (ReqCreateFolder name parentID))
                      k (callErr a) c' n1) as Hadds.
        rewrite Hrun in Hadds. simpl in Hadds.
        destruct (IH _ _ _ _ _ Hrun Hall) as [H|[-> ->]]; [exact H|].
        simpl in Hrun. injection Hrun as Herr _.
        apply (Hstop n'); [eapply Adds_any; exact Hadds|exact Hall|exact Herr].
      * injection Hrun as Herr <- <-.
        apply (Hstop n1); [apply Adds_refl|exact Hall|exact Herr].
Qed.

Lemma searchAfter422_Adds retries name checkParentID left attempt n :
  Adds anyEvent n (snd (Part0.searchAfter422 left attempt retries name checkParentID n)).
Proof.
  revert attempt n. induction left as [|left IH]; intros attempt n; simpl.
  - apply Adds_refl.
  - set (n0 := if attempt >? 0 then logEvent (EvSleep 500) n else n).
    assert (H0 : Adds anyEvent n n0).
    { unfold n0. destruct (attempt >? 0); [apply Adds_log; exact I | apply Adds_refl]. }
    pose proof (listEntries_Adds (mkApiClient ApiPart0 retries) checkParentID n0) as H1.
    unfold listEntries in H1. cbn [revision lowLevelRetries] in H1.
    apply Adds_any in H1.
    destruct (Part0.listEntries retries checkParentID n0) as [listed n1]. cbn [snd] in H1.
    destruct (match listed with
              | Ok entries => findFolder name entries
              | Err _ => None
              end).
    + eapply Adds_trans; eassumption.
    + eapply Adds_trans; [eapply Adds_trans; eassumption | apply IH].
Qed.

Lemma createFolder_Adds c name parentID n :
  Adds anyEvent n (snd (createFolder c name parentID n)).
Proof.
  unfold createFolder. destruct (revision c).
  - unfold Api_go.createFolder.
    pose proof (listEntries_Adds (mkApiClient ApiGo (lowLevelRetries c)) (Some parentID) n) as H1.
    unfold listEntries in H1. cbn [revision lowLevelRetries] in H1. apply Adds_any in H1.
    destruct (Api_go.listEntries (lowLevelRetries c) (Some parentID) n) as [listed n1].
    cbn [snd] in H1.
    destruct (match listed with
              | Ok entries => findFolder name entries
              | Err _ => None
              end); [exact H1|].
    pose proof (pacerCall_Adds _ _ (pacedCreate_single (ReqCreateFolder name parentID))
                  (lowLevelRetries c) (mkCaptured None zeroCreateFolderResponse) n1) as H2.
    apply Adds_any in H2.
    destruct (pacerCall _ _ _ n1) as [[err cap] n2]. cbn [snd] in H2.
    destruct err; eapply Adds_trans; eassumption.
  - unfold Part0.createFolder.
    set (cp := if parentID =? 0 then None else Some parentID).
    pose proof (listEntries_Adds (mkApiClient ApiPart0 (lowLevelRetries c)) cp n) as H1.
    unfold listEntries in H1. cbn [revision lowLevelRetries] in H1. apply Adds_any in H1.
    destruct (Part0.listEntries (lowLevelRetries c) cp n) as [listed n1].
    cbn [snd] in H1.
    destruct (match listed with
              | Ok entries => findFolder name entries
              | Err _ => None
              end); [exact H1|].
    pose proof (pacerCall_Adds _ _ (pacedCreate_single (ReqCreateFolder name parentID))
                  (lowLevelRetries c) (mkCaptured None zeroCreateFolderResponse) n1) as H2.
    apply Adds_any in H2.
    destruct (pacerCall _ _ _ n1) as [[err cap] n2]. cbn [snd] in H2.
    assert (H12 : Adds anyEvent n n2) by (eapply Adds_trans; eassumption).
    destruct err as [e|]; [|exact H12].
    destruct (httpResp cap) as [code|]; [|exact H12].
    destruct (code =? 422); [|exact H12].
    pose proof (searchAfter422_Adds (lowLevelRetries c) name cp 3 0 n2) as H3.
    destruct (Part0.searchAfter422 3 0 (lowLevelRetries c) name cp n2) as [[found|] n3];
      cbn [snd] in H3; eapply Adds_trans; eassumption.
Qed.

(** With a pacer that allows an attempt, and creation replies that carry
    folder entries, what [createFolder] returns is a folder entry. *)
Lemma createFolder_typed c name parentID n e n' :
  (1 <= lowLevelRetries c)%nat ->
  createFolder c name parentID n = (Ok e, n') ->
  Forall folderReply (trace n') ->
  Type_ e = "folder"%string.
Proof.
  intros Hretries Hrun Hall. unfold createFolder in Hrun.
  destruct (lowLevelRetries c) as [|k] eqn:Hk; [lia|].
  destruct (revision c).
  - unfold Api_go.createFolder in Hrun.
    destruct (Api_go.listEntries (S k) (Some parentID) n) as [listed n1].
    destruct (match listed with
              | Ok entries => findFolder name entries
              | Err _ => None
              end) as [hit|] eqn:Hhit.
    + injection Hrun as <- _. destruct listed; [|discriminate].
      apply findFolder_Some in Hhit. tauto.
    + destruct (pacerCall (S k) _ _ n1) as [[err cap] n2] eqn:Hpost.
      destruct err as [err|]; [discriminate|]. injection Hrun as <- <-.
      destruct (pacerLoop_create_typed _ _ _ _ _ _ _ _ Hpost Hall) as [H|[H _]];
        [exact H | discriminate].
  - unfold Part0.createFolder in Hrun.
    set (cp := if parentID =? 0 then None else Some parentID) in *.
    destruct (Part0.listEntries (S k) cp n) as [listed n1].
    destruct (match listed with
              | Ok entries => findFolder name entries
              | Err _ => None
              end) as [hit|] eqn:Hhit.
    + injection Hrun as <- _. destruct listed; [|discriminate].
      apply findFolder_Some in Hhit. tauto.
    + destruct (pacerCall (S k) _ _ n1) as [[err cap] n2] eqn:Hpost.
      destruct err as [err|].
      * destruct (httpResp cap) as [code|]; [|discriminate].
        destruct (code =? 422); [|discriminate].
        pose proof (searchAfter422_spec (S k) name cp 3 0 n2 ltac:(lia)) as (_ & _ & Hf).
        destruct (Part0.searchAfter422 3 0 (S k) name cp n2) as [[found|] n3];
          [|discriminate].
        injection Hrun as <- _. apply (Hf found). reflexivity.
      * injection Hrun as <- <-.
        destruct (pacerLoop_create_typed _ _ _ _ _ _ _ _ Hpost Hall) as [H|[H _]];
          [exact H | discriminate].
Qed.

Lemma Good_refl f n : Good f n f n.
Proof. repeat split; auto. apply Adds_refl. Qed.

Lemma Good_trans f n f1 n1 f2 n2 :
  Good f n f1 n1 -> Good f1 n1 f2 n2 -> Good f n f2 n2.
Proof.
  intros (A1 & B1 & C1 & D1) (A2 & B2 & C2 & D2). repeat split.
  - eapply Adds_trans; eassumption.
  - congruence.
  - congruence.
  - intros Hinv Hretries Hall. apply D2; [|rewrite B1; exact Hretries|exact Hall].
    apply D1; [exact Hinv|exact Hretries|].
    eapply Forall_trace_prefix; eassumption.
Qed.

Lemma Good_net P f n n' : Adds P n n' -> Good f n f n'.
Proof. intros H. repeat split; auto. eapply Adds_any; exact H. Qed.

Lemma Good_setMkdirCache f n m : Good f n (DirCacheFs.setMkdirCache f m) n.
Proof. repeat split; auto. apply Adds_refl. Qed.

Lemma onlyFolders_insert f p e :
  Type_ e = "folder"%string -> onlyFolders f ->
  onlyFolders (DirCacheFs.setDirCache f (<[p:=e]> (DirCacheFs.dirCache f))).
Proof.
  intros Hty Hinv q e'. cbn [DirCacheFs.dirCache DirCacheFs.setDirCache].
  rewrite lookup_insert. destruct (decide (p = q)); [intros [= <-]; exact Hty | apply Hinv].
Qed.

Lemma onlyFolders_delete f p :
  onlyFolders f ->
  onlyFolders (DirCacheFs.setDirCache f (delete p (DirCacheFs.dirCache f))).
Proof.
  intros Hinv q e'. cbn [DirCacheFs.dirCache DirCacheFs.setDirCache].
  rewrite lookup_delete. destruct (decide (p = q)); [discriminate | apply Hinv].
Qed.

(** The guard of [addDirCacheEntry]: whatever the entry, [dirCache] stays
    with folders only. *)
Lemma addDirCacheEntry_onlyFolders absPath entry f :
  onlyFolders f -> onlyFolders (DirCacheFs.addDirCacheEntry absPath entry f).
Proof.
  intros Hinv. unfold DirCacheFs.addDirCacheEntry.
  destruct (String.eqb (Type_ entry) "folder") eqn:Hty; cbn [negb]; [|exact Hinv].
  apply String.eqb_eq in Hty. apply onlyFolders_insert; assumption.
Qed.

Lemma Good_addDirCacheEntry absPath entry f n :
  Good f n (DirCacheFs.addDirCacheEntry absPath entry f) n.
Proof.
  destruct (DirCacheFs_addDirCacheEntry_frame absPath entry f) as (H1 & H2 & _).
  repeat split; auto; [apply Adds_refl|].
  intros Hinv _ _. apply addDirCacheEntry_onlyFolders. exact Hinv.
Qed.

Lemma Good_walk remotePath :
  forall ahead walked currentID f n,
    Good f n (snd (fst (DirCacheFs.walk remotePath walked ahead currentID f n)))
      (snd (DirCacheFs.walk remotePath walked ahead currentID f n)).
Proof.
  induction ahead as [|part ahead IH]; intros walked currentID f n; simpl.
  - apply Good_refl.
  - destruct (DirCacheFs.dirCache f !! GoStrings.Join (walked ++ [part])); [apply IH|].
    set (parentID := match walked with [] => None | _ :: _ => Some currentID end).
    pose proof (listEntries_Adds (DirCacheFs.api f) parentID n) as H.
    destruct (listEntries (DirCacheFs.api f) parentID n) as [listed n1]. simpl in H.
    apply (Good_net _ f) in H.
    destruct listed as [entries|e]; [|exact H].
    destruct (find _ entries) as [e|]; [|exact H].
    set (f1 := if String.eqb (Type_ e) "folder"
               then DirCacheFs.addDirCacheEntry (GoStrings.Join (walked ++ [part])) e f
               else f).
    assert (H1 : Good f n f1 n1).
    { eapply Good_trans; [exact H|]. unfold f1.
      destruct (String.eqb (Type_ e) "folder");
        [apply Good_addDirCacheEntry | apply Good_refl]. }
    destruct (String.eqb (GoStrings.Join (walked ++ [part])) remotePath); [exact H1|].
    eapply Good_trans; [exact H1 | apply IH].
Qed.

(** The walk of [findEntry] keeps a cache of folders a cache of folders,
    whatever the remote answers. *)
Lemma walk_onlyFolders remotePath :
  forall ahead walked currentID f n,
    onlyFolders f ->
    onlyFolders (snd (fst (DirCacheFs.walk remotePath walked ahead currentID f n))).
Proof.
  induction ahead as [|part ahead IH]; intros walked currentID f n H; simpl; [exact H|].
  destruct (DirCacheFs.dirCache f !! GoStrings.Join (walked ++ [part])); [apply IH; exact H|].
  destruct (listEntries (DirCacheFs.api f) _ n) as [listed n1].
  destruct listed as [entries|e]; [|exact H].
  destruct (find _ entries) as [e|]; [|exact H].
  assert (H1 : onlyFolders (if String.eqb (Type_ e) "folder"
                            then DirCacheFs.addDirCacheEntry
                                   (GoStrings.Join (walked ++ [part])) e f
                            else f)).
  { destruct (String.eqb (Type_ e) "folder");
      [apply addDirCacheEntry_onlyFolders; exact H | exact H]. }
  destruct (String.eqb (GoStrings.Join (walked ++ [part])) remotePath); [exact H1|].
  apply IH. exact H1.
Qed.

Lemma Good_findEntry remotePath f n :
  Good f n (snd (fst (DirCacheFs.findEntry remotePath f n)))
    (snd (DirCacheFs.findEntry remotePath f n)).
Proof.
  unfold DirCacheFs.findEntry.
  destruct (String.eqb (GoStrings.Trim remotePath) ""); [apply Good_refl|].
  destruct (DirCacheFs.dirCache f !! GoStrings.Trim remotePath); [apply Good_refl|].
  apply Good_walk.
Qed.

Lemma Good_listLoop dir n :
  forall fileEntries entries f,
    Good f n (snd (DirCacheFs.listLoop dir fileEntries entries f)) n.
Proof.
  induction fileEntries as [|entry rest IH]; intros entries f; simpl.
  - apply Good_refl.
  - destruct (String.eqb (Type_ entry) "folder").
    + eapply Good_trans; [apply Good_addDirCacheEntry | apply IH].
    + apply IH.
Qed.

Lemma Good_List dir f n :
  Good f n (snd (fst (DirCacheFs.List dir f n))) (snd (DirCacheFs.List dir f n)).
Proof.
  unfold DirCacheFs.List.
  set (dirPath := GoPath.Join2 (DirCacheFs.root f) dir).
  assert (H1 : forall parent f1 n1,
             Good f n f1 n1 ->
             Good f n
               (snd (fst (match parent with
                          | Err e => (Err e, f1, n1)
                          | Ok parentID =>
                              let '(listed, n2) := listEntries (DirCacheFs.api f1) parentID n1 in
                              match listed with
                              | Err e => (Err e, f1, n2)
                              | Ok fileEntries =>
                                  let '(entries, f2) := DirCacheFs.listLoop dir fileEntries [] f1 in
                                  (Ok entries, f2, n2)
                              end
                          end)))
               (snd (match parent with
                     | Err e => (Err e, f1, n1)
                     | Ok parentID =>
                         let '(listed, n2) := listEntries (DirCacheFs.api f1) parentID n1 in
                         match listed with
                         | Err e => (Err e, f1, n2)
                         | Ok fileEntries =>
                             let '(entries, f2) := DirCacheFs.listLoop dir fileEntries [] f1 in
                             (Ok entries, f2, n2)
                         end
                     end))).
  { intros parent f1 n1 HG. destruct parent as [parentID|e]; [|exact HG].
    pose proof (listEntries_Adds (DirCacheFs.api f1) parentID n1) as H.
    destruct (listEntries (DirCacheFs.api f1) parentID n1) as [listed n2]. simpl in H.
    apply (Good_net _ f1) in H.
    assert (H2 : Good f n f1 n2) by (eapply Good_trans; eassumption).
    destruct listed as [fileEntries|e]; [|exact H2].
    pose proof (Good_listLoop dir n2 fileEntries [] f1) as H3.
    destruct (DirCacheFs.listLoop dir fileEntries [] f1) as [entries f2]. simpl in H3.
    eapply Good_trans; eassumption. }
  destruct (negb (String.eqb dirPath "")).
  - pose proof (Good_findEntry dirPath f n) as HG.
    destruct (DirCacheFs.findEntry dirPath f n) as [[found f1] n1]. simpl in HG.
    destruct found as [entry|err].
    + destruct (negb (String.eqb (Type_ entry) "folder")); [exact HG|].
      apply (H1 (Ok (Some (ID entry)))). exact HG.
    + exact HG.
  - apply (H1 (Ok None)). apply Good_refl.
Qed.

Lemma Good_mkdir MkdirRec :
  (forall dir f n, Good f n (snd (fst (MkdirRec dir f n))) (snd (MkdirRec dir f n))) ->
  forall dirPath f n,
    Good f n (snd (fst (DirCacheFs.mkdir MkdirRec dirPath f n)))
      (snd (DirCacheFs.mkdir MkdirRec dirPath f n)).
Proof.
  intros HRec dirPath f n. unfold DirCacheFs.mkdir.
  pose proof (Good_findEntry dirPath f n) as H1.
  destruct (DirCacheFs.findEntry dirPath f n) as [[found f1] n1]. simpl in H1.
  destruct found as [entry|err]; [exact H1|].
  assert (Hcreate : forall parentID f2 n2,
             Good f n f2 n2 ->
             Good f n
               (snd (fst (let '(created, n3) :=
                            createFolder (DirCacheFs.api f2) (GoPath.Base dirPath) parentID n2 in
                          match created with
                          | Err createErr =>
                              let '(again, f4, n4) := DirCacheFs.findEntry dirPath f2 n3 in
                              match again with
                              | Ok entry =>
                                  (Returns None, DirCacheFs.addDirCacheEntry dirPath entry f4, n4)
                              | Err _ => (Returns (Some createErr), f4, n4)
                              end
                          | Ok entry =>
                              (Returns None,
                               DirCacheFs.setDirCache f2 (<[dirPath:=entry]> (DirCacheFs.dirCache f2)),
                               n3)
                          end)))
               (snd (let '(created, n3) :=
                       createFolder (DirCacheFs.api f2) (GoPath.Base dirPath) parentID n2 in
                     match created with
                     | Err createErr =>
                         let '(again, f4, n4) := DirCacheFs.findEntry dirPath f2 n3 in
                         match again with
                         | Ok entry =>
                             (Returns None, DirCacheFs.addDirCacheEntry dirPath entry f4, n4)
                         | Err _ => (Returns (Some createErr), f4, n4)
                         end
                     | Ok entry =>
                         (Returns None,
                          DirCacheFs.setDirCache f2 (<[dirPath:=entry]> (DirCacheFs.dirCache f2)),
                          n3)
                     end))).
  { intros parentID f2 n2 HG.
    pose proof (createFolder_Adds (DirCacheFs.api f2) (GoPath.Base dirPath) parentID n2) as HA.
    destruct (createFolder (DirCacheFs.api f2) (GoPath.Base dirPath) parentID n2)
      as [created n3] eqn:Hcr. simpl in HA.
    destruct created as [entry|createErr].
    - eapply Good_trans; [exact HG|]. repeat split; auto.
      intros Hinv Hretries Hall. apply onlyFolders_insert; [|exact Hinv].
      eapply createFolder_typed; eassumption.
    - pose proof (Good_findEntry dirPath f2 n3) as H4.
      destruct (DirCacheFs.findEntry dirPath f2 n3) as [[again f4] n4]. simpl in H4.
      assert (H24 : Good f n f4 n4).
      { eapply Good_trans; [exact HG|]. eapply Good_trans; [|exact H4].
        eapply Good_net; exact HA. }
      destruct again as [entry|e]; [|exact H24].
      eapply Good_trans; [exact H24 | apply Good_addDirCacheEntry]. }
  destruct err; try exact H1.
  destruct (negb (String.eqb (GoPath.Dir dirPath) "")
            && negb (String.eqb (GoPath.Dir dirPath) ".")).
  - pose proof (HRec (GoStrings.TrimPrefix (GoPath.Dir dirPath) (DirCacheFs.root f1 ++ "/")%string)
                  f1 n1) as H2.
    destruct (MkdirRec _ f1 n1) as [[ran f2] n2]. simpl in H2.
    assert (H12 : Good f n f2 n2) by (eapply Good_trans; eassumption).
    destruct ran as [[err|]| |]; try exact H12.
    pose proof (Good_findEntry (GoPath.Dir dirPath) f2 n2) as H3.
    destruct (DirCacheFs.findEntry (GoPath.Dir dirPath) f2 n2) as [[parentEntry f3] n3].
    simpl in H3.
    assert (H13 : Good f n f3 n3) by (eapply Good_trans; eassumption).
    destruct parentEntry as [e|findErr]; [|exact H13].
    apply Hcreate. exact H13.
  - apply Hcreate. exact H1.
Qed.

Lemma Good_Mkdir :
  forall fuel dir f n,
    Good f n (snd (fst (DirCacheFs.Mkdir fuel dir f n))) (snd (DirCacheFs.Mkdir fuel dir f n)).
Proof.
  induction fuel as [|fuel IH]; intros dir f n; simpl; [apply Good_refl|].
  set (dirPath := GoPath.Join2 (DirCacheFs.root f) dir).
  destruct (String.eqb dirPath "" || String.eqb dirPath "."); [apply Good_refl|].
  set (loaded := match DirCacheFs.mkdirCache f !! dirPath with
                 | Some once => (once, f)
                 | None => (DirCacheFs.OnceFresh,
                            DirCacheFs.setMkdirCache f
                              (<[dirPath:=DirCacheFs.OnceFresh]> (DirCacheFs.mkdirCache f)))
                 end).
  assert (H1 : Good f n (snd loaded) n).
  { unfold loaded. destruct (DirCacheFs.mkdirCache f !! dirPath);
      [apply Good_refl | apply Good_setMkdirCache]. }
  destruct loaded as [once f1]. simpl in H1.
  destruct once; try exact H1.
  set (running := DirCacheFs.setMkdirCache f1
                    (<[dirPath:=DirCacheFs.OnceRunning]> (DirCacheFs.mkdirCache f1))).
  pose proof (Good_mkdir (DirCacheFs.Mkdir fuel) IH dirPath running n) as H2.
  assert (H12 : Good f n (snd (fst (DirCacheFs.mkdir (DirCacheFs.Mkdir fuel) dirPath running n)))
                  (snd (DirCacheFs.mkdir (DirCacheFs.Mkdir fuel) dirPath running n))).
  { eapply Good_trans; [exact H1|]. eapply Good_trans; [apply Good_setMkdirCache|exact H2]. }
  destruct (DirCacheFs.mkdir (DirCacheFs.Mkdir fuel) dirPath running n) as [[ran f2] n2].
  simpl in H12.
  destruct ran as [err| |]; exact H12.
Qed.

Lemma Good_Rmdir dir f n :
  Good f n (snd (fst (DirCacheFs.Rmdir dir f n))) (snd (DirCacheFs.Rmdir dir f n)).
Proof.
  unfold DirCacheFs.Rmdir.
  set (dirPath := GoPath.Join2 (DirCacheFs.root f) dir).
  pose proof (Good_findEntry dirPath f n) as H1.
  destruct (DirCacheFs.findEntry dirPath f n) as [[found f1] n1]. simpl in H1.
  destruct found as [entry|err]; [|exact H1].
  destruct (negb (String.eqb (Type_ entry) "folder")); [exact H1|].
  pose proof (listEntries_Adds (DirCacheFs.api f1) (Some (ID entry)) n1) as H2.
  destruct (listEntries (DirCacheFs.api f1) (Some (ID entry)) n1) as [listed n2]. simpl in H2.
  apply (Good_net _ f1) in H2.
  assert (H12 : Good f n f1 n2) by (eapply Good_trans; eassumption).
  destruct listed as [entries|err]; [|exact H12].
  destruct (0 <? length entries)%nat; [exact H12|].
  pose proof (deleteEntries_Adds (DirCacheFs.api f1) [ID entry] true n2) as H3.
  destruct (deleteEntries (DirCacheFs.api f1) [ID entry] true n2) as [err n3]. simpl in H3.
  apply (Good_net _ f1) in H3.
  assert (H13 : Good f n f1 n3) by (eapply Good_trans; eassumption).
  destruct err as [e|]; [exact H13|].
  eapply Good_trans; [exact H13|]. repeat split; auto; [apply Adds_refl|].
  intros Hinv _ _. apply onlyFolders_delete. exact Hinv.
Qed.

Lemma Good_Purge dir f n :
  Good f n (snd (fst (DirCacheFs.Purge dir f n))) (snd (DirCacheFs.Purge dir f n)).
Proof.
  unfold DirCacheFs.Purge.
  set (dirPath := GoPath.Join2 (DirCacheFs.root f) dir).
  pose proof (Good_findEntry dirPath f n) as H1.
  destruct (DirCacheFs.findEntry dirPath f n) as [[found f1] n1]. simpl in H1.
  destruct found as [entry|err]; [|exact H1].
  destruct (negb (String.eqb (Type_ entry) "folder")); [exact H1|].
  pose proof (deleteEntries_Adds (DirCacheFs.api f1) [ID entry] true n1) as H3.
  destruct (deleteEntries (DirCacheFs.api f1) [ID entry] true n1) as [err n3]. simpl in H3.
  apply (Good_net _ f1) in H3. eapply Good_trans; eassumption.
Qed.

Lemma Good_readMetadata o f n :
  Good f n (snd (fst (DirCacheFs.readMetadata o f n))) (snd (DirCacheFs.readMetadata o f n)).
Proof.
  unfold DirCacheFs.readMetadata.
  set (remotePath := GoPath.Join2 (DirCacheFs.root f) (objRemote o)).
  destruct (negb (String.eqb (GoPath.Dir remotePath) "")
            && negb (String.eqb (GoPath.Dir remotePath) ".")).
  - pose proof (Good_findEntry (GoPath.Dir remotePath) f n) as H.
    destruct (DirCacheFs.findEntry (GoPath.Dir remotePath) f n) as [[parentEntry f1] n1].
    simpl in H. destruct parentEntry as [e|err]; [|exact H].
    pose proof (listEntries_Adds (DirCacheFs.api f1) (Some (ID e)) n1) as H2.
    destruct (listEntries (DirCacheFs.api f1) (Some (ID e)) n1) as [listed n2]. simpl in H2.
    apply (Good_net _ f1) in H2.
    assert (H3 : Good f n f1 n2) by (eapply Good_trans; eassumption).
    destruct listed as [entries|err]; [|exact H3].
    destruct (find _ entries); exact H3.
  - pose proof (listEntries_Adds (DirCacheFs.api f) None n) as H2.
    destruct (listEntries (DirCacheFs.api f) None n) as [listed n2]. simpl in H2.
    apply (Good_net _ f) in H2.
    destruct listed as [entries|err]; [|exact H2].
    destruct (find _ entries); exact H2.
Qed.

Lemma Good_Remove o f n :
  Good f n (snd (fst (DirCacheFs.Remove o f n))) (snd (DirCacheFs.Remove o f n)).
Proof.
  unfold DirCacheFs.Remove.
  pose proof (deleteEntries_Adds (DirCacheFs.api f) [objID o] true n) as H.
  destruct (deleteEntries (DirCacheFs.api f) [objID o] true n) as [err n1]. simpl in H.
  eapply Good_net; exact H.
Qed.

Lemma Good_moveToParent id dstPath f n :
  Good f n (snd (fst (DirCacheFs.moveToParent id dstPath f n)))
    (snd (DirCacheFs.moveToParent id dstPath f n)).
Proof.
  unfold DirCacheFs.moveToParent.
  destruct (negb (String.eqb (GoPath.Dir dstPath) "")
            && negb (String.eqb (GoPath.Dir dstPath) ".")).
  - pose proof (Good_findEntry (GoPath.Dir dstPath) f n) as H.
    destruct (DirCacheFs.findEntry (GoPath.Dir dstPath) f n) as [[parentEntry f1] n1].
    simpl in H. destruct parentEntry as [e|err]; [|exact H].
    pose proof (moveEntries_Adds (DirCacheFs.api f1) [id] (ID e) n1) as H2.
    destruct (moveEntries (DirCacheFs.api f1) [id] (ID e) n1) as [err n2]. simpl in H2.
    apply (Good_net _ f1) in H2. eapply Good_trans; eassumption.
  - pose proof (moveEntries_Adds (DirCacheFs.api f) [id] 0 n) as H2.
    destruct (moveEntries (DirCacheFs.api f) [id] 0 n) as [err n2]. simpl in H2.
    eapply Good_net; exact H2.
Qed.

Lemma Good_Move src remote f n :
  Good f n (snd (fst (DirCacheFs.Move src remote f n))) (snd (DirCacheFs.Move src remote f n)).
Proof.
  unfold DirCacheFs.Move. destruct src as [srcObj|]; [|apply Good_refl].
  set (dstPath := GoPath.Join2 (DirCacheFs.root f) remote).
  pose proof (Good_moveToParent (objID srcObj) dstPath f n) as H1.
  destruct (DirCacheFs.moveToParent (objID srcObj) dstPath f n) as [[err f1] n1]. simpl in H1.
  destruct err as [err|]; [exact H1|].
  destruct (negb (String.eqb (GoPath.Base dstPath) (GoPath.Base (objRemote srcObj)))).
  - pose proof (renameEntry_Adds (DirCacheFs.api f1) (objID srcObj) (GoPath.Base dstPath) n1) as H2.
    destruct (renameEntry (DirCacheFs.api f1) (objID srcObj) (GoPath.Base dstPath) n1)
      as [r n2]. simpl in H2. apply (Good_net _ f1) in H2.
    assert (H12 : Good f n f1 n2) by (eapply Good_trans; eassumption).
    destruct r as [renamed|err]; [|exact H12].
    eapply Good_trans; [exact H12 | apply Good_readMetadata].
  - eapply Good_trans; [exact H1 | apply Good_readMetadata].
Qed.

Lemma Good_DirMove srcRemote dstRemote f n :
  Good f n (snd (fst (DirCacheFs.DirMove srcRemote dstRemote f n)))
    (snd (DirCacheFs.DirMove srcRemote dstRemote f n)).
Proof.
  unfold DirCacheFs.DirMove.
  pose proof (Good_findEntry (GoPath.Join2 (DirCacheFs.root f) srcRemote) f n) as H1.
  destruct (DirCacheFs.findEntry _ f n) as [[found f1] n1]. simpl in H1.
  destruct found as [srcEntry|err]; [|exact H1].
  pose proof (Good_moveToParent (ID srcEntry)
                (GoPath.Join2 (DirCacheFs.root f) dstRemote) f1 n1) as H2.
  destruct (DirCacheFs.moveToParent _ _ f1 n1) as [[err f2] n2]. simpl in H2.
  assert (H12 : Good f n f2 n2) by (eapply Good_trans; eassumption).
  destruct err as [err|]; [exact H12|].
  destruct (negb _); [|exact H12].
  pose proof (renameEntry_Adds (DirCacheFs.api f2) (ID srcEntry)
                (GoPath.Base (GoPath.Join2 (DirCacheFs.root f) dstRemote)) n2) as H3.
  destruct (renameEntry _ _ _ n2) as [r n3]. simpl in H3.
  apply (Good_net _ f2) in H3. eapply Good_trans; eassumption.
Qed.

(** A listing that returns entries has sent a request. *)
Lemma listEntries_nonempty_sends c parentID n entries n1 :
  listEntries c parentID n = (Ok entries, n1) ->
  entries <> [] ->
  exists ev evs, trace n1 = trace n ++ ev :: evs.
Proof.
  intros Hrun Hne. unfold listEntries, Api_go.listEntries, Part0.listEntries in Hrun.
  destruct (lowLevelRetries c) as [|k].
  - exfalso. destruct (revision c); cbn in Hrun; injection Hrun as <- _; congruence.
  - destruct (revision c); cbn [Api_go.listPages Part0.listPages] in Hrun.
    + destruct (pacerCall_first decodeList (ReqList parentID 1) k
                  (mkCaptured None zeroListEntriesResponse) n) as (a & evs & Ht & _).
      destruct (pacerCall (S k) _ _ n) as [[err cap] n0]. cbn [snd] in Ht.
      destruct err as [e|]; [discriminate|].
      destruct (CurrentPage (resp cap) >=? LastPage (resp cap)).
      * injection Hrun as _ <-. eauto.
      * pose proof (Api_go_listPages_Adds (S k) parentID (length (script n)) (1 + 1)
                      ([] ++ Data (resp cap)) n0) as (evs2 & Ht2 & _ & _).
        rewrite Hrun in Ht2. cbn [snd] in Ht2.
        exists (EvCall (ReqList parentID 1) a), (evs ++ evs2).
        rewrite Ht2, Ht, <- app_assoc. reflexivity.
    + destruct (pacerCall_first decodeList (ReqList parentID 1) k
                  (mkCaptured None zeroListEntriesResponse) n) as (a & evs & Ht & _).
      destruct (pacerCall (S k) _ _ n) as [[err cap] n0]. cbn [snd] in Ht.
      destruct err as [e|]; [discriminate|].
      destruct (1 >=? LastPage (resp cap)).
      * injection Hrun as _ <-. eauto.
      * pose proof (Part0_listPages_Adds (S k) parentID (length (script n)) (1 + 1)
                      ([] ++ Data (resp cap)) n0) as (evs2 & Ht2 & _ & _).
        rewrite Hrun in Ht2. cbn [snd] in Ht2.
        exists (EvCall (ReqList parentID 1) a), (evs ++ evs2).
        rewrite Ht2, Ht, <- app_assoc. reflexivity.
Qed.

(** An entry the walk of [findEntry] returns comes out of a listing made
    during that walk. *)
Lemma DirCacheFs_walk_listed remotePath :
  forall ahead walked currentID f n e f' n',
    DirCacheFs.walk remotePath walked ahead currentID f n = (Ok e, f', n') ->
    exists ev evs, trace n' = trace n ++ ev :: evs.
Proof.
  induction ahead as [|part ahead IH]; intros walked currentID f n e f' n'; simpl;
    [discriminate|].
  destruct (DirCacheFs.dirCache f !! GoStrings.Join (walked ++ [part])); [apply IH|].
  set (parentID := match walked with [] => None | _ :: _ => Some currentID end).
  destruct (listEntries (DirCacheFs.api f) parentID n) as [listed n1] eqn:Hlist.
  destruct listed as [entries|err]; [|discriminate].
  destruct (find _ entries) as [found|] eqn:Hfind; [|discriminate].
  assert (Hne : entries <> []) by (intros ->; discriminate).
  destruct (listEntries_nonempty_sends _ _ _ _ _ Hlist Hne) as (ev & evs & Ht).
  destruct (String.eqb (GoStrings.Join (walked ++ [part])) remotePath).
  - intros [= _ _ <-]. eauto.
  - intros Hrun.
    pose proof (DirCacheFs_walk_Adds remotePath ahead (walked ++ [part]) (ID found)
                  (if String.eqb (Type_ found) "folder"
                   then DirCacheFs.addDirCacheEntry (GoStrings.Join (walked ++ [part])) found f
                   else f) n1) as (evs2 & Ht2 & _ & _).
    rewrite Hrun in Ht2. cbn [snd] in Ht2.
    exists ev, (evs ++ evs2). rewrite Ht2, Ht, <- app_assoc. reflexivity.
Qed.

Lemma Good_perform op f n : Good f n (fst (perform op f n)) (snd (perform op f n)).
Proof.
  destruct op; cbn [perform fst snd].
  - apply Good_findEntry.
  - apply Good_List.
  - apply Good_Mkdir.
  - apply Good_Rmdir.
  - apply Good_Purge.
  - apply Good_readMetadata.
  - apply Good_Remove.
  - apply Good_Move.
  - apply Good_DirMove.
Qed.

Lemma Good_performAll :
  forall ops f n, Good f n (fst (performAll ops f n)) (snd (performAll ops f n)).
Proof.
  induction ops as [|op rest IH]; intros f n; simpl; [apply Good_refl|].
  pose proof (Good_perform op f n) as H.
  destruct (perform op f n) as [f1 n1]. simpl in H.
  eapply Good_trans; [exact H | apply IH].
Qed.

(** [strings.Join (strings.Split s "/") "/"] is [s]. *)
Lemma Split_nonempty s : GoStrings.Split s <> [].
Proof.
  destruct s as [|c s]; simpl; [discriminate|].
  destruct (Ascii.eqb c GoStrings.slash); [discriminate|].
  destruct (GoStrings.Split s); discriminate.
Qed.

Lemma Join_cons_String c hd tl :
  GoStrings.Join (String c hd :: tl) = String c (GoStrings.Join (hd :: tl)).
Proof. destruct tl; reflexivity. Qed.

Lemma Join_Split s : GoStrings.Join (GoStrings.Split s) = s.
Proof.
  induction s as [|c s IH]; [reflexivity|]. simpl.
  destruct (Ascii.eqb c GoStrings.slash) eqn:Hc.
  - apply Ascii.eqb_eq in Hc. subst c.
    pose proof (Split_nonempty s) as Hne.
    destruct (GoStrings.Split s) as [|hd tl]; [congruence|].
    change (GoStrings.Join (""%string :: hd :: tl))
      with (String GoStrings.slash (GoStrings.Join (hd :: tl))).
    rewrite IH. reflexivity.
  - pose proof (Split_nonempty s) as Hne.
    destruct (GoStrings.Split s) as [|hd tl]; [congruence|].
    rewrite Join_cons_String, IH. reflexivity.
Qed.

(** The walk sends nothing for the prefixes it finds cached: it goes on
    from the id cached for the longest of them. *)
Lemma DirCacheFs_walk_skips remotePath last f n :
  forall ahead walked currentID,
    prefixesCached f walked ahead ->
    exists currentID',
      DirCacheFs.walk remotePath walked (ahead ++ [last]) currentID f n
      = DirCacheFs.walk remotePath (walked ++ ahead) [last] currentID' f n
      /\ (ahead = [] -> currentID' = currentID)
      /\ (ahead <> [] ->
          exists d, DirCacheFs.dirCache f !! GoStrings.Join (walked ++ ahead) = Some d
                    /\ currentID' = ID d).
Proof.
  induction ahead as [|part ahead IH]; intros walked currentID Hcached.
  - exists currentID. rewrite app_nil_r. split; [reflexivity|]. split; congruence.
  - destruct (Hcached O ltac:(simpl; lia)) as [cached Hc].
    change (firstn 1 (part :: ahead)) with [part] in Hc.
    assert (Hrest : prefixesCached f (walked ++ [part]) ahead).
    { intros k Hk. specialize (Hcached (S k) ltac:(simpl; lia)).
      change (firstn (S (S k)) (part :: ahead)) with (part :: firstn (S k) ahead) in Hcached.
      rewrite <- app_assoc. exact Hcached. }
    destruct (IH (walked ++ [part]) (ID cached) Hrest) as (cur' & Hwalk & Hnil & Hd).
    exists cur'. split; [|split; [discriminate|]].
    + cbn [app DirCacheFs.walk]. rewrite Hc. rewrite Hwalk, <- app_assoc. reflexivity.
    + intros _. destruct ahead as [|part' ahead'].
      * exists cached. split; [exact Hc | apply Hnil; reflexivity].
      * destruct (Hd ltac:(discriminate)) as (d & Hdc & ->).
        exists d. split; [|reflexivity]. rewrite <- app_assoc in Hdc. exact Hdc.
Qed.

(** With every proper prefix of an uncached path in [dirCache], resolving
    the path lists the children of the folder cached for the longest of
    them, and nothing else. *)
Lemma DirCacheFs_findEntry_from_deepest_cached remotePath f n ahead last :
  GoStrings.Split (GoStrings.Trim remotePath) = ahead ++ [last] ->
  ahead <> [] ->
  DirCacheFs.dirCache f !! GoStrings.Trim remotePath = None ->
  prefixesCached f [] ahead ->
  exists d,
    DirCacheFs.dirCache f !! GoStrings.Join ahead = Some d
    /\ Adds (listOf (Some (ID d))) n (snd (DirCacheFs.findEntry remotePath f n)).
Proof.
  intros Hsplit Hne Hmiss Hcached.
  pose proof (Join_Split (GoStrings.Trim remotePath)) as HJ. rewrite Hsplit in HJ.
  unfold DirCacheFs.findEntry.
  destruct (String.eqb (GoStrings.Trim remotePath) "") eqn:Hempty.
  { apply String.eqb_eq in Hempty. rewrite Hempty in Hsplit. simpl in Hsplit.
    destruct ahead as [|x ahead]; [congruence|].
    destruct ahead; discriminate. }
  rewrite Hmiss, Hsplit.
  destruct (DirCacheFs_walk_skips (GoStrings.Trim remotePath) last f n ahead [] 0 Hcached)
    as (cur' & Hwalk & _ & Hd).
  destruct (Hd Hne) as (d & Hdc & ->). cbn [app] in Hdc, Hwalk.
  exists d. split; [exact Hdc|]. rewrite Hwalk.
  cbn [DirCacheFs.walk]. rewrite HJ, Hmiss.
  destruct ahead as [|x ahead]; [congruence|].
  pose proof (listEntries_Adds (DirCacheFs.api f) (Some (ID d)) n) as H.
  destruct (listEntries (DirCacheFs.api f) (Some (ID d)) n) as [listed n1]. simpl in H.
  destruct listed as [entries|e]; [|exact H].
  destruct (find _ entries) as [e|]; [|exact H].
  rewrite String.eqb_refl. exact H.
Qed.

Lemma DirCacheFs_NewFs_start root c n :
  let started := DirCacheFs.NewFs root c n in
  onlyFolders (snd (fst started))
  /\ DirCacheFs.api (snd (fst started)) = c
  /\ Adds anyEvent n (snd started).
Proof.
  unfold DirCacheFs.NewFs. cbn zeta.
  set (f0 := DirCacheFs.newFs root c).
  assert (H0 : onlyFolders f0).
  { intros p e. unfold f0, DirCacheFs.newFs. cbn [DirCacheFs.dirCache].
    rewrite lookup_empty. discriminate. }
  destruct (negb (String.eqb (DirCacheFs.root f0) ""));
    [|cbn [fst snd]; repeat split; [exact H0 | apply Adds_refl]].
  pose proof (Good_findEntry (DirCacheFs.root f0) f0 n) as (HA & Hapi & _ & _).
  assert (Hinv : onlyFolders (snd (fst (DirCacheFs.findEntry (DirCacheFs.root f0) f0 n)))).
  { unfold DirCacheFs.findEntry.
    destruct (String.eqb _ ""); [exact H0|].
    destruct (DirCacheFs.dirCache f0 !! _); [exact H0|].
    apply walk_onlyFolders. exact H0. }
  destruct (DirCacheFs.findEntry (DirCacheFs.root f0) f0 n) as [[found f1] n1].
  cbn [fst snd] in *.
  destruct found as [entry|err]; [|auto].
  destruct (negb (String.eqb (Type_ entry) "folder")); cbn [fst snd]; auto.
Qed.





(** C10, as amended.  In the revision with [dirCache]:
    - [addDirCacheEntry] leaves the cache as it is for an entry that is
      not a folder, and keeps a cache of folders a cache of folders;
    - in every state reached from [NewFs] by any sequence of operations,
      every value of [dirCache] is a folder entry, provided the pacer
      allows an attempt and every creation request answered without error
      carried a folder entry ([mkdir] stores what [createFolder] returns
      without looking at its type);
    - in such a state, resolving a path to an entry that is not a folder
      is never answered from the cache: list requests, and only those, are
      sent;
    - when every proper prefix of an uncached path is cached, the requests
      sent are list requests for the children of the folder cached for the
      longest prefix. *)
Theorem dirCache_holds_only_folders :
  (forall absPath entry f,
     (Type_ entry <> "folder"%string -> DirCacheFs.addDirCacheEntry absPath entry f = f)
     /\ (onlyFolders f -> onlyFolders (DirCacheFs.addDirCacheEntry absPath entry f)))
  /\ (forall root c script ops,
        (1 <= lowLevelRetries c)%nat ->
        Forall folderReply (trace (snd (reached root c script ops))) ->
        onlyFolders (fst (reached root c script ops)))
  /\ (forall remotePath f n e f' n',
        onlyFolders f ->
        DirCacheFs.findEntry remotePath f n = (Ok e, f', n') ->
        Type_ e <> "folder"%string ->
        exists ev evs, trace n' = trace n ++ ev :: evs /\ Forall isListEvent (ev :: evs))
  /\ (forall remotePath f n ahead last,
        GoStrings.Split (GoStrings.Trim remotePath) = ahead ++ [last] ->
        ahead <> [] ->
        DirCacheFs.dirCache f !! GoStrings.Trim remotePath = None ->
        prefixesCached f [] ahead ->
        exists d,
          DirCacheFs.dirCache f !! GoStrings.Join ahead = Some d
          /\ Adds (listOf (Some (ID d))) n (snd (DirCacheFs.findEntry remotePath f n))).
Proof.
  split; [|split; [|split]].
  - intros absPath entry f. split; [|apply addDirCacheEntry_onlyFolders].
    intros Hty. unfold DirCacheFs.addDirCacheEntry.
    apply String.eqb_neq in Hty. rewrite Hty. reflexivity.
  - intros root c script ops Hretries Hall. unfold reached in *. cbn zeta in *.
    destruct (DirCacheFs_NewFs_start root c (mkNet script [])) as (H0 & Hapi & _).
    destruct (DirCacheFs.NewFs root c (mkNet script [])) as [[err f1] n1].
    cbn [fst snd] in *.
    destruct (Good_performAll ops f1 n1) as (_ & _ & _ & Hinv).
    apply Hinv; [exact H0|rewrite Hapi; exact Hretries|exact Hall].
  - intros remotePath f n e f' n' Hinv Hrun Hty.
    pose proof (DirCacheFs_findEntry_Adds remotePath f n) as (evs0 & Ht0 & Hall0 & _).
    rewrite Hrun in Ht0. cbn [snd] in Ht0.
    unfold DirCacheFs.findEntry in Hrun.
    destruct (String.eqb (GoStrings.Trim remotePath) "").
    { injection Hrun as <- _ _. exfalso. apply Hty. reflexivity. }
    destruct (DirCacheFs.dirCache f !! GoStrings.Trim remotePath) as [hit|] eqn:Hhit.
    { injection Hrun as <- _ _. exfalso. apply Hty. eapply Hinv. exact Hhit. }
    apply DirCacheFs_walk_listed in Hrun as (ev & evs & Ht).
    exists ev, evs. split; [exact Ht|].
    rewrite Ht in Ht0. apply app_inv_head in Ht0. subst evs0. exact Hall0.
  - intros remotePath f n ahead last.
    apply DirCacheFs_findEntry_from_deepest_cached.
Qed.

(** A creation answered with a folder; a file resolved through a listing;
    and B/x.txt resolved with B cached: only the children of B are
    listed. *)
Lemma dirCache_holds_only_folders_witness :
  DirCacheFs.addDirCacheEntry "A/x.txt" (fileX 1) (DirCacheFs.newFs "" (mkApiClient ApiGo 10))
  = DirCacheFs.newFs "" (mkApiClient ApiGo 10)
  /\ onlyFolders
       (fst (reached "" (mkApiClient ApiGo 10) (mkdirScript "folder")
               [OpMkdir 3 "a"; OpFindEntry "a"]))
  /\ (exists ev evs,
        trace (mkNet [] [EvCall (ReqList None 1) (listing [fileX 0])])
        = trace (mkNet [listing [fileX 0]] []) ++ ev :: evs
        /\ Forall isListEvent (ev :: evs))
  /\ (exists d,
        DirCacheFs.dirCache
          (DirCacheFs.addDirCacheEntry "B" dirB (DirCacheFs.newFs "" (mkApiClient ApiGo 10)))
          !! GoStrings.Join ["B"%string] = Some d
        /\ Adds (listOf (Some (ID d))) (mkNet [listing [fileX 2]] [])
             (snd (DirCacheFs.findEntry "B/x.txt"
                     (DirCacheFs.addDirCacheEntry "B" dirB
                        (DirCacheFs.newFs "" (mkApiClient ApiGo 10)))
                     (mkNet [listing [fileX 2]] [])))).
Proof.
  split; [|split; [|split]].
  - apply (proj1 (proj1 dirCache_holds_only_folders "A/x.txt" (fileX 1)
                    (DirCacheFs.newFs "" (mkApiClient ApiGo 10)))).
    discriminate.
  - apply (proj1 (proj2 dirCache_holds_only_folders) "" (mkApiClient ApiGo 10)
             (mkdirScript "folder") [OpMkdir 3 "a"; OpFindEntry "a"]).
    + simpl. lia.
    + vm_compute. repeat constructor. intros _. eexists. split; reflexivity.
  - apply (proj1 (proj2 (proj2 dirCache_holds_only_folders)) "x.txt"
             (DirCacheFs.newFs "" (mkApiClient ApiGo 10)) (mkNet [listing [fileX 0]] [])
             (fileX 0) (DirCacheFs.newFs "" (mkApiClient ApiGo 10))).
    + intros q e. unfold DirCacheFs.newFs. cbn [DirCacheFs.dirCache].
      rewrite lookup_empty. discriminate.
    + reflexivity.
    + discriminate.
  - apply (proj2 (proj2 (proj2 dirCache_holds_only_folders)) "B/x.txt"
             (DirCacheFs.addDirCacheEntry "B" dirB (DirCacheFs.newFs "" (mkApiClient ApiGo 10)))
             (mkNet [listing [fileX 2]] []) ["B"%string] "x.txt"%string).
    + reflexivity.
    + discriminate.
    + vm_compute. reflexivity.
    + intros k Hk. destruct k as [|k]; [|simpl in Hk; lia].
      vm_compute. eexists. reflexivity.
Defined.

(** C10 as stated fails when the creation reply carries no type: [mkdir]
    stores the entry under the path, and [findEntry] then answers from it. *)
Lemma dirCache_can_hold_a_non_folder :
  let state := reached "" (mkApiClient ApiGo 10) (mkdirScript "") [OpMkdir 3 "a"] in
  DirCacheFs.dirCache (fst state) !! "a"%string = Some (mkFileEntry 9 "a" "" 0 None 0 None "")
  /\ ~ onlyFolders (fst state)
  /\ fst (fst (DirCacheFs.findEntry "a" (fst state) (snd state)))
     = Ok (mkFileEntry 9 "a" "" 0 None 0 None "").
Proof.
  cbv zeta.
  assert (H : DirCacheFs.dirCache
                (fst (reached "" (mkApiClient ApiGo 10) (mkdirScript "") [OpMkdir 3 "a"]))
              !! "a"%string = Some (mkFileEntry 9 "a" "" 0 None 0 None ""))
    by (vm_compute; reflexivity).
  split; [exact H|]. split.
  - intros Hinv. specialize (Hinv _ _ H). discriminate.
  - vm_compute. reflexivity.
Qed.

(** The walk goes over the segments from the first one on, whatever the
    deepest prefix in the cache: with A/B cached and A not, resolving
    A/B/x.txt lists the root for A, takes B from the cache and lists B. *)
Lemma findEntry_lists_above_a_cached_prefix :
  let f := DirCacheFs.addDirCacheEntry "A/B" dirB (DirCacheFs.newFs "" (mkApiClient ApiGo 10)) in
  let run := DirCacheFs.findEntry "A/B/x.txt" f (mkNet [listing [dirA]; listing [fileX 2]] []) in
  fst (fst run) = Ok (fileX 2)
  /\ requests (trace (snd run)) = [ReqList None 1; ReqList (Some 2) 1].
Proof. vm_compute. split; reflexivity. Qed.

(** ** Concurrent callers of [Mkdir] (revision with [mkdirCache]) *)

Lemma isEntered_entered p f : isEntered p f <-> MkdirCallers.entered p f = 1%nat.
Proof.
  unfold isEntered, MkdirCallers.entered.
  destruct (DirCacheFs.mkdirCache f !! p) as [[| |]|]; split; intros H;
    try reflexivity; try discriminate; try (destruct H; discriminate); auto.
Qed.

Lemma isEntered_frame p f f' :
  DirCacheFs.mkdirCache f' = DirCacheFs.mkdirCache f -> isEntered p f -> isEntered p f'.
Proof. unfold isEntered. intros ->. auto. Qed.

Lemma isEntered_findEntry p q f n :
  isEntered p f -> isEntered p (snd (fst (DirCacheFs.findEntry q f n))).
Proof.
  apply isEntered_frame. apply (DirCacheFs_findEntry_frame q f n).
Qed.

Lemma isEntered_mkdir p MkdirRec :
  (forall dir f n, isEntered p f -> isEntered p (snd (fst (MkdirRec dir f n)))) ->
  forall dirPath f n,
    isEntered p f -> isEntered p (snd (fst (DirCacheFs.mkdir MkdirRec dirPath f n))).
Proof.
  intros HRec dirPath f n H. unfold DirCacheFs.mkdir.
  pose proof (isEntered_findEntry p dirPath f n H) as H1.
  destruct (DirCacheFs.findEntry dirPath f n) as [[found f1] n1]. simpl in H1.
  destruct found as [entry|err]; [exact H1|].
  assert (Hcreate : forall parentID f2 n2,
             isEntered p f2 ->
             isEntered p
               (snd (fst (let '(created, n3) :=
                            createFolder (DirCacheFs.api f2) (GoPath.Base dirPath) parentID n2 in
                          match created with
                          | Err createErr =>
                              let '(again, f4, n4) := DirCacheFs.findEntry dirPath f2 n3 in
                              match again with
                              | Ok entry =>
                                  (Returns None, DirCacheFs.addDirCacheEntry dirPath entry f4, n4)
                              | Err _ => (Returns (Some createErr), f4, n4)
                              end
                          | Ok entry =>
                              (Returns None,
                               DirCacheFs.setDirCache f2 (<[dirPath:=entry]> (DirCacheFs.dirCache f2)),
                               n3)
                          end)))).
  { intros parentID f2 n2 H2.
    destruct (createFolder (DirCacheFs.api f2) (GoPath.Base dirPath) parentID n2)
      as [created n3].
    destruct created as [entry|createErr]; [exact H2|].
    pose proof (isEntered_findEntry p dirPath f2 n3 H2) as H4.
    destruct (DirCacheFs.findEntry dirPath f2 n3) as [[again f4] n4]. simpl in H4.
    destruct again as [entry|e]; [|exact H4]. cbn [fst snd].
    eapply isEntered_frame; [|exact H4].
    apply (DirCacheFs_addDirCacheEntry_frame dirPath entry f4). }
  destruct err; try exact H1.
  destruct (negb (String.eqb (GoPath.Dir dirPath) "")
            && negb (String.eqb (GoPath.Dir dirPath) ".")).
  - pose proof (HRec (GoStrings.TrimPrefix (GoPath.Dir dirPath) (DirCacheFs.root f1 ++ "/")%string)
                  f1 n1 H1) as H2.
    destruct (MkdirRec _ f1 n1) as [[ran f2] n2]. simpl in H2.
    destruct ran as [[err|]| |]; try exact H2.
    pose proof (isEntered_findEntry p (GoPath.Dir dirPath) f2 n2 H2) as H3.
    destruct (DirCacheFs.findEntry (GoPath.Dir dirPath) f2 n2) as [[parentEntry f3] n3].
    simpl in H3.
    destruct parentEntry as [e|findErr]; [|exact H3].
    apply Hcreate. exact H3.
  - apply Hcreate. exact H1.
Qed.

Lemma isEntered_insert_other p q once f :
  q <> p -> isEntered p f ->
  isEntered p (DirCacheFs.setMkdirCache f (<[q:=once]> (DirCacheFs.mkdirCache f))).
Proof.
  unfold isEntered. cbn [DirCacheFs.mkdirCache DirCacheFs.setMkdirCache].
  intros Hne H. rewrite lookup_insert_ne by exact Hne. exact H.
Qed.

Lemma isEntered_Mkdir p :
  forall fuel dir f n,
    isEntered p f -> isEntered p (snd (fst (DirCacheFs.Mkdir fuel dir f n))).
Proof.
  induction fuel as [|fuel IH]; intros dir f n H; simpl; [exact H|].
  set (dirPath := GoPath.Join2 (DirCacheFs.root f) dir).
  destruct (String.eqb dirPath "" || String.eqb dirPath "."); [exact H|].
  destruct (decide (dirPath = p)) as [Heq|Hne].
  - (* the gate asked for is the entered one: the call returns or waits *)
    destruct H as [H|H]; rewrite Heq, H; cbn [fst snd]; [left|right]; exact H.
  - destruct (DirCacheFs.mkdirCache f !! dirPath) as [once|] eqn:Hgate.
    + destruct once; try exact H.
      pose proof (isEntered_mkdir p (DirCacheFs.Mkdir fuel) IH dirPath
                    (DirCacheFs.setMkdirCache f
                       (<[dirPath:=DirCacheFs.OnceRunning]> (DirCacheFs.mkdirCache f))) n
                    (isEntered_insert_other p dirPath _ f Hne H)) as H2.
      destruct (DirCacheFs.mkdir _ dirPath _ n) as [[ran f2] n2]. simpl in H2.
      destruct ran as [err| |]; try exact H2.
      cbn [fst snd]. apply isEntered_insert_other; assumption.
    + set (f1 := DirCacheFs.setMkdirCache f
                   (<[dirPath:=DirCacheFs.OnceFresh]> (DirCacheFs.mkdirCache f))).
      assert (H1 : isEntered p f1) by (apply isEntered_insert_other; assumption).
      pose proof (isEntered_mkdir p (DirCacheFs.Mkdir fuel) IH dirPath
                    (DirCacheFs.setMkdirCache f1
                       (<[dirPath:=DirCacheFs.OnceRunning]> (DirCacheFs.mkdirCache f1))) n
                    (isEntered_insert_other p dirPath _ f1 Hne H1)) as H2.
      destruct (DirCacheFs.mkdir _ dirPath _ n) as [[ran f2] n2]. simpl in H2.
      destruct ran as [err| |]; try exact H2.
      cbn [fst snd]. apply isEntered_insert_other; assumption.
Qed.

Lemma total_insert (w : MkdirCallers.Caller -> nat) :
  forall l i who who',
    l !! i = Some who ->
    (MkdirCallers.total w (<[i:=who']> l) + w who = MkdirCallers.total w l + w who')%nat.
Proof.
  induction l as [|x l IH]; intros i who who' H; [discriminate|].
  destruct i as [|i]; simpl in *.
  - injection H as ->. lia.
  - specialize (IH i who who' H). lia.
Qed.

Lemma total_replicate (w : MkdirCallers.Caller -> nat) k who :
  w who = O -> MkdirCallers.total w (replicate k who) = O.
Proof. intros H. induction k as [|k IH]; simpl; [reflexivity|]. rewrite H, IH. reflexivity. Qed.

Lemma entered_le_1 dirPath f : (MkdirCallers.entered dirPath f <= 1)%nat.
Proof.
  unfold MkdirCallers.entered.
  destruct (DirCacheFs.mkdirCache f !! dirPath) as [[| |]|]; lia.
Qed.

Ltac gate_step Hg HN :=
  unfold gateInvariant, MkdirCallers.entered;
  cbn [MkdirCallers.bodies MkdirCallers.callers MkdirCallers.fs MkdirCallers.net
       DirCacheFs.mkdirCache DirCacheFs.setMkdirCache];
  rewrite ?lookup_insert_eq, ?Hg;
  repeat split; [lia | lia | first [exact HN | discriminate]].

Lemma step_gateInvariant fuel dirPath n0 i st :
  gateInvariant dirPath n0 st ->
  gateInvariant dirPath n0 (MkdirCallers.step fuel dirPath i st).
Proof.
  intros (HK & HF & HN). unfold MkdirCallers.step.
  destruct (MkdirCallers.callers st !! i) as [who|] eqn:Hwho; [|repeat split; assumption].
  pose proof (total_insert MkdirCallers.inBody (MkdirCallers.callers st) i who) as TI.
  pose proof (total_insert MkdirCallers.failed (MkdirCallers.callers st) i who) as TF.
  specialize (fun who' => TI who' Hwho). specialize (fun who' => TF who' Hwho).
  destruct who as [| | |r]; cbn [MkdirCallers.stepCaller].
  - (* LoadOrStore *)
    specialize (TI MkdirCallers.AtDo). specialize (TF MkdirCallers.AtDo). simpl in TI, TF.
    unfold MkdirCallers.entered in HK.
    destruct (DirCacheFs.mkdirCache (MkdirCallers.fs st) !! dirPath) as [once|] eqn:Hg;
      gate_step Hg HN.
  - (* once.Do *)
    unfold MkdirCallers.entered in HK.
    destruct (DirCacheFs.mkdirCache (MkdirCallers.fs st) !! dirPath) as [[| |]|] eqn:Hg.
    + specialize (TI MkdirCallers.InBody). specialize (TF MkdirCallers.InBody).
      simpl in TI, TF. gate_step Hg HN.
    + specialize (TI MkdirCallers.AtDo). specialize (TF MkdirCallers.AtDo).
      simpl in TI, TF. gate_step Hg HN.
    + specialize (TI (MkdirCallers.Finished (Returns None))).
      specialize (TF (MkdirCallers.Finished (Returns None))).
      simpl in TI, TF. gate_step Hg HN.
    + specialize (TI MkdirCallers.AtDo). specialize (TF MkdirCallers.AtDo).
      simpl in TI, TF. gate_step Hg HN.
  - (* the body *)
    assert (Hent : isEntered dirPath (MkdirCallers.fs st)).
    { apply isEntered_entered.
      pose proof (entered_le_1 dirPath (MkdirCallers.fs st)).
      specialize (TI MkdirCallers.AtDo). simpl in TI. lia. }
    pose proof (isEntered_mkdir dirPath (DirCacheFs.Mkdir fuel) (isEntered_Mkdir dirPath fuel)
                  dirPath (MkdirCallers.fs st) (MkdirCallers.net st) Hent) as Hafter.
    apply isEntered_entered in Hent.
    destruct (DirCacheFs.mkdir (DirCacheFs.Mkdir fuel) dirPath (MkdirCallers.fs st)
                (MkdirCallers.net st)) as [[ran f2] n2].
    simpl in Hafter. apply isEntered_entered in Hafter.
    destruct ran as [err| |].
    + specialize (TI (MkdirCallers.Finished (Returns err))).
      specialize (TF (MkdirCallers.Finished (Returns err))).
      simpl in TI.
      assert (MkdirCallers.failed (MkdirCallers.Finished (Returns err)) <= 1)%nat
        by (destruct err; simpl; lia).
      simpl (MkdirCallers.failed MkdirCallers.InBody) in TF.
      gate_step Hent HN.
    + specialize (TI (MkdirCallers.Finished Deadlock)).
      specialize (TF (MkdirCallers.Finished Deadlock)).
      simpl in TI, TF.
      unfold gateInvariant;
        cbn [MkdirCallers.bodies MkdirCallers.callers MkdirCallers.fs MkdirCallers.net].
      repeat split; [lia|lia|discriminate].
    + specialize (TI (MkdirCallers.Finished OutOfFuel)).
      specialize (TF (MkdirCallers.Finished OutOfFuel)).
      simpl in TI, TF.
      unfold gateInvariant;
        cbn [MkdirCallers.bodies MkdirCallers.callers MkdirCallers.fs MkdirCallers.net].
      repeat split; [lia|lia|discriminate].
  - (* returned *)
    specialize (TI (MkdirCallers.Finished r)). specialize (TF (MkdirCallers.Finished r)).
    unfold gateInvariant;
      cbn [MkdirCallers.bodies MkdirCallers.callers MkdirCallers.fs MkdirCallers.net].
    repeat split; [lia|lia|exact HN].
Qed.

Lemma run_gateInvariant fuel dirPath n0 :
  forall schedule st,
    gateInvariant dirPath n0 st ->
    gateInvariant dirPath n0 (MkdirCallers.run fuel dirPath schedule st).
Proof.
  induction schedule as [|i rest IH]; intros st H; simpl; [exact H|].
  apply IH. apply step_gateInvariant. exact H.
Qed.

(** Whatever the schedule, among any number of concurrent callers of
    [Mkdir] for a path whose gate is new, [f.mkdir] is run at most once,
    nothing is sent unless it is run, and at most one caller - the one
    that ran it - returns an error or gets stuck: the others return nil. *)
Lemma Mkdir_body_runs_at_most_once fuel dirPath k f n schedule :
  DirCacheFs.mkdirCache f !! dirPath = None ->
  let st := MkdirCallers.run fuel dirPath schedule (MkdirCallers.start k f n) in
  (MkdirCallers.bodies st <= 1)%nat
  /\ (MkdirCallers.total MkdirCallers.failed (MkdirCallers.callers st)
      <= MkdirCallers.bodies st)%nat
  /\ (MkdirCallers.bodies st = O -> MkdirCallers.net st = n).
Proof.
  intros Hgate st.
  assert (H0 : gateInvariant dirPath n (MkdirCallers.start k f n)).
  { unfold gateInvariant, MkdirCallers.start, MkdirCallers.entered.
    cbn [MkdirCallers.bodies MkdirCallers.callers MkdirCallers.fs MkdirCallers.net].
    rewrite Hgate, !total_replicate by reflexivity. repeat split; lia. }
  destruct (run_gateInvariant fuel dirPath n schedule _ H0) as (HK & HF & HN).
  fold st in HK, HF, HN.
  pose proof (entered_le_1 dirPath (MkdirCallers.fs st)).
  repeat split; [lia|exact HF|exact HN].
Qed.

Lemma step_at fuel dirPath i st who :
  MkdirCallers.callers st !! i = Some who ->
  MkdirCallers.step fuel dirPath i st
  = (let '(who', f', n', b') :=
       MkdirCallers.stepCaller fuel dirPath who (MkdirCallers.fs st) (MkdirCallers.net st)
         (MkdirCallers.bodies st) in
     MkdirCallers.mkState f' n' (<[i := who']> (MkdirCallers.callers st)) b').
Proof. intros H. unfold MkdirCallers.step. rewrite H. reflexivity. Qed.

Ltac step_inner who :=
  match goal with
  | |- context [MkdirCallers.step ?fuel ?p ?i (MkdirCallers.mkState ?a ?b ?c ?d)] =>
      rewrite (step_at fuel p i (MkdirCallers.mkState a b c d) who) by reflexivity
  end;
  cbn [MkdirCallers.stepCaller MkdirCallers.callers MkdirCallers.fs MkdirCallers.net
       MkdirCallers.bodies DirCacheFs.mkdirCache DirCacheFs.setMkdirCache].

(** One caller alone goes through the three steps of the sequential
    [Mkdir]. *)
Lemma single_caller_is_Mkdir fuel dir f n :
  let dirPath := GoPath.Join2 (DirCacheFs.root f) dir in
  String.eqb dirPath "" || String.eqb dirPath "." = false ->
  DirCacheFs.mkdirCache f !! dirPath = None ->
  let st := MkdirCallers.run fuel dirPath [0; 0; 0]%nat (MkdirCallers.start 1 f n) in
  DirCacheFs.Mkdir (S fuel) dir f n
  = (match MkdirCallers.callers st with
     | [MkdirCallers.Finished r] => r
     | _ => OutOfFuel
     end, MkdirCallers.fs st, MkdirCallers.net st).
Proof.
  intros dirPath Hplain Hgate st. subst st.
  cbn [DirCacheFs.Mkdir]. fold dirPath. rewrite Hplain, Hgate.
  unfold MkdirCallers.start. cbn [MkdirCallers.run].
  step_inner MkdirCallers.AtLoadOrStore. rewrite Hgate.
  step_inner MkdirCallers.AtDo. rewrite lookup_insert_eq.
  step_inner MkdirCallers.InBody.
  destruct (DirCacheFs.mkdir (DirCacheFs.Mkdir fuel) dirPath _ n) as [[ran f2] n2].
  destruct ran; reflexivity.
Qed.

(** Once the gate of a path is done, [Mkdir] for that path returns nil at
    once and sends nothing, whatever the run that closed the gate
    returned. *)
Lemma Mkdir_gate_done_is_silent fuel dir f n :
  DirCacheFs.mkdirCache f !! GoPath.Join2 (DirCacheFs.root f) dir = Some DirCacheFs.OnceDone ->
  DirCacheFs.Mkdir (S fuel) dir f n = (Returns None, f, n).
Proof.
  intros Hgate. cbn [DirCacheFs.Mkdir]. rewrite Hgate.
  destruct (String.eqb _ "" || String.eqb _ "."); reflexivity.
Qed.

(** C2, at the failing input: both callers load the gate, the first enters
    [once.Do] and runs [f.mkdir], the second waits; the creation fails and
    the first caller returns the error; the second then finds the gate
    done and returns nil, although no folder was created.  One creation
    request was sent. *)
Theorem Mkdir_waiter_returns_nil_after_failure :
  MkdirCallers.callers twoCallers
  = [MkdirCallers.Finished
       (Returns (Some (ErrWrap "create folder failed" (ErrHTTP "403 Forbidden"))));
     MkdirCallers.Finished (Returns None)]
  /\ MkdirCallers.bodies twoCallers = 1%nat
  /\ requests (trace (MkdirCallers.net twoCallers))
     = [ReqList None 1; ReqList (Some 0) 1; ReqCreateFolder "a" 0; ReqList None 1]
  /\ DirCacheFs.dirCache (MkdirCallers.fs twoCallers) !! "a"%string = None.
Proof. vm_compute. repeat split; reflexivity. Qed.

(** The same one after the other: a [Mkdir] that failed makes every later
    [Mkdir] of the path return nil without a request. *)
Lemma Mkdir_again_after_failure :
  let first := DirCacheFs.Mkdir 3 "a" (DirCacheFs.newFs "" (mkApiClient ApiGo 1))
                 (mkNet refusedScript []) in
  fst (fst first) = Returns (Some (ErrWrap "create folder failed" (ErrHTTP "403 Forbidden")))
  /\ DirCacheFs.Mkdir 3 "a" (snd (fst first)) (snd first)
     = (Returns None, snd (fst first), snd first).
Proof. vm_compute. repeat split; reflexivity. Qed.

(** ** Concurrent callers of [Mkdir] (revision with [pathCache]) *)

(** The two halves of [createFolder] make up [createFolder]. *)
Lemma createFolder_split c name parentID n :
  createFolder c name parentID n
  = match MkdirRacers.checkExisting c name parentID n with
    | (Some e, n1) => (Ok e, n1)
    | (None, n1) => MkdirRacers.requestFolder c name parentID n1
    end.
Proof.
  unfold createFolder, MkdirRacers.checkExisting, MkdirRacers.requestFolder, listEntries.
  destruct (revision c).
  - unfold Api_go.createFolder.
    destruct (Api_go.listEntries _ _ n) as [listed n1].
    destruct (match listed with Ok entries => findFolder name entries | Err _ => None end);
      reflexivity.
  - unfold Part0.createFolder. cbv zeta.
    destruct (Part0.listEntries _ _ n) as [listed n1].
    destruct (match listed with Ok entries => findFolder name entries | Err _ => None end);
      reflexivity.
Qed.

Lemma racer_step_at dirPath i st who :
  MkdirRacers.callers st !! i = Some who ->
  MkdirRacers.step dirPath i st
  = (let '(who', f', n') :=
       MkdirRacers.stepCaller dirPath who (MkdirRacers.fs st) (MkdirRacers.net st) in
     MkdirRacers.mkState f' n' (<[i := who']> (MkdirRacers.callers st))).
Proof. intros H. unfold MkdirRacers.step. rewrite H. reflexivity. Qed.

(** A caller that has returned stays where it is. *)
Lemma racer_finished_stays dirPath schedule f n r :
  Forall (fun i => i = O) schedule ->
  MkdirRacers.run dirPath schedule (MkdirRacers.mkState f n [MkdirRacers.Finished r])
  = MkdirRacers.mkState f n [MkdirRacers.Finished r].
Proof.
  induction 1 as [|i rest -> _ IH]; [reflexivity|].
  cbn [MkdirRacers.run]. rewrite (racer_step_at _ _ _ (MkdirRacers.Finished r)) by reflexivity.
  exact IH.
Qed.

Ltac racer_step who :=
  change (MkdirRacers.run ?p (?i :: ?rest) ?st)
    with (MkdirRacers.run p rest (MkdirRacers.step p i st));
  match goal with
  | |- context [MkdirRacers.step ?p ?i (MkdirRacers.mkState ?a ?b ?c)] =>
      rewrite (racer_step_at p i (MkdirRacers.mkState a b c) who) by reflexivity
  end;
  cbn [MkdirRacers.stepCaller MkdirRacers.callers MkdirRacers.fs MkdirRacers.net];
  change (<[0%nat := ?x]> [who]) with [x].

Ltac racer_done :=
  rewrite racer_finished_stays by (repeat constructor);
  eexists; split; reflexivity.

(** From the existence check of [createFolder] on. *)
Lemma racer_from_check dirPath parentID f n :
  let st := MkdirRacers.run dirPath [0; 0; 0]%nat
              (MkdirRacers.mkState f n [MkdirRacers.AtCheck parentID]) in
  exists r,
    MkdirRacers.callers st = [MkdirRacers.Finished r]
    /\ match createFolder (PathCacheFs.api f) (GoPath.Base dirPath) parentID n with
       | (Ok entry, n3) =>
           (None,
            PathCacheFs.setPathCache
              (PathCacheFs.setEntryCache f (<[ID entry := entry]> (PathCacheFs.entryCache f)))
              (<[dirPath := ID entry]>
                 (PathCacheFs.pathCache
                    (PathCacheFs.setEntryCache f
                       (<[ID entry := entry]> (PathCacheFs.entryCache f))))),
            n3)
       | (Err err, n3) => (Some err, f, n3)
       end
       = (r, MkdirRacers.fs st, MkdirRacers.net st).
Proof.
  intros st. subst st. rewrite createFolder_split.
  racer_step (MkdirRacers.AtCheck parentID).
  destruct (MkdirRacers.checkExisting _ _ parentID n) as [[e|] n1].
  - racer_step (MkdirRacers.AtStore e). racer_done.
  - racer_step (MkdirRacers.AtRequest parentID).
    destruct (MkdirRacers.requestFolder _ _ parentID n1) as [[e|err] n2].
    + racer_step (MkdirRacers.AtStore e). racer_done.
    + racer_done.
Qed.

(** One caller alone goes through the sequential [Mkdir] in at most five
    steps. *)
Lemma single_racer_is_Mkdir dir f n :
  let dirPath := GoPath.Join2 (PathCacheFs.root f) dir in
  let st := MkdirRacers.run dirPath [0; 0; 0; 0; 0]%nat (MkdirRacers.start 1 f n) in
  exists r,
    MkdirRacers.callers st = [MkdirRacers.Finished r]
    /\ PathCacheFs.Mkdir dir f n = (r, MkdirRacers.fs st, MkdirRacers.net st).
Proof.
  intros dirPath st. subst st. unfold PathCacheFs.Mkdir. fold dirPath.
  unfold MkdirRacers.start. cbn [replicate].
  racer_step MkdirRacers.AtResolve.
  destruct (PathCacheFs.findEntry dirPath f n) as [[found f1] n1].
  destruct found as [e|e]; [racer_done|].
  racer_step MkdirRacers.AtParent.
  destruct (negb (String.eqb (GoPath.Dir dirPath) "")
            && negb (String.eqb (GoPath.Dir dirPath) ".")).
  - destruct (PathCacheFs.findEntry (GoPath.Dir dirPath) f1 n1) as [[parent f2] n2].
    destruct parent as [e0|err]; [apply racer_from_check|racer_done].
  - apply racer_from_check.
Qed.

(** Both callers of [Mkdir "a"] send a creation request.  When the remote
    answers the second one with a second folder, both return nil and the
    cache row of "a" names the second folder; when it answers 422, the
    caller of [api.go] returns that failure while the first caller
    returned nil, and the caller of [part_000] finds the first folder in
    its listing after the 422. *)
Lemma Mkdir_pathCache_creates_twice :
  (let st := racers ApiGo [createdAgain] in
   requests (trace (MkdirRacers.net st))
   = [ReqList None 1; ReqList None 1; ReqList (Some 0) 1; ReqList (Some 0) 1;
      ReqCreateFolder "a" 0; ReqCreateFolder "a" 0]
   /\ MkdirRacers.callers st = [MkdirRacers.Finished None; MkdirRacers.Finished None]
   /\ PathCacheFs.pathCache (MkdirRacers.fs st) !! "a"%string = Some 10)
  /\ (let st := racers ApiGo [exists422] in
      requests (trace (MkdirRacers.net st))
      = [ReqList None 1; ReqList None 1; ReqList (Some 0) 1; ReqList (Some 0) 1;
         ReqCreateFolder "a" 0; ReqCreateFolder "a" 0]
      /\ MkdirRacers.callers st
         = [MkdirRacers.Finished None;
            MkdirRacers.Finished
              (Some (ErrWrap "create folder failed" (ErrHTTP "422 Unprocessable Content")))])
  /\ (let st := racers ApiPart0 [exists422; listing [mkFileEntry 9 "a" "folder" 0 None 0 None ""]] in
      requests (trace (MkdirRacers.net st))
      = [ReqList None 1; ReqList None 1; ReqList None 1; ReqList None 1;
         ReqCreateFolder "a" 0; ReqCreateFolder "a" 0; ReqList None 1]
      /\ MkdirRacers.callers st = [MkdirRacers.Finished None; MkdirRacers.Finished None]
      /\ PathCacheFs.pathCache (MkdirRacers.fs st) !! "a"%string = Some 9).
Proof. vm_compute. repeat split; reflexivity. Qed.

(** * Further properties of the operations *)

(** ** Path resolution *)

Lemma trimRightSlash_cons c s :
  GoStrings.trimRightSlash (String c s)
  = match GoStrings.trimRightSlash s with
    | EmptyString => if Ascii.eqb c GoStrings.slash then EmptyString else String c EmptyString
    | t => String c t
    end.
Proof. reflexivity. Qed.

Lemma trimRightSlash_idem s :
  GoStrings.trimRightSlash (GoStrings.trimRightSlash s) = GoStrings.trimRightSlash s.
Proof.
  induction s as [|c s IH]; [reflexivity|].
  rewrite trimRightSlash_cons.
  destruct (GoStrings.trimRightSlash s) as [|d t] eqn:E.
  - destruct (Ascii.eqb c GoStrings.slash) eqn:Hc; [reflexivity|].
    rewrite trimRightSlash_cons. cbn [GoStrings.trimRightSlash]. rewrite Hc. reflexivity.
  - rewrite trimRightSlash_cons, IH. reflexivity.
Qed.

Lemma trimLeftSlash_head s :
  GoStrings.trimLeftSlash s = ""%string
  \/ exists c t, GoStrings.trimLeftSlash s = String c t /\ Ascii.eqb c GoStrings.slash = false.
Proof.
  induction s as [|c s IH]; [left; reflexivity|].
  cbn [GoStrings.trimLeftSlash].
  destruct (Ascii.eqb c GoStrings.slash) eqn:Hc; [exact IH|].
  right. exists c, s. auto.
Qed.

Lemma trimRightSlash_head c t :
  Ascii.eqb c GoStrings.slash = false ->
  exists t', GoStrings.trimRightSlash (String c t) = String c t'.
Proof.
  intros Hc. cbn [GoStrings.trimRightSlash].
  destruct (GoStrings.trimRightSlash t) as [|d t'].
  - rewrite Hc. eexists; reflexivity.
  - eexists; reflexivity.
Qed.

(** [strings.Trim(s, "/")] of a trimmed string is that string. *)
Lemma Trim_idem s : GoStrings.Trim (GoStrings.Trim s) = GoStrings.Trim s.
Proof.
  unfold GoStrings.Trim.
  destruct (trimLeftSlash_head s) as [->|(c & t & -> & Hc)]; [reflexivity|].
  destruct (trimRightSlash_head c t Hc) as (t' & Ht). rewrite Ht.
  cbn [GoStrings.trimLeftSlash]. rewrite Hc. rewrite <- Ht.
  apply trimRightSlash_idem.
Qed.

(** X1: [findEntry] of the [dirCache] revision does not see the slashes
    around a path: the trimmed path, and the path with a slash put before
    it, resolve exactly as the path itself, in every state. *)
Theorem findEntry_ignores_outer_slashes (p : string) (f : DirCacheFs.Fs) (n : Net) :
  DirCacheFs.findEntry (GoStrings.Trim p) f n = DirCacheFs.findEntry p f n
  /\ DirCacheFs.findEntry (String "/" p) f n = DirCacheFs.findEntry p f n.
Proof.
  unfold DirCacheFs.findEntry. rewrite Trim_idem. split; reflexivity.
Qed.

(** [walk] hands back a folder only after it has put it in [dirCache]
    under the path asked for. *)
Lemma DirCacheFs_walk_caches_folder remotePath :
  forall ahead walked currentID f n e f' n',
    DirCacheFs.walk remotePath walked ahead currentID f n = (Ok e, f', n') ->
    Type_ e = "folder"%string ->
    DirCacheFs.dirCache f' !! remotePath = Some e.
Proof.
  induction ahead as [|part ahead IH]; intros walked currentID f n e f' n'; simpl;
    [discriminate|].
  destruct (DirCacheFs.dirCache f !! GoStrings.Join (walked ++ [part])); [apply IH|].
  destruct (listEntries (DirCacheFs.api f) _ n) as [listed n1].
  destruct listed as [entries|err]; [|discriminate].
  destruct (find _ entries) as [e0|]; [|discriminate].
  destruct (String.eqb (GoStrings.Join (walked ++ [part])) remotePath) eqn:Hhere; [|apply IH].
  intros [= <- <- _] Hty. apply String.eqb_eq in Hhere. rewrite Hty.
  unfold DirCacheFs.addDirCacheEntry. rewrite Hty. cbn.
  rewrite Hhere. apply lookup_insert_eq.
Qed.

(** X2: in the [dirCache] revision a path that has resolved to a folder is
    answered from the cache from then on: the next [findEntry] of it
    returns the same entry, leaves the state as it is and sends nothing. *)
Theorem findEntry_folder_is_answered_from_cache (p : string) (f f' : DirCacheFs.Fs)
    (n n' : Net) (e : FileEntry) :
  DirCacheFs.findEntry p f n = (Ok e, f', n') ->
  Type_ e = "folder"%string ->
  forall later, DirCacheFs.findEntry p f' later = (Ok e, f', later).
Proof.
  unfold DirCacheFs.findEntry. intros Hrun Hty later.
  destruct (String.eqb (GoStrings.Trim p) "") eqn:Hroot.
  { injection Hrun as <- <- _. reflexivity. }
  destruct (DirCacheFs.dirCache f !! GoStrings.Trim p) as [hit|] eqn:Hhit.
  { injection Hrun as <- <- _. rewrite Hhit. reflexivity. }
  rewrite (DirCacheFs_walk_caches_folder _ _ _ _ _ _ _ _ _ Hrun Hty). reflexivity.
Qed.

Lemma findEntry_folder_is_answered_from_cache_witness :
  DirCacheFs.findEntry "A"
    (DirCacheFs.addDirCacheEntry "A" dirA (DirCacheFs.newFs "" (mkApiClient ApiGo 10)))
    (mkNet [] [])
  = (Ok dirA,
     DirCacheFs.addDirCacheEntry "A" dirA (DirCacheFs.newFs "" (mkApiClient ApiGo 10)),
     mkNet [] []).
Proof.
  apply (findEntry_folder_is_answered_from_cache "A"
           (DirCacheFs.newFs "" (mkApiClient ApiGo 10)) _
           (mkNet [listing [dirA]] []) (mkNet [] [EvCall (ReqList None 1) (listing [dirA])])
           dirA).
  - reflexivity.
  - reflexivity.
Defined.

(** X3: in the [pathCache] revision every path that has resolved, to a file
    as well as to a folder, is answered from the caches from then on: the
    next [findEntry] of it returns the same entry, leaves the state as it
    is and sends nothing ([rootID] being nil, as [NewFs] leaves it). *)
Theorem findEntry_pathCache_is_answered_from_cache (q : string) (f f1 : PathCacheFs.Fs)
    (n n1 : Net) (entry : FileEntry) :
  PathCacheFs.rootID f = None ->
  PathCacheFs.findEntry q f n = (Ok entry, f1, n1) ->
  forall later, PathCacheFs.findEntry q f1 later = (Ok entry, f1, later).
Proof.
  intros Hroot Hrun later.
  apply PathCacheFs_findEntry_cached.
  eapply PathCacheFs_findEntry_caches; eassumption.
Qed.

Lemma findEntry_pathCache_is_answered_from_cache_witness :
  let f1 := snd (fst (PathCacheFs.findEntry "x.txt"
                        (PathCacheFs.newFs "" (mkApiClient ApiGo 10))
                        (mkNet [listing [fileX 0]] []))) in
  PathCacheFs.findEntry "x.txt" f1 (mkNet [] []) = (Ok (fileX 0), f1, mkNet [] []).
Proof.
  intros f1.
  apply (findEntry_pathCache_is_answered_from_cache "x.txt"
           (PathCacheFs.newFs "" (mkApiClient ApiGo 10)) f1
           (mkNet [listing [fileX 0]] [])
           (mkNet [] [EvCall (ReqList None 1) (listing [fileX 0])]) (fileX 0)).
  - reflexivity.
  - vm_compute. reflexivity.
Defined.

(** ** [List] *)

Lemma DirCacheFs_listLoop_entries dir :
  forall fileEntries entries f,
    fst (DirCacheFs.listLoop dir fileEntries entries f)
    = entries ++ map (dirEntryOf dir) fileEntries.
Proof.
  induction fileEntries as [|entry rest IH]; intros entries f.
  - cbn [DirCacheFs.listLoop map fst]. rewrite app_nil_r. reflexivity.
  - cbn [DirCacheFs.listLoop map]. unfold dirEntryOf at 1.
    destruct (String.eqb (Type_ entry) "folder"); rewrite IH, <- app_assoc; reflexivity.
Qed.

Lemma PathCacheFs_listLoop_entries dir :
  forall fileEntries entries f,
    fst (PathCacheFs.listLoop dir fileEntries entries f)
    = entries ++ map (dirEntryOf dir) fileEntries.
Proof.
  induction fileEntries as [|entry rest IH]; intros entries f.
  - cbn [PathCacheFs.listLoop map fst]. rewrite app_nil_r. reflexivity.
  - cbn [PathCacheFs.listLoop map]. unfold dirEntryOf at 1.
    destruct (String.eqb (Type_ entry) "folder"); rewrite IH, <- app_assoc; reflexivity.
Qed.

(** X4: what a successful [List] returns, in both revisions: the directory
    resolved to a folder (or is the root, which is not resolved), the
    children of that folder were listed, and the result holds one entry
    per listed child, in the order of the listing: a directory for each
    folder and an object for anything else, named [path.Join(dir, name)]. *)
Theorem List_returns_the_listing_in_order (dir : string) :
  (forall f n entries f' n',
     DirCacheFs.List dir f n = (Ok entries, f', n') ->
     let dirPath := GoPath.Join2 (DirCacheFs.root f) dir in
     exists f1 n1 parentID fileEntries,
       ((dirPath = ""%string /\ parentID = None /\ f1 = f /\ n1 = n)
        \/ (dirPath <> ""%string /\
            exists entry,
              DirCacheFs.findEntry dirPath f n = (Ok entry, f1, n1)
              /\ Type_ entry = "folder"%string /\ parentID = Some (ID entry)))
       /\ listEntries (DirCacheFs.api f1) parentID n1 = (Ok fileEntries, n')
       /\ entries = map (dirEntryOf dir) fileEntries)
  /\ (forall f n entries f' n',
        PathCacheFs.List dir f n = (Ok entries, f', n') ->
        let dirPath := GoPath.Join2 (PathCacheFs.root f) dir in
        exists f1 n1 parentID fileEntries,
          ((dirPath = ""%string /\ parentID = PathCacheFs.rootID f /\ f1 = f /\ n1 = n)
           \/ (dirPath <> ""%string /\
               exists entry,
                 PathCacheFs.findEntry dirPath f n = (Ok entry, f1, n1)
                 /\ Type_ entry = "folder"%string /\ parentID = Some (ID entry)))
          /\ listEntries (PathCacheFs.api f1) parentID n1 = (Ok fileEntries, n')
          /\ entries = map (dirEntryOf dir) fileEntries).
Proof.
  split.
  - intros f n entries f' n' Hrun dirPath. unfold DirCacheFs.List in Hrun. fold dirPath in Hrun.
    destruct (String.eqb dirPath "") eqn:Hroot; cbn [negb] in Hrun.
    + apply String.eqb_eq in Hroot.
      destruct (listEntries (DirCacheFs.api f) None n) as [listed n2] eqn:Hlist.
      destruct listed as [fileEntries|err]; [|discriminate].
      pose proof (DirCacheFs_listLoop_entries dir fileEntries [] f) as Hmap.
      destruct (DirCacheFs.listLoop dir fileEntries [] f) as [out f2].
      injection Hrun as <- _ <-. exists f, n, None, fileEntries.
      split; [left; auto|]. split; [exact Hlist|exact Hmap].
    + apply String.eqb_neq in Hroot.
      destruct (DirCacheFs.findEntry dirPath f n) as [[found f1] n1].
      destruct found as [entry|err]; [|discriminate].
      destruct (String.eqb (Type_ entry) "folder") eqn:Hty; cbn [negb] in Hrun; [|discriminate].
      apply String.eqb_eq in Hty.
      destruct (listEntries (DirCacheFs.api f1) (Some (ID entry)) n1) as [listed n2] eqn:Hlist.
      destruct listed as [fileEntries|err]; [|discriminate].
      pose proof (DirCacheFs_listLoop_entries dir fileEntries [] f1) as Hmap.
      destruct (DirCacheFs.listLoop dir fileEntries [] f1) as [out f2].
      injection Hrun as <- _ <-. exists f1, n1, (Some (ID entry)), fileEntries.
      split; [right; split; [exact Hroot|exists entry; auto]|].
      split; [exact Hlist|exact Hmap].
  - intros f n entries f' n' Hrun dirPath. unfold PathCacheFs.List in Hrun. fold dirPath in Hrun.
    destruct (String.eqb dirPath "") eqn:Hroot; cbn [negb] in Hrun.
    + apply String.eqb_eq in Hroot.
      destruct (listEntries (PathCacheFs.api f) (PathCacheFs.rootID f) n)
        as [listed n2] eqn:Hlist.
      destruct listed as [fileEntries|err]; [|discriminate].
      pose proof (PathCacheFs_listLoop_entries dir fileEntries [] f) as Hmap.
      destruct (PathCacheFs.listLoop dir fileEntries [] f) as [out f2].
      injection Hrun as <- _ <-. exists f, n, (PathCacheFs.rootID f), fileEntries.
      split; [left; auto|]. split; [exact Hlist|exact Hmap].
    + apply String.eqb_neq in Hroot.
      destruct (PathCacheFs.findEntry dirPath f n) as [[found f1] n1].
      destruct found as [entry|err]; [|destruct err; discriminate].
      destruct (String.eqb (Type_ entry) "folder") eqn:Hty; cbn [negb] in Hrun; [|discriminate].
      apply String.eqb_eq in Hty.
      destruct (listEntries (PathCacheFs.api f1) (Some (ID entry)) n1) as [listed n2] eqn:Hlist.
      destruct listed as [fileEntries|err]; [|discriminate].
      pose proof (PathCacheFs_listLoop_entries dir fileEntries [] f1) as Hmap.
      destruct (PathCacheFs.listLoop dir fileEntries [] f1) as [out f2].
      injection Hrun as <- _ <-. exists f1, n1, (Some (ID entry)), fileEntries.
      split; [right; split; [exact Hroot|exists entry; auto]|].
      split; [exact Hlist|exact Hmap].
Qed.

(** [List "A"] on a remote with the file x.txt and the folder B in A. *)
Lemma List_returns_the_listing_in_order_witness :
  (exists fileEntries,
     listEntries (mkApiClient ApiGo 10) (Some 1)
       (mkNet [listing [fileX 1; dirB]] [EvCall (ReqList None 1) (listing [dirA])])
     = (Ok fileEntries,
        mkNet [] [EvCall (ReqList None 1) (listing [dirA]);
                  EvCall (ReqList (Some 1) 1) (listing [fileX 1; dirB])])
     /\ [EntryObject (mkObject "A/x.txt" 7 10 0); EntryDir "A/B" 0 2]
        = map (dirEntryOf "A") fileEntries)
  /\ (exists fileEntries,
        [EntryObject (mkObject "A/x.txt" 7 10 0); EntryDir "A/B" 0 2]
        = map (dirEntryOf "A") fileEntries).
Proof.
  split.
  - destruct (proj1 (List_returns_the_listing_in_order "A")
                (DirCacheFs.newFs "" (mkApiClient ApiGo 10))
                (mkNet [listing [dirA]; listing [fileX 1; dirB]] [])
                [EntryObject (mkObject "A/x.txt" 7 10 0); EntryDir "A/B" 0 2]
                (DirCacheFs.addDirCacheEntry "A/B" dirB
                   (DirCacheFs.addDirCacheEntry "A" dirA
                      (DirCacheFs.newFs "" (mkApiClient ApiGo 10))))
                (mkNet [] [EvCall (ReqList None 1) (listing [dirA]);
                           EvCall (ReqList (Some 1) 1) (listing [fileX 1; dirB])])
                eq_refl)
      as (f1 & n1 & parentID & fileEntries & Hdir & Hlist & Hmap).
    destruct Hdir as [(Habs & _)|(_ & entry & Hfind & _ & ->)]; [discriminate Habs|].
    injection Hfind as <- <- <-.
    exists fileEntries. split; [exact Hlist|exact Hmap].
  - destruct (proj2 (List_returns_the_listing_in_order "A")
                (PathCacheFs.newFs "" (mkApiClient ApiGo 10))
                (mkNet [listing [dirA]; listing [fileX 1; dirB]] [])
                [EntryObject (mkObject "A/x.txt" 7 10 0); EntryDir "A/B" 0 2]
                (snd (fst (PathCacheFs.List "A" (PathCacheFs.newFs "" (mkApiClient ApiGo 10))
                             (mkNet [listing [dirA]; listing [fileX 1; dirB]] []))))
                (mkNet [] [EvCall (ReqList None 1) (listing [dirA]);
                           EvCall (ReqList (Some 1) 1) (listing [fileX 1; dirB])])
                ltac:(vm_compute; reflexivity))
      as (f1 & n1 & parentID & fileEntries & _ & _ & Hmap).
    exists fileEntries. exact Hmap.
Defined.

Lemma DirCacheFs_listLoop_root dir :
  forall fileEntries entries f,
    DirCacheFs.root (snd (DirCacheFs.listLoop dir fileEntries entries f)) = DirCacheFs.root f.
Proof.
  induction fileEntries as [|entry rest IH]; intros entries f; [reflexivity|].
  cbn [DirCacheFs.listLoop].
  destruct (String.eqb (Type_ entry) "folder"); rewrite IH; [|reflexivity].
  apply DirCacheFs_addDirCacheEntry_frame.
Qed.

(** The folders [List] goes over are in [dirCache] afterwards, and so are
    the folders that were there before. *)
Lemma DirCacheFs_listLoop_rows dir :
  forall fileEntries entries f p,
    (exists e, DirCacheFs.dirCache f !! p = Some e /\ Type_ e = "folder"%string)
    \/ (exists e, In e fileEntries /\ Type_ e = "folder"%string
                  /\ p = GoPath.Join2 (DirCacheFs.root f) (GoPath.Join2 dir (Name e))) ->
    exists e,
      DirCacheFs.dirCache (snd (DirCacheFs.listLoop dir fileEntries entries f)) !! p = Some e
      /\ Type_ e = "folder"%string.
Proof.
  induction fileEntries as [|entry rest IH]; intros entries f p H.
  - destruct H as [H|(e & [] & _)]. exact H.
  - cbn [DirCacheFs.listLoop].
    destruct (String.eqb (Type_ entry) "folder") eqn:Hty.
    + apply IH.
      pose proof (DirCacheFs_addDirCacheEntry_frame
                    (GoPath.Join2 (DirCacheFs.root f) (GoPath.Join2 dir (Name entry))) entry f)
        as (Hroot & _).
      rewrite Hroot.
      unfold DirCacheFs.addDirCacheEntry. rewrite Hty. cbn.
      apply String.eqb_eq in Hty.
      destruct (decide (p = GoPath.Join2 (DirCacheFs.root f) (GoPath.Join2 dir (Name entry))))
        as [->|Hne].
      * left. exists entry. rewrite lookup_insert_eq. auto.
      * destruct H as [(e & He & Hf)|(e & [<-|Hin] & Hf & Hp)].
        -- left. exists e. rewrite lookup_insert_ne by congruence. auto.
        -- congruence.
        -- right. exists e. auto.
    + apply IH. destruct H as [H|(e & [<-|Hin] & Hf & Hp)].
      * left. exact H.
      * rewrite Hf in Hty. discriminate.
      * right. exists e. auto.
Qed.

Lemma cachedEntry_row_added f p q e :
  is_Some (cachedEntry f p) \/ p = q ->
  is_Some (cachedEntry
             (PathCacheFs.setPathCache
                (PathCacheFs.setEntryCache f (<[ID e := e]> (PathCacheFs.entryCache f)))
                (<[q := ID e]>
                   (PathCacheFs.pathCache
                      (PathCacheFs.setEntryCache f (<[ID e := e]> (PathCacheFs.entryCache f))))))
             p).
Proof.
  intros H. unfold cachedEntry.
  cbn [PathCacheFs.pathCache PathCacheFs.entryCache PathCacheFs.setPathCache
       PathCacheFs.setEntryCache].
  destruct (decide (p = q)) as [->|Hne].
  - rewrite !lookup_insert_eq. eexists; reflexivity.
  - destruct H as [H|H]; [|congruence].
    rewrite lookup_insert_ne by congruence.
    apply (cachedEntry_setEntryCache_insert f p (ID e) e) in H. exact H.
Qed.

(** The entries [List] goes over resolve from the caches afterwards, and
    so do the paths that did before. *)
Lemma PathCacheFs_listLoop_rows dir :
  forall fileEntries entries f p,
    is_Some (cachedEntry f p)
    \/ (exists e, In e fileEntries
                  /\ p = GoPath.Join2 (PathCacheFs.root f) (GoPath.Join2 dir (Name e))) ->
    is_Some (cachedEntry (snd (PathCacheFs.listLoop dir fileEntries entries f)) p).
Proof.
  induction fileEntries as [|entry rest IH]; intros entries f p H.
  - destruct H as [H|(e & [] & _)]. exact H.
  - cbn [PathCacheFs.listLoop].
    assert (Hnext :
      is_Some (cachedEntry
                 (PathCacheFs.setPathCache
                    (PathCacheFs.setEntryCache f (<[ID entry := entry]> (PathCacheFs.entryCache f)))
                    (<[GoPath.Join2 (PathCacheFs.root f) (GoPath.Join2 dir (Name entry))
                       := ID entry]>
                       (PathCacheFs.pathCache
                          (PathCacheFs.setEntryCache f
                             (<[ID entry := entry]> (PathCacheFs.entryCache f))))))
                 p)
      \/ (exists e, In e rest
                    /\ p = GoPath.Join2 (PathCacheFs.root f) (GoPath.Join2 dir (Name e)))).
    { destruct H as [H|(e & [<-|Hin] & Hp)].
      - left. apply cachedEntry_row_added. left. exact H.
      - left. apply cachedEntry_row_added. right. exact Hp.
      - right. exists e. auto. }
    destruct (String.eqb (Type_ entry) "folder"); apply IH; exact Hnext.
Qed.

Lemma dirEntryOf_remote dir e : entryRemote (dirEntryOf dir e) = GoPath.Join2 dir (Name e).
Proof. unfold dirEntryOf. destruct (String.eqb (Type_ e) "folder"); reflexivity. Qed.

Lemma dirEntryOf_dir dir e remote modTime id :
  dirEntryOf dir e = EntryDir remote modTime id ->
  Type_ e = "folder"%string /\ remote = GoPath.Join2 dir (Name e).
Proof.
  unfold dirEntryOf. destruct (String.eqb (Type_ e) "folder") eqn:Hty; [|discriminate].
  intros [= <- _ _]. apply String.eqb_eq in Hty. auto.
Qed.

(** X5: a successful [List] leaves its result in the caches.  In the
    [dirCache] revision every directory of the result has a folder row
    under [path.Join(root, remote)]; in the [pathCache] revision every
    entry of the result, file or directory, resolves under that path from
    then on without a request. *)
Theorem List_leaves_its_result_in_the_caches (dir : string) :
  (forall f n entries f' n',
     DirCacheFs.List dir f n = (Ok entries, f', n') ->
     forall remote modTime id,
       In (EntryDir remote modTime id) entries ->
       exists e,
         DirCacheFs.dirCache f' !! GoPath.Join2 (DirCacheFs.root f) remote = Some e
         /\ Type_ e = "folder"%string)
  /\ (forall f n entries f' n',
        PathCacheFs.List dir f n = (Ok entries, f', n') ->
        forall d,
          In d entries ->
          exists e, forall later,
            PathCacheFs.findEntry (GoPath.Join2 (PathCacheFs.root f) (entryRemote d)) f' later
            = (Ok e, f', later)).
Proof.
  split.
  - intros f n entries f' n' Hrun remote modTime id Hin.
    unfold DirCacheFs.List in Hrun.
    assert (Hloop : exists f1 fileEntries,
               DirCacheFs.root f1 = DirCacheFs.root f
               /\ entries = fst (DirCacheFs.listLoop dir fileEntries [] f1)
               /\ f' = snd (DirCacheFs.listLoop dir fileEntries [] f1)).
    { destruct (negb (String.eqb (GoPath.Join2 (DirCacheFs.root f) dir) "")).
      - pose proof (DirCacheFs_findEntry_frame (GoPath.Join2 (DirCacheFs.root f) dir) f n)
          as (Hroot & _).
        destruct (DirCacheFs.findEntry _ f n) as [[found f1] n1]. cbn [fst snd] in Hroot.
        destruct found as [entry|err]; [|discriminate].
        destruct (negb (String.eqb (Type_ entry) "folder")); [discriminate|].
        destruct (listEntries (DirCacheFs.api f1) (Some (ID entry)) n1) as [listed n2].
        destruct listed as [fileEntries|err]; [|discriminate].
        exists f1, fileEntries.
        destruct (DirCacheFs.listLoop dir fileEntries [] f1) as [out f2].
        injection Hrun as <- <- _. auto.
      - destruct (listEntries (DirCacheFs.api f) None n) as [listed n2].
        destruct listed as [fileEntries|err]; [|discriminate].
        exists f, fileEntries.
        destruct (DirCacheFs.listLoop dir fileEntries [] f) as [out f2].
        injection Hrun as <- <- _. auto. }
    destruct Hloop as (f1 & fileEntries & Hroot & -> & ->).
    rewrite DirCacheFs_listLoop_entries in Hin. cbn [app] in Hin.
    apply in_map_iff in Hin as (e & He & Hin).
    apply dirEntryOf_dir in He as (Hty & ->).
    apply DirCacheFs_listLoop_rows. right. exists e. rewrite Hroot. auto.
  - intros f n entries f' n' Hrun d Hin.
    unfold PathCacheFs.List in Hrun.
    assert (Hloop : exists f1 fileEntries,
               PathCacheFs.root f1 = PathCacheFs.root f
               /\ entries = fst (PathCacheFs.listLoop dir fileEntries [] f1)
               /\ f' = snd (PathCacheFs.listLoop dir fileEntries [] f1)).
    { destruct (negb (String.eqb (GoPath.Join2 (PathCacheFs.root f) dir) "")).
      - pose proof (PathCacheFs_findEntry_api (GoPath.Join2 (PathCacheFs.root f) dir) f n)
          as (_ & Hroot & _).
        destruct (PathCacheFs.findEntry _ f n) as [[found f1] n1]. cbn [fst snd] in Hroot.
        destruct found as [entry|err]; [|destruct err; discriminate].
        destruct (negb (String.eqb (Type_ entry) "folder")); [discriminate|].
        destruct (listEntries (PathCacheFs.api f1) (Some (ID entry)) n1) as [listed n2].
        destruct listed as [fileEntries|err]; [|discriminate].
        exists f1, fileEntries.
        destruct (PathCacheFs.listLoop dir fileEntries [] f1) as [out f2].
        injection Hrun as <- <- _. auto.
      - destruct (listEntries (PathCacheFs.api f) (PathCacheFs.rootID f) n) as [listed n2].
        destruct listed as [fileEntries|err]; [|discriminate].
        exists f, fileEntries.
        destruct (PathCacheFs.listLoop dir fileEntries [] f) as [out f2].
        injection Hrun as <- <- _. auto. }
    destruct Hloop as (f1 & fileEntries & Hroot & -> & ->).
    rewrite PathCacheFs_listLoop_entries in Hin. cbn [app] in Hin.
    apply in_map_iff in Hin as (e & <- & Hin).
    rewrite dirEntryOf_remote.
    destruct (PathCacheFs_listLoop_rows dir fileEntries [] f1
                (GoPath.Join2 (PathCacheFs.root f) (GoPath.Join2 dir (Name e))))
      as [hit Hhit].
    { right. exists e. rewrite Hroot. auto. }
    exists hit. intros later. apply PathCacheFs_findEntry_cached. exact Hhit.
Qed.

(** After [List "A"] the folder A/B has its row, and A/x.txt resolves from
    the caches. *)
Lemma List_leaves_its_result_in_the_caches_witness :
  (exists e,
     DirCacheFs.dirCache
       (DirCacheFs.addDirCacheEntry "A/B" dirB
          (DirCacheFs.addDirCacheEntry "A" dirA (DirCacheFs.newFs "" (mkApiClient ApiGo 10))))
       !! GoPath.Join2 "" "A/B" = Some e
     /\ Type_ e = "folder"%string)
  /\ (let listed := PathCacheFs.List "A" (PathCacheFs.newFs "" (mkApiClient ApiGo 10))
                      (mkNet [listing [dirA]; listing [fileX 1; dirB]] []) in
      exists e, forall later,
        PathCacheFs.findEntry (GoPath.Join2 "" "A/x.txt") (snd (fst listed)) later
        = (Ok e, snd (fst listed), later)).
Proof.
  split.
  - apply (proj1 (List_leaves_its_result_in_the_caches "A")
             (DirCacheFs.newFs "" (mkApiClient ApiGo 10))
             (mkNet [listing [dirA]; listing [fileX 1; dirB]] [])
             [EntryObject (mkObject "A/x.txt" 7 10 0); EntryDir "A/B" 0 2]
             _
             (mkNet [] [EvCall (ReqList None 1) (listing [dirA]);
                        EvCall (ReqList (Some 1) 1) (listing [fileX 1; dirB])])
             eq_refl "A/B"%string 0 2).
    simpl. right. left. reflexivity.
  - intros listed.
    apply (proj2 (List_leaves_its_result_in_the_caches "A")
             (PathCacheFs.newFs "" (mkApiClient ApiGo 10))
             (mkNet [listing [dirA]; listing [fileX 1; dirB]] [])
             [EntryObject (mkObject "A/x.txt" 7 10 0); EntryDir "A/B" 0 2]
             (snd (fst listed))
             (mkNet [] [EvCall (ReqList None 1) (listing [dirA]);
                        EvCall (ReqList (Some 1) 1) (listing [fileX 1; dirB])])
             ltac:(vm_compute; reflexivity)
             (EntryObject (mkObject "A/x.txt" 7 10 0))).
    simpl. left. reflexivity.
Defined.

(** ** [Rmdir], [Purge] and [Remove] *)

(** X6: [Rmdir] deletes only an empty folder, in both revisions.  Either
    the call returns an error and has sent nothing but list requests, or
    the path resolved to a folder, the listing of that folder succeeded and
    was empty, and what was sent after it are requests to delete that one
    folder for ever. *)
Theorem Rmdir_deletes_only_an_empty_folder (dir : string) :
  (forall f n,
     let run := DirCacheFs.Rmdir dir f n in
     (fst (fst run) <> None /\ Adds isListEvent n (snd run))
     \/ exists entry f1 n1 n2,
          DirCacheFs.findEntry (GoPath.Join2 (DirCacheFs.root f) dir) f n = (Ok entry, f1, n1)
          /\ Type_ entry = "folder"%string
          /\ listEntries (DirCacheFs.api f1) (Some (ID entry)) n1 = (Ok [], n2)
          /\ Adds (callOf (ReqDelete [ID entry] true)) n2 (snd run))
  /\ (forall f n,
        let run := PathCacheFs.Rmdir dir f n in
        (fst (fst run) <> None /\ Adds isListEvent n (snd run))
        \/ exists entry f1 n1 n2,
             PathCacheFs.findEntry (GoPath.Join2 (PathCacheFs.root f) dir) f n
             = (Ok entry, f1, n1)
             /\ Type_ entry = "folder"%string
             /\ listEntries (PathCacheFs.api f1) (Some (ID entry)) n1 = (Ok [], n2)
             /\ Adds (callOf (ReqDelete [ID entry] true)) n2 (snd run)).
Proof.
  split.
  - intros f n run. subst run. unfold DirCacheFs.Rmdir.
    pose proof (DirCacheFs_findEntry_Adds (GoPath.Join2 (DirCacheFs.root f) dir) f n) as H1.
    destruct (DirCacheFs.findEntry _ f n) as [[found f1] n1]. cbn [snd] in H1.
    destruct found as [entry|err]; [|left; split; [discriminate|exact H1]].
    destruct (String.eqb (Type_ entry) "folder") eqn:Hty; cbn [negb];
      [|left; split; [discriminate|exact H1]].
    apply String.eqb_eq in Hty.
    pose proof (listEntries_Adds (DirCacheFs.api f1) (Some (ID entry)) n1) as H2.
    apply (Adds_mono _ isListEvent) in H2; [|apply listOf_isListEvent].
    destruct (listEntries (DirCacheFs.api f1) (Some (ID entry)) n1) as [listed n2] eqn:Hlist.
    cbn [snd] in H2.
    assert (H12 : Adds isListEvent n n2) by (eapply Adds_trans; eassumption).
    destruct listed as [[|child children]|err];
      [|left; split; [discriminate|exact H12]..].
    cbn [length Nat.ltb Nat.leb].
    right. exists entry, f1, n1, n2.
    split; [reflexivity|]. split; [exact Hty|]. split; [exact Hlist|].
    pose proof (deleteEntries_Adds (DirCacheFs.api f1) [ID entry] true n2) as H3.
    destruct (deleteEntries (DirCacheFs.api f1) [ID entry] true n2) as [err n3].
    destruct err; exact H3.
  - intros f n run. subst run. unfold PathCacheFs.Rmdir.
    pose proof (PathCacheFs_findEntry_Adds (GoPath.Join2 (PathCacheFs.root f) dir) f n) as H1.
    destruct (PathCacheFs.findEntry _ f n) as [[found f1] n1]. cbn [snd] in H1.
    destruct found as [entry|err]; [|left; split; [discriminate|exact H1]].
    destruct (String.eqb (Type_ entry) "folder") eqn:Hty; cbn [negb];
      [|left; split; [discriminate|exact H1]].
    apply String.eqb_eq in Hty.
    pose proof (listEntries_Adds (PathCacheFs.api f1) (Some (ID entry)) n1) as H2.
    apply (Adds_mono _ isListEvent) in H2; [|apply listOf_isListEvent].
    destruct (listEntries (PathCacheFs.api f1) (Some (ID entry)) n1) as [listed n2] eqn:Hlist.
    cbn [snd] in H2.
    assert (H12 : Adds isListEvent n n2) by (eapply Adds_trans; eassumption).
    destruct listed as [[|child children]|err];
      [|left; split; [discriminate|exact H12]..].
    cbn [length Nat.ltb Nat.leb].
    right. exists entry, f1, n1, n2.
    split; [reflexivity|]. split; [exact Hty|]. split; [exact Hlist|].
    pose proof (deleteEntries_Adds (PathCacheFs.api f1) [ID entry] true n2) as H3.
    destruct (deleteEntries (PathCacheFs.api f1) [ID entry] true n2) as [err n3].
    destruct err; exact H3.
Qed.

(** X7: a [Rmdir] that returns nil has removed the cache rows of the
    folder: the row of [path.Join(root, dir)] in [dirCache]; in the other
    revision the row of that path in [pathCache] and the row of the
    folder's id in [entryCache], so that the caches hold nothing for the
    path. *)
Theorem Rmdir_removes_the_rows_of_the_folder (dir : string) :
  (forall f n f' n',
     DirCacheFs.Rmdir dir f n = (None, f', n') ->
     DirCacheFs.dirCache f' !! GoPath.Join2 (DirCacheFs.root f) dir = None)
  /\ (forall f n f' n',
        PathCacheFs.Rmdir dir f n = (None, f', n') ->
        exists entry f1 n1,
          PathCacheFs.findEntry (GoPath.Join2 (PathCacheFs.root f) dir) f n = (Ok entry, f1, n1)
          /\ PathCacheFs.pathCache f' !! GoPath.Join2 (PathCacheFs.root f) dir = None
          /\ PathCacheFs.entryCache f' !! ID entry = None
          /\ cachedEntry f' (GoPath.Join2 (PathCacheFs.root f) dir) = None).
Proof.
  split.
  - intros f n f' n'. unfold DirCacheFs.Rmdir.
    destruct (DirCacheFs.findEntry _ f n) as [[found f1] n1].
    destruct found as [entry|err]; [|discriminate].
    destruct (negb (String.eqb (Type_ entry) "folder")); [discriminate|].
    destruct (listEntries (DirCacheFs.api f1) (Some (ID entry)) n1) as [listed n2].
    destruct listed as [entries|err]; [|discriminate].
    destruct (0 <? length entries)%nat; [discriminate|].
    destruct (deleteEntries (DirCacheFs.api f1) [ID entry] true n2) as [err n3].
    destruct err; [discriminate|]. intros [= <- _].
    cbn [DirCacheFs.dirCache DirCacheFs.setDirCache]. apply lookup_delete_eq.
  - intros f n f' n'. unfold PathCacheFs.Rmdir.
    destruct (PathCacheFs.findEntry _ f n) as [[found f1] n1].
    destruct found as [entry|err]; [|discriminate].
    destruct (negb (String.eqb (Type_ entry) "folder")); [discriminate|].
    destruct (listEntries (PathCacheFs.api f1) (Some (ID entry)) n1) as [listed n2].
    destruct listed as [entries|err]; [|discriminate].
    destruct (0 <? length entries)%nat; [discriminate|].
    destruct (deleteEntries (PathCacheFs.api f1) [ID entry] true n2) as [err n3].
    destruct err; [discriminate|]. intros [= <- _].
    exists entry, f1, n1. split; [reflexivity|].
    unfold cachedEntry.
    cbn [PathCacheFs.pathCache PathCacheFs.entryCache PathCacheFs.setPathCache
         PathCacheFs.setEntryCache].
    rewrite !lookup_delete_eq. auto.
Qed.

(** [Rmdir "A"] of the empty folder A. *)
Lemma Rmdir_removes_the_rows_of_the_folder_witness :
  (let run := DirCacheFs.Rmdir "A" (DirCacheFs.newFs "" (mkApiClient ApiGo 10))
                (mkNet [listing [dirA]; listing []; answered BodyNone] []) in
   DirCacheFs.dirCache (snd (fst run)) !! GoPath.Join2 "" "A" = None)
  /\ (let run := PathCacheFs.Rmdir "A" (PathCacheFs.newFs "" (mkApiClient ApiGo 10))
                   (mkNet [listing [dirA]; listing []; answered BodyNone] []) in
      cachedEntry (snd (fst run)) (GoPath.Join2 "" "A") = None).
Proof.
  split.
  - intros run.
    apply (proj1 (Rmdir_removes_the_rows_of_the_folder "A")
             (DirCacheFs.newFs "" (mkApiClient ApiGo 10))
             (mkNet [listing [dirA]; listing []; answered BodyNone] [])
             (snd (fst run)) (snd run)).
    vm_compute. reflexivity.
  - intros run.
    destruct (proj2 (Rmdir_removes_the_rows_of_the_folder "A")
                (PathCacheFs.newFs "" (mkApiClient ApiGo 10))
                (mkNet [listing [dirA]; listing []; answered BodyNone] [])
                (snd (fst run)) (snd run) ltac:(vm_compute; reflexivity))
      as (entry & f1 & n1 & _ & _ & _ & H).
    exact H.
Defined.

(** X8: [Purge] deletes the folder without looking into it, in both
    revisions.  Either the call returns an error and has sent nothing but
    list requests, or the path resolved to a folder and all that was sent
    after the resolution are requests to delete that one folder for ever,
    whose outcome is the result. *)
Theorem Purge_deletes_the_folder_unseen (dir : string) :
  (forall f n,
     let run := DirCacheFs.Purge dir f n in
     (fst (fst run) <> None /\ Adds isListEvent n (snd run))
     \/ exists entry f1 n1,
          DirCacheFs.findEntry (GoPath.Join2 (DirCacheFs.root f) dir) f n = (Ok entry, f1, n1)
          /\ Type_ entry = "folder"%string
          /\ Adds (callOf (ReqDelete [ID entry] true)) n1 (snd run)
          /\ (fst (fst run), snd run) = deleteEntries (DirCacheFs.api f1) [ID entry] true n1)
  /\ (forall f n,
        let run := PathCacheFs.Purge dir f n in
        (fst (fst run) <> None /\ Adds isListEvent n (snd run))
        \/ exists entry f1 n1,
             PathCacheFs.findEntry (GoPath.Join2 (PathCacheFs.root f) dir) f n
             = (Ok entry, f1, n1)
             /\ Type_ entry = "folder"%string
             /\ Adds (callOf (ReqDelete [ID entry] true)) n1 (snd run)
             /\ (fst (fst run), snd run)
                = deleteEntries (PathCacheFs.api f1) [ID entry] true n1).
Proof.
  split.
  - intros f n run. subst run. unfold DirCacheFs.Purge.
    pose proof (DirCacheFs_findEntry_Adds (GoPath.Join2 (DirCacheFs.root f) dir) f n) as H1.
    destruct (DirCacheFs.findEntry _ f n) as [[found f1] n1]. cbn [snd] in H1.
    destruct found as [entry|err]; [|left; split; [discriminate|exact H1]].
    destruct (String.eqb (Type_ entry) "folder") eqn:Hty; cbn [negb];
      [|left; split; [discriminate|exact H1]].
    apply String.eqb_eq in Hty.
    right. exists entry, f1, n1.
    split; [reflexivity|]. split; [exact Hty|].
    pose proof (deleteEntries_Adds (DirCacheFs.api f1) [ID entry] true n1) as H3.
    destruct (deleteEntries (DirCacheFs.api f1) [ID entry] true n1) as [err n3].
    split; [exact H3|reflexivity].
  - intros f n run. subst run. unfold PathCacheFs.Purge.
    pose proof (PathCacheFs_findEntry_Adds (GoPath.Join2 (PathCacheFs.root f) dir) f n) as H1.
    destruct (PathCacheFs.findEntry _ f n) as [[found f1] n1]. cbn [snd] in H1.
    destruct found as [entry|err]; [|left; split; [discriminate|exact H1]].
    destruct (String.eqb (Type_ entry) "folder") eqn:Hty; cbn [negb];
      [|left; split; [discriminate|exact H1]].
    apply String.eqb_eq in Hty.
    right. exists entry, f1, n1.
    split; [reflexivity|]. split; [exact Hty|].
    pose proof (deleteEntries_Adds (PathCacheFs.api f1) [ID entry] true n1) as H3.
    destruct (deleteEntries (PathCacheFs.api f1) [ID entry] true n1) as [err n3].
    split; [exact H3|reflexivity].
Qed.


(** ** [Move] and [DirMove] *)

(** X10: in both revisions, once the source has resolved and [moveEntries]
    has succeeded, [DirMove] sends rename requests, and nothing else,
    exactly when the base name of the destination differs from the name of
    the source entry; without a rename it returns nil, and an error it
    returns is the failure of the rename. *)
Theorem DirMove_renames_iff_the_name_changes (srcRemote dstRemote : string) :
  (forall f n srcEntry f1 n1 f2 n2,
     (1 <= lowLevelRetries (DirCacheFs.api f))%nat ->
     let srcPath := GoPath.Join2 (DirCacheFs.root f) srcRemote in
     let dstPath := GoPath.Join2 (DirCacheFs.root f) dstRemote in
     DirCacheFs.findEntry srcPath f n = (Ok srcEntry, f1, n1) ->
     DirCacheFs.moveToParent (ID srcEntry) dstPath f1 n1 = (None, f2, n2) ->
     let run := DirCacheFs.DirMove srcRemote dstRemote f n in
     exists evs,
       trace (snd run) = trace n2 ++ evs
       /\ Forall (callOf (ReqRename (ID srcEntry) (GoPath.Base dstPath))) evs
       /\ (evs <> [] <-> GoPath.Base dstPath <> Name srcEntry)
       /\ (evs = [] -> run = (None, f2, n2))
       /\ (forall err,
             fst (fst run) = Some err ->
             exists n3,
               renameEntry (DirCacheFs.api f2) (ID srcEntry) (GoPath.Base dstPath) n2 = (Err err, n3)))
  /\ (forall f n srcEntry f1 n1 f2 n2,
        (1 <= lowLevelRetries (PathCacheFs.api f))%nat ->
        let srcPath := GoPath.Join2 (PathCacheFs.root f) srcRemote in
        let dstPath := GoPath.Join2 (PathCacheFs.root f) dstRemote in
        PathCacheFs.findEntry srcPath f n = (Ok srcEntry, f1, n1) ->
        PathCacheFs.moveToParent (ID srcEntry) dstPath f1 n1 = (None, f2, n2) ->
        let run := PathCacheFs.DirMove srcRemote dstRemote f n in
        exists evs,
          trace (snd run) = trace n2 ++ evs
          /\ Forall (callOf (ReqRename (ID srcEntry) (GoPath.Base dstPath))) evs
          /\ (evs <> [] <-> GoPath.Base dstPath <> Name srcEntry)
          /\ (evs = [] -> run = (None, f2, n2))
          /\ (forall err,
                fst (fst run) = Some err ->
                exists n3,
                  renameEntry (PathCacheFs.api f2) (ID srcEntry) (GoPath.Base dstPath) n2 = (Err err, n3))).
Proof.
  split.
  - intros f n srcEntry f1 n1 f2 n2 Hretries srcPath dstPath Hfind Hmove run.
    pose proof (DirCacheFs_findEntry_frame srcPath f n) as (_ & Hapi1 & _).
    rewrite Hfind in Hapi1. cbn [fst snd] in Hapi1.
    pose proof (DirCacheFs_moveToParent_api (ID srcEntry) dstPath f1 n1) as Hapi2.
    rewrite Hmove in Hapi2. cbn [fst snd] in Hapi2.
    subst run. unfold DirCacheFs.DirMove. fold srcPath dstPath. rewrite Hfind, Hmove.
    destruct (String.eqb (GoPath.Base dstPath) (Name srcEntry)) eqn:Heq; cbn [negb fst snd].
    + apply String.eqb_eq in Heq. exists []. rewrite app_nil_r.
      split; [reflexivity|]. split; [constructor|].
      split; [split; congruence|]. split; [reflexivity|discriminate].
    + apply String.eqb_neq in Heq.
      destruct (renameEntry_sends (DirCacheFs.api f2) (ID srcEntry) (GoPath.Base dstPath) n2)
        as (a & evs0 & Ht0); [rewrite Hapi2, Hapi1; exact Hretries|].
      destruct (renameEntry_Adds (DirCacheFs.api f2) (ID srcEntry) (GoPath.Base dstPath) n2)
        as (evs & Ht & Hall & _).
      destruct (renameEntry (DirCacheFs.api f2) (ID srcEntry) (GoPath.Base dstPath) n2)
        as [r n3] eqn:Hren. cbn [fst snd] in *.
      exists evs. split; [exact Ht|]. split; [exact Hall|].
      assert (Hne : evs <> []).
      { intros ->. rewrite Ht0 in Ht. apply app_inv_head in Ht. discriminate. }
      split; [split; auto|]. split; [congruence|].
      intros err Herr. exists n3. destruct r; [discriminate|]. congruence.
  - intros f n srcEntry f1 n1 f2 n2 Hretries srcPath dstPath Hfind Hmove run.
    pose proof (PathCacheFs_findEntry_api srcPath f n) as (Hapi1 & _).
    rewrite Hfind in Hapi1. cbn [fst snd] in Hapi1.
    pose proof (PathCacheFs_moveToParent_api (ID srcEntry) dstPath f1 n1) as Hapi2.
    rewrite Hmove in Hapi2. cbn [fst snd] in Hapi2.
    subst run. unfold PathCacheFs.DirMove. fold srcPath dstPath. rewrite Hfind, Hmove.
    destruct (String.eqb (GoPath.Base dstPath) (Name srcEntry)) eqn:Heq; cbn [negb fst snd].
    + apply String.eqb_eq in Heq. exists []. rewrite app_nil_r.
      split; [reflexivity|]. split; [constructor|].
      split; [split; congruence|]. split; [reflexivity|discriminate].
    + apply String.eqb_neq in Heq.
      destruct (renameEntry_sends (PathCacheFs.api f2) (ID srcEntry) (GoPath.Base dstPath) n2)
        as (a & evs0 & Ht0); [rewrite Hapi2, Hapi1; exact Hretries|].
      destruct (renameEntry_Adds (PathCacheFs.api f2) (ID srcEntry) (GoPath.Base dstPath) n2)
        as (evs & Ht & Hall & _).
      destruct (renameEntry (PathCacheFs.api f2) (ID srcEntry) (GoPath.Base dstPath) n2)
        as [r n3] eqn:Hren. cbn [fst snd] in *.
      exists evs. split; [exact Ht|]. split; [exact Hall|].
      assert (Hne : evs <> []).
      { intros ->. rewrite Ht0 in Ht. apply app_inv_head in Ht. discriminate. }
      split; [split; auto|]. split; [congruence|].
      intros err Herr. exists n3. destruct r; [discriminate|]. congruence.
Qed.

(** [DirMove "A" "C"]: the folder A stays at the root and is renamed. *)
Lemma DirMove_renames_iff_the_name_changes_witness :
  (exists evs,
     evs <> [] /\ Forall (callOf (ReqRename 1 (GoPath.Base (GoPath.Join2 "" "C")))) evs)
  /\ (exists evs,
        evs <> [] /\ Forall (callOf (ReqRename 1 (GoPath.Base (GoPath.Join2 "" "C")))) evs).
Proof.
  split.
  - destruct (proj1 (DirMove_renames_iff_the_name_changes "A" "C")
                (DirCacheFs.newFs "" (mkApiClient ApiGo 10))
                (mkNet [listing [dirA]; answered BodyNone; answered (BodyEntry dirA)] [])
                dirA
                (DirCacheFs.addDirCacheEntry "A" dirA (DirCacheFs.newFs "" (mkApiClient ApiGo 10)))
                (mkNet [answered BodyNone; answered (BodyEntry dirA)]
                   [EvCall (ReqList None 1) (listing [dirA])])
                (DirCacheFs.addDirCacheEntry "A" dirA (DirCacheFs.newFs "" (mkApiClient ApiGo 10)))
                (mkNet [answered (BodyEntry dirA)]
                   [EvCall (ReqList None 1) (listing [dirA]);
                    EvCall (ReqMove [1] 0) (answered BodyNone)])
                ltac:(simpl; lia) eq_refl eq_refl)
      as (evs & _ & Hall & Hiff & _).
    exists evs. split; [|exact Hall]. apply Hiff. discriminate.
  - destruct (proj2 (DirMove_renames_iff_the_name_changes "A" "C")
                (PathCacheFs.newFs "" (mkApiClient ApiGo 10))
                (mkNet [listing [dirA]; answered BodyNone; answered (BodyEntry dirA)] [])
                dirA
                (snd (fst (PathCacheFs.findEntry "A" (PathCacheFs.newFs "" (mkApiClient ApiGo 10))
                             (mkNet [listing [dirA]] []))))
                (mkNet [answered BodyNone; answered (BodyEntry dirA)]
                   [EvCall (ReqList None 1) (listing [dirA])])
                (snd (fst (PathCacheFs.findEntry "A" (PathCacheFs.newFs "" (mkApiClient ApiGo 10))
                             (mkNet [listing [dirA]] []))))
                (mkNet [answered (BodyEntry dirA)]
                   [EvCall (ReqList None 1) (listing [dirA]);
                    EvCall (ReqMove [1] 0) (answered BodyNone)])
                ltac:(simpl; lia) ltac:(vm_compute; reflexivity) ltac:(vm_compute; reflexivity))
      as (evs & _ & Hall & Hiff & _).
    exists evs. split; [|exact Hall]. apply Hiff. discriminate.
Defined.







(** ** [NewObject] and [Open] *)

(** With an attempt allowed, [listEntries] sends at least the request for
    the first page. *)
Lemma listEntries_sends c parentID n :
  (1 <= lowLevelRetries c)%nat ->
  exists a evs,
    trace (snd (listEntries c parentID n)) = trace n ++ EvCall (ReqList parentID 1) a :: evs.
Proof.
  intros Hr. unfold listEntries, Api_go.listEntries, Part0.listEntries.
  destruct (lowLevelRetries c) as [|k]; [lia|].
  destruct (pacerCall_first decodeList (ReqList parentID 1) k
              (mkCaptured None zeroListEntriesResponse) n) as (a & evs & Ht & _).
  destruct (revision c); cbn [Api_go.listPages Part0.listPages].
  - destruct (pacerCall (S k) _ _ n) as [[err cap] n0]. cbn [snd] in Ht.
    destruct err as [e|]; [eauto|].
    destruct (CurrentPage (resp cap) >=? LastPage (resp cap)); [eauto|].
    pose proof (Api_go_listPages_Adds (S k) parentID (length (script n)) (1 + 1)
                  ([] ++ Data (resp cap)) n0) as (evs2 & Ht2 & _ & _).
    exists a, (evs ++ evs2). rewrite Ht2, Ht, <- app_assoc. reflexivity.
  - destruct (pacerCall (S k) _ _ n) as [[err cap] n0]. cbn [snd] in Ht.
    destruct err as [e|]; [eauto|].
    destruct (1 >=? LastPage (resp cap)); [eauto|].
    pose proof (Part0_listPages_Adds (S k) parentID (length (script n)) (1 + 1)
                  ([] ++ Data (resp cap)) n0) as (evs2 & Ht2 & _ & _).
    exists a, (evs ++ evs2). rewrite Ht2, Ht, <- app_assoc. reflexivity.
Qed.

(** X12: [NewObject] never makes an object of a folder.  In the [dirCache]
    revision the object it returns carries the id, size and time of an
    entry that is named as the base name of the path, is no folder and
    stands in a listing made during the call: list requests, and only
    those, were sent.  In the [pathCache] revision it carries those of the
    entry the path resolves to, which is no folder. *)
Theorem NewObject_is_never_a_folder (remote : string) :
  (forall f n o f' n',
     DirCacheFs.NewObject remote f n = (Ok o, f', n') ->
     let remotePath := GoPath.Join2 (DirCacheFs.root f) remote in
     exists parentID n1 fileEntries entry,
       listEntries (DirCacheFs.api f') parentID n1 = (Ok fileEntries, n')
       /\ In entry fileEntries
       /\ Name entry = GoPath.Base remotePath
       /\ Type_ entry <> "folder"%string
       /\ o = mkObject remote (ID entry) (FileSize entry) (UpdatedAt entry)
       /\ Adds isListEvent n n'
       /\ trace n' <> trace n)
  /\ (forall f n o f' n',
        PathCacheFs.NewObject remote f n = (Ok o, f', n') ->
        let remotePath := GoPath.Join2 (PathCacheFs.root f) remote in
        exists entry,
          PathCacheFs.findEntry remotePath f n = (Ok entry, f', n')
          /\ Type_ entry <> "folder"%string
          /\ o = mkObject remote (ID entry) (FileSize entry) (UpdatedAt entry)).
Proof.
  split.
  - intros f n o f' n' Hrun remotePath.
    unfold DirCacheFs.NewObject, DirCacheFs.readMetadata in Hrun.
    cbn [objRemote] in Hrun. fold remotePath in Hrun.
    pose proof (DirCacheFs_readMetadata_Adds (mkObject remote 0 0 0) f n) as Hall.
    unfold DirCacheFs.readMetadata in Hall. cbn [objRemote] in Hall. fold remotePath in Hall.
    rewrite Hrun in Hall. cbn [snd] in Hall.
    assert (Hcore : exists f1 n1 parentID,
               f' = f1 /\ Adds isListEvent n n1 /\
               match listEntries (DirCacheFs.api f1) parentID n1 with
               | (Ok entries, n2) =>
                   match find (fun e => String.eqb (Name e) (GoPath.Base remotePath)
                                        && negb (String.eqb (Type_ e) "folder")) entries with
                   | Some e => (Ok (setMetadata (mkObject remote 0 0 0) e), f1, n2)
                   | None => (Err ErrorObjectNotFound, f1, n2)
                   end
               | (Err err, n2) => (Err err, f1, n2)
               end = (Ok o, f', n')).
    { destruct (negb (String.eqb (GoPath.Dir remotePath) "")
                && negb (String.eqb (GoPath.Dir remotePath) ".")).
      - pose proof (DirCacheFs_findEntry_Adds (GoPath.Dir remotePath) f n) as H1.
        destruct (DirCacheFs.findEntry (GoPath.Dir remotePath) f n) as [[parent f1] n1].
        cbn [snd] in H1.
        destruct parent as [e|err]; [|discriminate].
        exists f1, n1, (Some (ID e)). split; [|split; [exact H1|exact Hrun]].
        destruct (listEntries (DirCacheFs.api f1) (Some (ID e)) n1) as [[entries|err] n2];
          [|discriminate].
        destruct (find _ entries); injection Hrun as _ <- _; reflexivity.
      - exists f, n, None. split; [|split; [apply Adds_refl|exact Hrun]].
        destruct (listEntries (DirCacheFs.api f) None n) as [[entries|err] n2];
          [|discriminate].
        destruct (find _ entries); injection Hrun as _ <- _; reflexivity. }
    destruct Hcore as (f1 & n1 & parentID & -> & (evs0 & Ht0 & _ & _) & Hcore).
    destruct (listEntries (DirCacheFs.api f1) parentID n1) as [[entries|err] n2] eqn:Hlist;
      [|discriminate].
    destruct (find _ entries) as [e|] eqn:Hfind; [|discriminate].
    injection Hcore as <- <-.
    apply find_some in Hfind as (Hin & Hp). apply andb_prop in Hp as (Hname & Hty).
    apply String.eqb_eq in Hname. apply negb_true_iff, String.eqb_neq in Hty.
    exists parentID, n1, entries, e.
    split; [exact Hlist|]. split; [exact Hin|]. split; [exact Hname|]. split; [exact Hty|].
    split; [reflexivity|]. split; [exact Hall|].
    assert (Hne : entries <> []) by (intros ->; destruct Hin).
    destruct (listEntries_nonempty_sends _ _ _ _ _ Hlist Hne) as (ev & evs & Ht).
    rewrite Ht, Ht0, <- app_assoc. intros Heq.
    apply (f_equal (@length Event)) in Heq. rewrite !length_app in Heq. simpl in Heq. lia.
  - intros f n o f' n' Hrun remotePath.
    unfold PathCacheFs.NewObject, PathCacheFs.readMetadata in Hrun. cbn [objRemote] in Hrun.
    fold remotePath in Hrun.
    destruct (PathCacheFs.findEntry remotePath f n) as [[found f1] n1].
    destruct found as [entry|err]; [|discriminate].
    destruct (String.eqb (Type_ entry) "folder") eqn:Hty; [discriminate|].
    apply String.eqb_neq in Hty. injection Hrun as <- <- <-.
    exists entry. auto.
Qed.

(** [NewObject "x.txt"] on a remote with x.txt at the root. *)
Lemma NewObject_is_never_a_folder_witness :
  (exists entry,
     Name entry = GoPath.Base (GoPath.Join2 "" "x.txt") /\ Type_ entry <> "folder"%string
     /\ mkObject "x.txt" 7 10 0
        = mkObject "x.txt" (ID entry) (FileSize entry) (UpdatedAt entry))
  /\ (exists entry,
        Type_ entry <> "folder"%string
        /\ mkObject "x.txt" 7 10 0
           = mkObject "x.txt" (ID entry) (FileSize entry) (UpdatedAt entry)).
Proof.
  split.
  - destruct (proj1 (NewObject_is_never_a_folder "x.txt")
                (DirCacheFs.newFs "" (mkApiClient ApiGo 10))
                (mkNet [listing [dirA; fileX 0]] [])
                (mkObject "x.txt" 7 10 0)
                (DirCacheFs.newFs "" (mkApiClient ApiGo 10))
                (mkNet [] [EvCall (ReqList None 1) (listing [dirA; fileX 0])])
                eq_refl)
      as (parentID & n1 & fileEntries & entry & _ & _ & Hname & Hty & Ho & _).
    exists entry. auto.
  - destruct (proj2 (NewObject_is_never_a_folder "x.txt")
                (PathCacheFs.newFs "" (mkApiClient ApiGo 10))
                (mkNet [listing [dirA; fileX 0]] [])
                (mkObject "x.txt" 7 10 0)
                (snd (fst (PathCacheFs.findEntry "x.txt"
                             (PathCacheFs.newFs "" (mkApiClient ApiGo 10))
                             (mkNet [listing [dirA; fileX 0]] []))))
                (mkNet [] [EvCall (ReqList None 1) (listing [dirA; fileX 0])])
                ltac:(vm_compute; reflexivity))
      as (entry & _ & Hty & Ho).
    exists entry. auto.
Defined.

Lemma getEntry_Adds c id n : Adds (callOf (ReqGet id)) n (snd (getEntry c id n)).
Proof.
  unfold getEntry.
  pose proof (pacerCall_Adds _ _ (pacedJSON_single decodeEntry (ReqGet id))
                (lowLevelRetries c) (mkCaptured None zeroEntry) n) as H.
  destruct (pacerCall _ _ _ n) as [[err cap] n1]. simpl in H.
  destruct err; exact H.
Qed.

Lemma keyedById_insert f e :
  keyedById f ->
  keyedById (PathCacheFs.setEntryCache f (<[ID e := e]> (PathCacheFs.entryCache f))).
Proof.
  intros H id e'. cbn [PathCacheFs.entryCache PathCacheFs.setEntryCache].
  destruct (decide (id = ID e)) as [->|Hne].
  - rewrite lookup_insert_eq. intros [= <-]. reflexivity.
  - rewrite lookup_insert_ne by congruence. apply H.
Qed.

Lemma PathCacheFs_walk_keyed :
  forall parts currentID f n,
    keyedById f -> keyedById (snd (fst (PathCacheFs.walk parts currentID f n))).
Proof.
  induction parts as [|part parts IH]; intros currentID f n H; simpl; [exact H|].
  destruct (String.eqb part ""); [apply IH; exact H|].
  destruct (listEntries (PathCacheFs.api f) currentID n) as [listed n1].
  destruct listed as [entries|e]; [|exact H].
  destruct (find _ entries) as [e|]; [|exact H].
  apply IH. apply keyedById_insert. exact H.
Qed.

Lemma PathCacheFs_findEntry_keyed remotePath f n :
  keyedById f -> keyedById (snd (fst (PathCacheFs.findEntry remotePath f n))).
Proof.
  intros H. unfold PathCacheFs.findEntry.
  destruct (match PathCacheFs.pathCache f !! remotePath with
            | Some id => PathCacheFs.entryCache f !! id
            | None => None
            end); [exact H|].
  pose proof (PathCacheFs_walk_keyed (GoStrings.Split (GoStrings.Trim remotePath))
                (PathCacheFs.rootID f) f n H) as Hw.
  destruct (PathCacheFs.walk _ _ f n) as [[walked f1] n1]. cbn [fst snd] in Hw.
  destruct walked as [[currentID|]|e]; try exact Hw.
  destruct (PathCacheFs.entryCache f1 !! currentID); exact Hw.
Qed.

(** X13: what [Open] downloads.  In [part_002] it asks for the entry by
    the object's id and then sends download requests for the address made
    of that entry's URL, and nothing when the entry could not be fetched;
    the [Fs] is left as it is.  In [object.go], with the rows of
    [entryCache] standing under their ids and [rootID] nil, an object whose
    path resolves to an entry that is no folder is given that entry's id,
    size and time, and the result of [Open] is that of the download of the
    address made of that entry's URL. *)
Theorem Open_downloads_the_url_of_the_entry (o : Object) :
  (forall f n,
     let run := DirCacheFs.Open o f n in
     snd (fst run) = f
     /\ match getEntry (DirCacheFs.api f) (objID o) n with
        | (Err err, n1) => run = (Some err, f, n1)
        | (Ok entry, n1) =>
            Adds (callOf (ReqGet (objID o))) n n1
            /\ Adds (callOf (ReqDownload (downloadURL (URL entry)))) n1 (snd run)
        end)
  /\ (forall f n e f1 n1,
        keyedById f ->
        PathCacheFs.rootID f = None ->
        PathCacheFs.findEntry (GoPath.Join2 (PathCacheFs.root f) (objRemote o)) f n
        = (Ok e, f1, n1) ->
        Type_ e <> "folder"%string ->
        PathCacheFs.Open o f n
        = (fst (download (PathCacheFs.api f1) e n1), setMetadata o e, f1,
           snd (download (PathCacheFs.api f1) e n1))
        /\ Adds (callOf (ReqDownload (downloadURL (URL e)))) n1 (snd (PathCacheFs.Open o f n))).
Proof.
  split.
  - intros f n run. subst run. unfold DirCacheFs.Open.
    pose proof (getEntry_Adds (DirCacheFs.api f) (objID o) n) as Hget.
    destruct (getEntry (DirCacheFs.api f) (objID o) n) as [got n1]. cbn [snd] in Hget.
    destruct got as [entry|err]; [|split; reflexivity].
    pose proof (download_requests (DirCacheFs.api f) entry n1) as Hd.
    destruct (download (DirCacheFs.api f) entry n1) as [err n2]. cbn [fst snd] in *.
    split; [reflexivity|]. split; assumption.
  - intros f n e f1 n1 Hkeyed Hroot Hfind Hty.
    pose proof (PathCacheFs_findEntry_caches _ _ _ _ _ _ Hroot Hfind) as Hrow.
    pose proof (PathCacheFs_findEntry_keyed
                  (GoPath.Join2 (PathCacheFs.root f) (objRemote o)) f n Hkeyed) as Hk1.
    rewrite Hfind in Hk1. cbn [fst snd] in Hk1.
    unfold cachedEntry in Hrow.
    destruct (PathCacheFs.pathCache f1 !! GoPath.Join2 (PathCacheFs.root f) (objRemote o))
      as [id|]; [|discriminate].
    pose proof (Hk1 _ _ Hrow) as Hid.
    assert (Hopen : PathCacheFs.Open o f n
                    = (fst (download (PathCacheFs.api f1) e n1), setMetadata o e, f1,
                       snd (download (PathCacheFs.api f1) e n1))).
    { unfold PathCacheFs.Open, PathCacheFs.readMetadata. rewrite Hfind.
      apply String.eqb_neq in Hty. rewrite Hty.
      cbn [setMetadata objID]. rewrite Hid, Hrow.
      destruct (download (PathCacheFs.api f1) e n1). reflexivity. }
    split; [exact Hopen|]. rewrite Hopen. cbn [snd]. apply download_requests.
Qed.

(** [Open] of x.txt: fetched by id in [part_002], resolved by path in
    [object.go]. *)
Lemma Open_downloads_the_url_of_the_entry_witness :
  requests (trace (snd (DirCacheFs.Open (mkObject "x.txt" 7 10 0)
                          (DirCacheFs.newFs "" (mkApiClient ApiGo 10))
                          (mkNet [answered (BodyEntry (fileX 0)); answered BodyNone] []))))
  = [ReqGet 7; ReqDownload "https://app.drime.cloud/api/v1/file-entries/7"]
  /\ Adds (callOf (ReqDownload (downloadURL (URL (fileX 0)))))
       (mkNet [answered BodyNone] [EvCall (ReqList None 1) (listing [fileX 0])])
       (snd (PathCacheFs.Open (mkObject "x.txt" 0 0 0)
               (PathCacheFs.newFs "" (mkApiClient ApiGo 10))
               (mkNet [listing [fileX 0]; answered BodyNone] []))).
Proof.
  split; [reflexivity|].
  apply (proj2 (Open_downloads_the_url_of_the_entry (mkObject "x.txt" 0 0 0))
           (PathCacheFs.newFs "" (mkApiClient ApiGo 10))
           (mkNet [listing [fileX 0]; answered BodyNone] [])
           (fileX 0)
           (snd (fst (PathCacheFs.findEntry "x.txt" (PathCacheFs.newFs "" (mkApiClient ApiGo 10))
                        (mkNet [listing [fileX 0]] []))))
           (mkNet [answered BodyNone] [EvCall (ReqList None 1) (listing [fileX 0])])).
  - intros id e. unfold PathCacheFs.newFs. cbn [PathCacheFs.entryCache].
    rewrite lookup_empty. discriminate.
  - reflexivity.
  - vm_compute. reflexivity.
  - discriminate.
Defined.

(** ** The id cache of the [pathCache] revision *)

Lemma Kept_refl f : Kept f f.
Proof. split; auto. Qed.

Lemma Kept_trans f f1 f2 : Kept f f1 -> Kept f1 f2 -> Kept f f2.
Proof. intros [H1 R1] [H2 R2]. split; [auto|congruence]. Qed.

Lemma Kept_findEntry remotePath f n :
  Kept f (snd (fst (PathCacheFs.findEntry remotePath f n))).
Proof.
  split; [apply PathCacheFs_findEntry_keyed|apply PathCacheFs_findEntry_api].
Qed.

Lemma Kept_row f id e p :
  Kept f (PathCacheFs.setPathCache
            (PathCacheFs.setEntryCache f (<[ID e := e]> (PathCacheFs.entryCache f)))
            (<[p := id]>
               (PathCacheFs.pathCache
                  (PathCacheFs.setEntryCache f (<[ID e := e]> (PathCacheFs.entryCache f)))))).
Proof.
  split; [|reflexivity]. intros H. exact (keyedById_insert f e H).
Qed.

Lemma Kept_delete f p id :
  Kept f (PathCacheFs.setEntryCache (PathCacheFs.setPathCache f (delete p (PathCacheFs.pathCache f)))
            (delete id
               (PathCacheFs.entryCache
                  (PathCacheFs.setPathCache f (delete p (PathCacheFs.pathCache f)))))).
Proof.
  split; [|reflexivity]. intros H k e.
  cbn [PathCacheFs.entryCache PathCacheFs.setEntryCache PathCacheFs.setPathCache].
  intros Hk. apply lookup_delete_Some in Hk as [_ Hk]. apply H. exact Hk.
Qed.

Lemma Kept_listLoop dir :
  forall fileEntries entries f,
    Kept f (snd (PathCacheFs.listLoop dir fileEntries entries f)).
Proof.
  induction fileEntries as [|entry rest IH]; intros entries f; [apply Kept_refl|].
  cbn [PathCacheFs.listLoop].
  destruct (String.eqb (Type_ entry) "folder");
    (eapply Kept_trans; [apply Kept_row|apply IH]).
Qed.

Lemma Kept_List dir f n : Kept f (snd (fst (PathCacheFs.List dir f n))).
Proof.
  unfold PathCacheFs.List.
  destruct (negb (String.eqb (GoPath.Join2 (PathCacheFs.root f) dir) "")).
  - pose proof (Kept_findEntry (GoPath.Join2 (PathCacheFs.root f) dir) f n) as H.
    destruct (PathCacheFs.findEntry _ f n) as [[found f1] n1]. cbn [fst snd] in H.
    destruct found as [entry|err]; [|destruct err; exact H].
    destruct (negb (String.eqb (Type_ entry) "folder")); [exact H|].
    destruct (listEntries (PathCacheFs.api f1) (Some (ID entry)) n1) as [[fileEntries|err] n2];
      [|exact H].
    pose proof (Kept_listLoop dir fileEntries [] f1) as H2.
    destruct (PathCacheFs.listLoop dir fileEntries [] f1) as [out f2]. cbn [fst snd] in *.
    eapply Kept_trans; eassumption.
  - destruct (listEntries (PathCacheFs.api f) (PathCacheFs.rootID f) n)
      as [[fileEntries|err] n2]; [|apply Kept_refl].
    pose proof (Kept_listLoop dir fileEntries [] f) as H2.
    destruct (PathCacheFs.listLoop dir fileEntries [] f) as [out f2]. exact H2.
Qed.

Lemma Kept_Mkdir dir f n : Kept f (snd (fst (PathCacheFs.Mkdir dir f n))).
Proof.
  unfold PathCacheFs.Mkdir.
  pose proof (Kept_findEntry (GoPath.Join2 (PathCacheFs.root f) dir) f n) as H.
  destruct (PathCacheFs.findEntry _ f n) as [[found f1] n1]. cbn [fst snd] in H.
  destruct found as [entry|err]; [exact H|].
  set (parentPath := GoPath.Dir (GoPath.Join2 (PathCacheFs.root f) dir)).
  assert (Hparent : forall parent f2 n2,
             (if negb (String.eqb parentPath "") && negb (String.eqb parentPath ".")
              then
                let '(parentEntry, f2, n2) := PathCacheFs.findEntry parentPath f1 n1 in
                match parentEntry with
                | Err err => (Err err, f2, n2)
                | Ok e => (Ok (ID e), f2, n2)
                end
              else (Ok 0, f1, n1)) = (parent, f2, n2) ->
             Kept f f2).
  { intros parent f2 n2.
    destruct (negb (String.eqb parentPath "") && negb (String.eqb parentPath ".")).
    - pose proof (Kept_findEntry parentPath f1 n1) as H2.
      destruct (PathCacheFs.findEntry parentPath f1 n1) as [[parentEntry f3] n3].
      cbn [fst snd] in H2.
      destruct parentEntry; intros [= _ <- _]; eapply Kept_trans; eassumption.
    - intros [= _ <- _]. exact H. }
  destruct (if negb (String.eqb parentPath "") && negb (String.eqb parentPath ".")
            then _ else _) as [[parent f2] n2] eqn:Hp.
  specialize (Hparent _ _ _ eq_refl).
  destruct parent as [parentID|perr]; [|exact Hparent].
  destruct (createFolder (PathCacheFs.api f2) _ parentID n2) as [[entry|cerr] n3];
    [|exact Hparent].
  cbn [fst snd]. eapply Kept_trans; [exact Hparent|apply Kept_row].
Qed.

Lemma Kept_Rmdir dir f n : Kept f (snd (fst (PathCacheFs.Rmdir dir f n))).
Proof.
  unfold PathCacheFs.Rmdir.
  pose proof (Kept_findEntry (GoPath.Join2 (PathCacheFs.root f) dir) f n) as H.
  destruct (PathCacheFs.findEntry _ f n) as [[found f1] n1]. cbn [fst snd] in H.
  destruct found as [entry|err]; [|exact H].
  destruct (negb (String.eqb (Type_ entry) "folder")); [exact H|].
  destruct (listEntries (PathCacheFs.api f1) (Some (ID entry)) n1) as [[entries|err] n2];
    [|exact H].
  destruct (0 <? length entries)%nat; [exact H|].
  destruct (deleteEntries (PathCacheFs.api f1) [ID entry] true n2) as [[err|] n3];
    [exact H|].
  cbn [fst snd]. eapply Kept_trans; [exact H|apply Kept_delete].
Qed.

Lemma Kept_Purge dir f n : Kept f (snd (fst (PathCacheFs.Purge dir f n))).
Proof.
  unfold PathCacheFs.Purge.
  pose proof (Kept_findEntry (GoPath.Join2 (PathCacheFs.root f) dir) f n) as H.
  destruct (PathCacheFs.findEntry _ f n) as [[found f1] n1]. cbn [fst snd] in H.
  destruct found as [entry|err]; [|exact H].
  destruct (negb (String.eqb (Type_ entry) "folder")); [exact H|].
  destruct (deleteEntries (PathCacheFs.api f1) [ID entry] true n1). exact H.
Qed.

Lemma Kept_readMetadata o f n : Kept f (snd (fst (PathCacheFs.readMetadata o f n))).
Proof.
  unfold PathCacheFs.readMetadata.
  pose proof (Kept_findEntry (GoPath.Join2 (PathCacheFs.root f) (objRemote o)) f n) as H.
  destruct (PathCacheFs.findEntry _ f n) as [[found f1] n1]. cbn [fst snd] in H.
  destruct found as [entry|err]; [|exact H].
  destruct (String.eqb (Type_ entry) "folder"); exact H.
Qed.

Lemma Kept_Open o f n : Kept f (snd (fst (PathCacheFs.Open o f n))).
Proof.
  unfold PathCacheFs.Open.
  pose proof (Kept_readMetadata o f n) as H.
  destruct (PathCacheFs.readMetadata o f n) as [[read f1] n1]. cbn [fst snd] in H.
  destruct read as [o1|err]; [|exact H].
  destruct (PathCacheFs.entryCache f1 !! objID o1) as [entry|]; [|exact H].
  destruct (download (PathCacheFs.api f1) entry n1). exact H.
Qed.

Lemma Kept_Remove o f n : Kept f (snd (fst (PathCacheFs.Remove o f n))).
Proof.
  unfold PathCacheFs.Remove.
  destruct (deleteEntries (PathCacheFs.api f) [objID o] true n) as [[err|] n1];
    [apply Kept_refl|apply Kept_delete].
Qed.

Lemma Kept_moveToParent id dstPath f n :
  Kept f (snd (fst (PathCacheFs.moveToParent id dstPath f n))).
Proof.
  unfold PathCacheFs.moveToParent.
  destruct (negb (String.eqb (GoPath.Dir dstPath) "")
            && negb (String.eqb (GoPath.Dir dstPath) ".")).
  - pose proof (Kept_findEntry (GoPath.Dir dstPath) f n) as H.
    destruct (PathCacheFs.findEntry (GoPath.Dir dstPath) f n) as [[parentEntry f1] n1].
    cbn [fst snd] in H. destruct parentEntry as [e|err]; [|exact H].
    destruct (moveEntries (PathCacheFs.api f1) [id] (ID e) n1). exact H.
  - destruct (moveEntries (PathCacheFs.api f) [id] 0 n). apply Kept_refl.
Qed.

Lemma Kept_Move src remote f n : Kept f (snd (fst (PathCacheFs.Move src remote f n))).
Proof.
  unfold PathCacheFs.Move. destruct src as [srcObj|]; [|apply Kept_refl].
  pose proof (Kept_moveToParent (objID srcObj)
                (GoPath.Join2 (PathCacheFs.root f) remote) f n) as H.
  destruct (PathCacheFs.moveToParent _ _ f n) as [[moved f1] n1]. cbn [fst snd] in H.
  destruct moved as [err|]; [exact H|].
  assert (H2 : forall n2, Kept f (snd (fst (PathCacheFs.NewObject remote f1 n2)))).
  { intros n2. eapply Kept_trans; [exact H|apply Kept_readMetadata]. }
  destruct (negb (String.eqb _ (objRemote srcObj))); [|apply H2].
  destruct (renameEntry (PathCacheFs.api f1) (objID srcObj) _ n1) as [[renamed|err] n2];
    [apply H2|exact H].
Qed.

Lemma Kept_DirMove srcRemote dstRemote f n :
  Kept f (snd (fst (PathCacheFs.DirMove srcRemote dstRemote f n))).
Proof.
  unfold PathCacheFs.DirMove.
  pose proof (Kept_findEntry (GoPath.Join2 (PathCacheFs.root f) srcRemote) f n) as H.
  destruct (PathCacheFs.findEntry _ f n) as [[found f1] n1]. cbn [fst snd] in H.
  destruct found as [srcEntry|err]; [|exact H].
  pose proof (Kept_moveToParent (ID srcEntry)
                (GoPath.Join2 (PathCacheFs.root f) dstRemote) f1 n1) as H2.
  destruct (PathCacheFs.moveToParent _ _ f1 n1) as [[moved f2] n2]. cbn [fst snd] in H2.
  assert (H12 : Kept f f2) by (eapply Kept_trans; eassumption).
  destruct moved as [err|]; [exact H12|].
  destruct (negb (String.eqb _ (Name srcEntry))); [|exact H12].
  destruct (renameEntry (PathCacheFs.api f2) (ID srcEntry) _ n2). exact H12.
Qed.

Lemma Kept_performPath op f n : Kept f (fst (performPath op f n)).
Proof.
  destruct op; cbn [performPath fst].
  - apply Kept_findEntry.
  - apply Kept_List.
  - apply Kept_Mkdir.
  - apply Kept_Rmdir.
  - apply Kept_Purge.
  - apply Kept_readMetadata.
  - apply Kept_Open.
  - apply Kept_Remove.
  - apply Kept_Move.
  - apply Kept_DirMove.
Qed.

Lemma Kept_performAllPath :
  forall ops f n, Kept f (fst (performAllPath ops f n)).
Proof.
  induction ops as [|op rest IH]; intros f n; cbn [performAllPath]; [apply Kept_refl|].
  pose proof (Kept_performPath op f n) as H.
  destruct (performPath op f n) as [f1 n1]. cbn [fst] in H.
  eapply Kept_trans; [exact H|apply IH].
Qed.

Lemma Kept_NewFs root c n :
  keyedById (snd (fst (PathCacheFs.NewFs root c n)))
  /\ PathCacheFs.rootID (snd (fst (PathCacheFs.NewFs root c n))) = None.
Proof.
  assert (H0 : keyedById (PathCacheFs.newFs root c)
               /\ PathCacheFs.rootID (PathCacheFs.newFs root c) = None).
  { split; [|reflexivity]. intros id e. unfold PathCacheFs.newFs.
    cbn [PathCacheFs.entryCache]. rewrite lookup_empty. discriminate. }
  unfold PathCacheFs.NewFs.
  destruct (negb (String.eqb (PathCacheFs.root (PathCacheFs.newFs root c)) ""));
    [|exact H0].
  pose proof (Kept_findEntry (PathCacheFs.root (PathCacheFs.newFs root c))
                (PathCacheFs.newFs root c) n) as [Hk Hr].
  destruct (PathCacheFs.findEntry _ (PathCacheFs.newFs root c) n) as [[found f1] n1].
  cbn [fst snd] in *. destruct H0 as [K0 R0].
  assert (H1 : keyedById f1 /\ PathCacheFs.rootID f1 = None) by (split; [auto|congruence]).
  destruct found as [entry|err]; [|exact H1].
  destruct (negb (String.eqb (Type_ entry) "folder")); [|exact H1].
  cbn [fst snd]. exact H1.
Qed.

(** X14: in every state reached from [NewFs] of the [pathCache] revision by
    any sequence of [findEntry], [List], [Mkdir], [Rmdir], [Purge],
    [NewObject], [Open], [Remove], [Move] and [DirMove], whatever the
    remote answers, every row of [entryCache] stands under the id of its
    entry, and [rootID] is nil. *)
Theorem entryCache_rows_stand_under_their_ids (root : string) (c : apiClient)
    (script : list Attempt) (ops : list PathOp) :
  keyedById (fst (reachedPath root c script ops))
  /\ PathCacheFs.rootID (fst (reachedPath root c script ops)) = None.
Proof.
  unfold reachedPath. cbv zeta.
  destruct (Kept_NewFs root c (mkNet script [])) as [K0 R0].
  destruct (Kept_performAllPath ops (snd (fst (PathCacheFs.NewFs root c (mkNet script []))))
              (snd (PathCacheFs.NewFs root c (mkNet script [])))) as [K R].
  split; [auto|congruence].
Qed.

(** ** [Mkdir] *)

(** [findEntry] of the [dirCache] revision does not look at the gates. *)
Lemma DirCacheFs_walk_gates remotePath m :
  forall ahead walked currentID f n,
    DirCacheFs.walk remotePath walked ahead currentID (DirCacheFs.setMkdirCache f m) n
    = (let '(r, f', n') := DirCacheFs.walk remotePath walked ahead currentID f n in
       (r, DirCacheFs.setMkdirCache f' m, n')).
Proof.
  induction ahead as [|part ahead IH]; intros walked currentID f n; [reflexivity|].
  cbn [DirCacheFs.walk DirCacheFs.dirCache DirCacheFs.api DirCacheFs.setMkdirCache].
  destruct (DirCacheFs.dirCache f !! GoStrings.Join (walked ++ [part])); [apply IH|].
  destruct (listEntries (DirCacheFs.api f) _ n) as [[entries|err] n1]; [|reflexivity].
  destruct (find _ entries) as [e|]; [|reflexivity].
  assert (Hadd : (if String.eqb (Type_ e) "folder"
                  then DirCacheFs.addDirCacheEntry (GoStrings.Join (walked ++ [part])) e
                         (DirCacheFs.setMkdirCache f m)
                  else DirCacheFs.setMkdirCache f m)
                 = DirCacheFs.setMkdirCache
                     (if String.eqb (Type_ e) "folder"
                      then DirCacheFs.addDirCacheEntry (GoStrings.Join (walked ++ [part])) e f
                      else f) m).
  { unfold DirCacheFs.addDirCacheEntry.
    destruct (String.eqb (Type_ e) "folder"); reflexivity. }
  change (DirCacheFs.mkFs (DirCacheFs.root f) (DirCacheFs.api f) (DirCacheFs.dirCache f) m)
    with (DirCacheFs.setMkdirCache f m).
  rewrite Hadd.
  destruct (String.eqb (GoStrings.Join (walked ++ [part])) remotePath); [reflexivity|].
  apply IH.
Qed.

Lemma DirCacheFs_findEntry_gates remotePath m f n :
  DirCacheFs.findEntry remotePath (DirCacheFs.setMkdirCache f m) n
  = (let '(r, f', n') := DirCacheFs.findEntry remotePath f n in
     (r, DirCacheFs.setMkdirCache f' m, n')).
Proof.
  unfold DirCacheFs.findEntry.
  cbn [DirCacheFs.dirCache DirCacheFs.setMkdirCache].
  destruct (String.eqb (GoStrings.Trim remotePath) ""); [reflexivity|].
  destruct (DirCacheFs.dirCache f !! GoStrings.Trim remotePath); [reflexivity|].
  apply (DirCacheFs_walk_gates (GoStrings.Trim remotePath) m).
Qed.

Lemma DirCacheFs_mkdir_resolved MkdirRec dirPath m f n :
  fst (fst (DirCacheFs.findEntry dirPath f n)) <> Err ErrorObjectNotFound ->
  Adds isListEvent n
    (snd (DirCacheFs.mkdir MkdirRec dirPath (DirCacheFs.setMkdirCache f m) n))
  /\ fst (fst (DirCacheFs.mkdir MkdirRec dirPath (DirCacheFs.setMkdirCache f m) n))
     = Returns (match fst (fst (DirCacheFs.findEntry dirPath f n)) with
                | Ok _ => None
                | Err err => Some err
                end).
Proof.
  intros Hfound. unfold DirCacheFs.mkdir. rewrite DirCacheFs_findEntry_gates.
  pose proof (DirCacheFs_findEntry_Adds dirPath f n) as H.
  destruct (DirCacheFs.findEntry dirPath f n) as [[found f1] n1]. cbn [fst snd] in *.
  destruct found as [entry|err]; [split; [exact H|reflexivity]|].
  destruct err; try (split; [exact H|reflexivity]).
  congruence.
Qed.

(** X15: when [Mkdir] creates.  In the [dirCache] revision a path that
    resolves, or whose resolution fails otherwise than by "not found",
    makes [Mkdir] send nothing but list requests, whatever the gate of the
    path: nothing is created; and with a new gate [Mkdir] then returns nil
    if the path resolved, be it to a file, and the error of the resolution
    if it did not; but for the path ".", which [Mkdir] does not resolve,
    it returns nil whatever the resolution would give.  In the [pathCache]
    revision [Mkdir] sends something other than list requests only when
    the path has not resolved, whatever the reason, and its parent is the
    root or has resolved: it creates no parent. *)
Theorem Mkdir_creates_only_when_unresolved (dir : string) :
  (forall fuel f n,
     let dirPath := GoPath.Join2 (DirCacheFs.root f) dir in
     fst (fst (DirCacheFs.findEntry dirPath f n)) <> Err ErrorObjectNotFound ->
     Adds isListEvent n (snd (DirCacheFs.Mkdir fuel dir f n))
     /\ (DirCacheFs.mkdirCache f !! dirPath = None ->
         fst (fst (DirCacheFs.Mkdir (S fuel) dir f n))
         = Returns (if String.eqb dirPath "."
                    then None
                    else match fst (fst (DirCacheFs.findEntry dirPath f n)) with
                         | Ok _ => None
                         | Err err => Some err
                         end)))
  /\ (forall f n,
        let dirPath := GoPath.Join2 (PathCacheFs.root f) dir in
        Adds isListEvent n (snd (PathCacheFs.Mkdir dir f n))
        \/ exists err f1 n1,
             PathCacheFs.findEntry dirPath f n = (Err err, f1, n1)
             /\ (GoPath.Dir dirPath = ""%string \/ GoPath.Dir dirPath = "."%string
                 \/ exists e f2 n2,
                      PathCacheFs.findEntry (GoPath.Dir dirPath) f1 n1 = (Ok e, f2, n2))).
Proof.
  split.
  - intros fuel f n dirPath Hfound. split.
    + destruct fuel as [|fuel]; [apply Adds_refl|].
      cbn [DirCacheFs.Mkdir]. fold dirPath.
      destruct (String.eqb dirPath "" || String.eqb dirPath "."); [apply Adds_refl|].
      assert (Hrun : forall m,
                 Adds isListEvent n
                   (snd (match DirCacheFs.mkdir (DirCacheFs.Mkdir fuel) dirPath
                                 (DirCacheFs.setMkdirCache f m) n with
                         | (Returns err, f2, n2) =>
                             (Returns err,
                              DirCacheFs.setMkdirCache f2
                                (<[dirPath := DirCacheFs.OnceDone]> (DirCacheFs.mkdirCache f2)),
                              n2)
                         | stuck => stuck
                         end))).
      { intros m.
        destruct (DirCacheFs_mkdir_resolved (DirCacheFs.Mkdir fuel) dirPath m f n Hfound)
          as [HA _].
        destruct (DirCacheFs.mkdir _ dirPath _ n) as [[ran f2] n2]. cbn [snd] in HA.
        destruct ran; exact HA. }
      destruct (DirCacheFs.mkdirCache f !! dirPath) as [once|].
      * destruct once; [|apply Adds_refl..]. cbv zeta. apply Hrun.
      * cbv zeta. apply Hrun.
    + intros Hgate. cbn [DirCacheFs.Mkdir]. fold dirPath. rewrite Hgate.
      destruct (String.eqb dirPath "") eqn:Hempty.
      { apply String.eqb_eq in Hempty. rewrite Hempty. reflexivity. }
      destruct (String.eqb dirPath ".") eqn:Hdot; [reflexivity|].
      cbn [orb]. cbv zeta.
      destruct (DirCacheFs_mkdir_resolved (DirCacheFs.Mkdir fuel) dirPath
                  (<[dirPath := DirCacheFs.OnceRunning]>
                     (<[dirPath := DirCacheFs.OnceFresh]> (DirCacheFs.mkdirCache f)))
                  f n Hfound) as [_ HR].
      change (DirCacheFs.setMkdirCache
                (DirCacheFs.setMkdirCache f
                   (<[dirPath := DirCacheFs.OnceFresh]> (DirCacheFs.mkdirCache f)))
                (<[dirPath := DirCacheFs.OnceRunning]>
                   (DirCacheFs.mkdirCache
                      (DirCacheFs.setMkdirCache f
                         (<[dirPath := DirCacheFs.OnceFresh]> (DirCacheFs.mkdirCache f))))))
        with (DirCacheFs.setMkdirCache f
                (<[dirPath := DirCacheFs.OnceRunning]>
                   (<[dirPath := DirCacheFs.OnceFresh]> (DirCacheFs.mkdirCache f)))).
      destruct (DirCacheFs.mkdir _ dirPath _ n) as [[ran f2] n2]. cbn [fst snd] in *.
      rewrite HR. reflexivity.
  - intros f n dirPath. unfold PathCacheFs.Mkdir. fold dirPath.
    pose proof (PathCacheFs_findEntry_Adds dirPath f n) as H.
    destruct (PathCacheFs.findEntry dirPath f n) as [[found f1] n1] eqn:Hfind.
    cbn [snd] in H. destruct found as [entry|err]; [left; exact H|].
    destruct (String.eqb (GoPath.Dir dirPath) "") eqn:H1; cbn [negb andb].
    { apply String.eqb_eq in H1. right. exists err, f1, n1. auto. }
    destruct (String.eqb (GoPath.Dir dirPath) ".") eqn:H2; cbn [negb].
    { apply String.eqb_eq in H2. right. exists err, f1, n1. auto. }
    pose proof (PathCacheFs_findEntry_Adds (GoPath.Dir dirPath) f1 n1) as Hp.
    destruct (PathCacheFs.findEntry (GoPath.Dir dirPath) f1 n1) as [[parent f2] n2] eqn:Hparent.
    cbn [snd] in Hp. destruct parent as [e|perr].
    + right. exists err, f1, n1. split; [reflexivity|]. right. right. exists e, f2, n2.
      exact Hparent.
    + left. eapply Adds_trans; eassumption.
Qed.

(** [Mkdir "x.txt"] when a file x.txt is there: nil, and nothing created. *)
Lemma Mkdir_creates_only_when_unresolved_witness :
  Adds isListEvent (mkNet [listing [fileX 0]] [])
    (snd (DirCacheFs.Mkdir 3 "x.txt" (DirCacheFs.newFs "" (mkApiClient ApiGo 10))
            (mkNet [listing [fileX 0]] [])))
  /\ fst (fst (DirCacheFs.Mkdir 3 "x.txt" (DirCacheFs.newFs "" (mkApiClient ApiGo 10))
                 (mkNet [listing [fileX 0]] [])))
     = Returns None.
Proof.
  destruct (proj1 (Mkdir_creates_only_when_unresolved "x.txt") 2%nat
              (DirCacheFs.newFs "" (mkApiClient ApiGo 10)) (mkNet [listing [fileX 0]] [])
              ltac:(vm_compute; discriminate)) as [HA HR].
  split.
  - apply (proj1 (proj1 (Mkdir_creates_only_when_unresolved "x.txt") 3%nat
                    (DirCacheFs.newFs "" (mkApiClient ApiGo 10))
                    (mkNet [listing [fileX 0]] []) ltac:(vm_compute; discriminate))).
  - exact (HR eq_refl).
Defined.

(** X16: [Mkdir] of the account root.  With an empty root, [Mkdir ""]
    returns nil at once in the [dirCache] revision, in every state and
    without a request.  In the [pathCache] revision, where the empty path
    does not resolve, it goes on to [createFolder] and asks for a folder
    named "." under the parent 0; what that returns is the result. *)
Theorem Mkdir_of_the_account_root :
  (forall fuel f n,
     DirCacheFs.root f = ""%string ->
     DirCacheFs.Mkdir (S fuel) "" f n = (Returns None, f, n))
  /\ (forall f n,
        PathCacheFs.root f = ""%string ->
        PathCacheFs.rootID f = None ->
        cachedEntry f "" = None ->
        PathCacheFs.Mkdir "" f n
        = match createFolder (PathCacheFs.api f) "." 0 n with
          | (Ok entry, n1) =>
              (None,
               PathCacheFs.setPathCache
                 (PathCacheFs.setEntryCache f (<[ID entry := entry]> (PathCacheFs.entryCache f)))
                 (<[""%string := ID entry]> (PathCacheFs.pathCache f)),
               n1)
          | (Err err, n1) => (Some err, f, n1)
          end).
Proof.
  split.
  - intros fuel f n Hroot. cbn [DirCacheFs.Mkdir]. rewrite Hroot. reflexivity.
  - intros f n Hroot Hid Hmiss. unfold PathCacheFs.Mkdir. rewrite Hroot.
    change (GoPath.Join2 "" "") with ""%string.
    unfold PathCacheFs.findEntry. unfold cachedEntry in Hmiss. rewrite Hmiss, Hid.
    cbn [GoStrings.Trim GoStrings.trimLeftSlash GoStrings.trimRightSlash GoStrings.Split
         PathCacheFs.walk String.eqb].
    change (GoPath.Dir "") with "."%string. change (GoPath.Base "") with "."%string.
    cbn [String.eqb Ascii.eqb Bool.eqb negb andb].
    destruct (createFolder (PathCacheFs.api f) "." 0 n) as [[entry|err] n1]; reflexivity.
Qed.

Lemma Mkdir_of_the_account_root_witness :
  DirCacheFs.Mkdir 1 "" (DirCacheFs.newFs "" (mkApiClient ApiGo 10)) (mkNet [] [])
  = (Returns None, DirCacheFs.newFs "" (mkApiClient ApiGo 10), mkNet [] [])
  /\ requests (trace (snd (PathCacheFs.Mkdir "" (PathCacheFs.newFs "" (mkApiClient ApiGo 10))
                             (mkNet [listing []; createdA "folder"] []))))
     = [ReqList (Some 0) 1; ReqCreateFolder "." 0].
Proof.
  split.
  - apply (proj1 Mkdir_of_the_account_root 0%nat
             (DirCacheFs.newFs "" (mkApiClient ApiGo 10)) (mkNet [] [])).
    reflexivity.
  - rewrite (proj2 Mkdir_of_the_account_root
               (PathCacheFs.newFs "" (mkApiClient ApiGo 10))
               (mkNet [listing []; createdA "folder"] []) eq_refl eq_refl eq_refl).
    reflexivity.
Defined.

(** ** [NewFs] *)

(** X17: the probe of [NewFs], in both revisions (token configured).  It
    sends list requests only, and none for an empty root.  The only error
    [NewFs] returns is [ErrorIsFile], and it returns it exactly when the
    trimmed root, not empty, resolved to an entry that is no folder; the
    root of the [Fs] is then the parent directory of the trimmed root (""
    for "."), and the trimmed root itself otherwise: a probe that fails
    is not reported. *)
Theorem NewFs_reports_only_a_file_root (root : string) (c : apiClient) (n : Net) :
  (let run := DirCacheFs.NewFs root c n in
   let trimmed := GoStrings.Trim root in
   Adds isListEvent n (snd run)
   /\ (trimmed = ""%string -> run = (None, DirCacheFs.newFs root c, n))
   /\ match fst (fst run) with
      | None => DirCacheFs.root (snd (fst run)) = trimmed
      | Some err =>
          err = ErrorIsFile
          /\ (exists entry f1 n1,
                DirCacheFs.findEntry trimmed (DirCacheFs.newFs root c) n = (Ok entry, f1, n1)
                /\ Type_ entry <> "folder"%string)
          /\ DirCacheFs.root (snd (fst run))
             = (if String.eqb (GoPath.Dir trimmed) "." then "" else GoPath.Dir trimmed)
      end
   /\ (forall entry f1 n1,
         trimmed <> ""%string ->
         DirCacheFs.findEntry trimmed (DirCacheFs.newFs root c) n = (Ok entry, f1, n1) ->
         Type_ entry <> "folder"%string ->
         fst (fst run) = Some ErrorIsFile /\ snd run = n1))
  /\ (let run := PathCacheFs.NewFs root c n in
      let trimmed := GoStrings.Trim root in
      Adds isListEvent n (snd run)
      /\ (trimmed = ""%string -> run = (None, PathCacheFs.newFs root c, n))
      /\ match fst (fst run) with
         | None => PathCacheFs.root (snd (fst run)) = trimmed
         | Some err =>
             err = ErrorIsFile
             /\ (exists entry f1 n1,
                   PathCacheFs.findEntry trimmed (PathCacheFs.newFs root c) n
                   = (Ok entry, f1, n1)
                   /\ Type_ entry <> "folder"%string)
             /\ PathCacheFs.root (snd (fst run))
                = (if String.eqb (GoPath.Dir trimmed) "." then "" else GoPath.Dir trimmed)
         end
      /\ (forall entry f1 n1,
            trimmed <> ""%string ->
            PathCacheFs.findEntry trimmed (PathCacheFs.newFs root c) n = (Ok entry, f1, n1) ->
            Type_ entry <> "folder"%string ->
            fst (fst run) = Some ErrorIsFile /\ snd run = n1)).
Proof.
  split.
  - cbv zeta. unfold DirCacheFs.NewFs.
    change (DirCacheFs.root (DirCacheFs.newFs root c)) with (GoStrings.Trim root).
    destruct (String.eqb (GoStrings.Trim root) "") eqn:Hroot; cbn [negb].
    { apply String.eqb_eq in Hroot.
      split; [apply Adds_refl|]. split; [reflexivity|]. split; [reflexivity|].
      intros entry f1 n1 Hne. congruence. }
    apply String.eqb_neq in Hroot.
    pose proof (DirCacheFs_findEntry_Adds (GoStrings.Trim root) (DirCacheFs.newFs root c) n)
      as HA.
    pose proof (DirCacheFs_findEntry_frame (GoStrings.Trim root) (DirCacheFs.newFs root c) n)
      as (HR & _).
    destruct (DirCacheFs.findEntry (GoStrings.Trim root) (DirCacheFs.newFs root c) n)
      as [[found f1] n1]. cbn [fst snd] in HA, HR.
    change (DirCacheFs.root (DirCacheFs.newFs root c)) with (GoStrings.Trim root) in HR.
    destruct found as [entry|err].
    + destruct (String.eqb (Type_ entry) "folder") eqn:Hty; cbn [negb fst snd].
      * apply String.eqb_eq in Hty.
        split; [exact HA|]. split; [congruence|]. split; [exact HR|].
        intros entry' f1' n1' _ [= <- _ _] Hno. congruence.
      * apply String.eqb_neq in Hty.
        split; [exact HA|]. split; [congruence|]. split.
        -- split; [reflexivity|].
           split; [exists entry, f1, n1; auto|]. rewrite HR. reflexivity.
        -- intros entry' f1' n1' _ [= _ _ <-] _. split; reflexivity.
    + cbn [fst snd]. split; [exact HA|]. split; [congruence|]. split; [exact HR|].
      intros entry' f1' n1' _ H. discriminate.
  - cbv zeta. unfold PathCacheFs.NewFs.
    change (PathCacheFs.root (PathCacheFs.newFs root c)) with (GoStrings.Trim root).
    destruct (String.eqb (GoStrings.Trim root) "") eqn:Hroot; cbn [negb].
    { apply String.eqb_eq in Hroot.
      split; [apply Adds_refl|]. split; [reflexivity|]. split; [reflexivity|].
      intros entry f1 n1 Hne. congruence. }
    apply String.eqb_neq in Hroot.
    pose proof (PathCacheFs_findEntry_Adds (GoStrings.Trim root) (PathCacheFs.newFs root c) n)
      as HA.
    pose proof (PathCacheFs_findEntry_api (GoStrings.Trim root) (PathCacheFs.newFs root c) n)
      as (_ & HR & _).
    destruct (PathCacheFs.findEntry (GoStrings.Trim root) (PathCacheFs.newFs root c) n)
      as [[found f1] n1]. cbn [fst snd] in HA, HR.
    change (PathCacheFs.root (PathCacheFs.newFs root c)) with (GoStrings.Trim root) in HR.
    destruct found as [entry|err].
    + destruct (String.eqb (Type_ entry) "folder") eqn:Hty; cbn [negb fst snd].
      * apply String.eqb_eq in Hty.
        split; [exact HA|]. split; [congruence|]. split; [exact HR|].
        intros entry' f1' n1' _ [= <- _ _] Hno. congruence.
      * apply String.eqb_neq in Hty.
        split; [exact HA|]. split; [congruence|]. split.
        -- split; [reflexivity|].
           split; [exists entry, f1, n1; auto|]. rewrite HR. reflexivity.
        -- intros entry' f1' n1' _ [= _ _ <-] _. split; reflexivity.
    + cbn [fst snd]. split; [exact HA|]. split; [congruence|]. split; [exact HR|].
      intros entry' f1' n1' _ H. discriminate.
Qed.

(** The root "x.txt" when the account root lists the file x.txt: the probe
    reports [ErrorIsFile] after its one list request, in both revisions. *)
Lemma NewFs_reports_only_a_file_root_witness :
  (fst (fst (DirCacheFs.NewFs "x.txt" (mkApiClient ApiGo 10) (mkNet [listing [fileX 0]] [])))
   = Some ErrorIsFile
   /\ snd (DirCacheFs.NewFs "x.txt" (mkApiClient ApiGo 10) (mkNet [listing [fileX 0]] []))
      = mkNet [] [EvCall (ReqList None 1) (listing [fileX 0])])
  /\ (fst (fst (PathCacheFs.NewFs "x.txt" (mkApiClient ApiGo 10) (mkNet [listing [fileX 0]] [])))
      = Some ErrorIsFile
      /\ snd (PathCacheFs.NewFs "x.txt" (mkApiClient ApiGo 10) (mkNet [listing [fileX 0]] []))
         = mkNet [] [EvCall (ReqList None 1) (listing [fileX 0])]).
Proof.
  split.
  - apply (proj2 (proj2 (proj2 (proj1 (NewFs_reports_only_a_file_root "x.txt"
                                         (mkApiClient ApiGo 10)
                                         (mkNet [listing [fileX 0]] [])))))
             (fileX 0)
             (snd (fst (DirCacheFs.findEntry "x.txt" (DirCacheFs.newFs "x.txt" (mkApiClient ApiGo 10))
                          (mkNet [listing [fileX 0]] []))))).
    + discriminate.
    + reflexivity.
    + discriminate.
  - apply (proj2 (proj2 (proj2 (proj2 (NewFs_reports_only_a_file_root "x.txt"
                                         (mkApiClient ApiGo 10)
                                         (mkNet [listing [fileX 0]] [])))))
             (fileX 0)
             (snd (fst (PathCacheFs.findEntry "x.txt" (PathCacheFs.newFs "x.txt" (mkApiClient ApiGo 10))
                          (mkNet [listing [fileX 0]] []))))).
    + discriminate.
    + reflexivity.
    + discriminate.
Defined.

(** ** What ends a listing *)

Lemma Part0_listPages_counts retries parentID final rest :
  forall front fuel page acc tr,
    (length front < fuel)%nat ->
    morePagesAfter page front ->
    page + Z.of_nat (length front) >= LastPage final ->
    Part0.listPages fuel (S retries) parentID page acc
      (mkNet (map pageReply (front ++ [final]) ++ rest) tr)
    = (Ok (acc ++ concat (map Data (front ++ [final]))),
       mkNet rest (tr ++ pageEvents parentID page (front ++ [final]))).
Proof.
  induction front as [|r front IH]; intros fuel page acc tr Hfuel Hmore Hfinal;
    (destruct fuel as [|fuel]; [simpl in Hfuel; lia|]).
  - cbn [app map Part0.listPages]. rewrite pacerCall_page. cbn [resp].
    cbn [length] in Hfinal.
    replace (page >=? LastPage final) with true by lia.
    simpl. rewrite app_nil_r. reflexivity.
  - destruct Hmore as [Hr Hrest].
    cbn [app map Part0.listPages]. rewrite pacerCall_page. cbn [resp].
    replace (page >=? LastPage r) with false by lia.
    rewrite IH; [|simpl in Hfuel; lia|assumption|cbn [length] in Hfinal; lia].
    simpl. rewrite <- !app_assoc. reflexivity.
Qed.

(** X18: what ends a listing, against a server that answers each page
    request at the first attempt.  [listEntries] of [api.go] goes by what
    the replies say of themselves: it stops at the first reply whose
    current page is not below its last page, whatever page was asked for.
    [listEntries] of [part_000] goes by its own count: it stops at the
    first reply whose last page is not beyond the number of the page asked
    for, whatever current page the replies report.  Both return the items
    of the replies received, in order, after one request per reply. *)
Theorem listEntries_stop_conditions (retries : nat) (parentID : option Z)
    (front : list ListEntriesResponse) (final : ListEntriesResponse)
    (rest : list Attempt) (tr : list Event) :
  (Forall (fun r => CurrentPage r < LastPage r) front ->
   CurrentPage final >= LastPage final ->
   listEntries (mkApiClient ApiGo (S retries)) parentID
     (mkNet (map pageReply (front ++ [final]) ++ rest) tr)
   = (Ok (concat (map Data (front ++ [final]))),
      mkNet rest (tr ++ pageEvents parentID 1 (front ++ [final]))))
  /\ (morePagesAfter 1 front ->
      1 + Z.of_nat (length front) >= LastPage final ->
      listEntries (mkApiClient ApiPart0 (S retries)) parentID
        (mkNet (map pageReply (front ++ [final]) ++ rest) tr)
      = (Ok (concat (map Data (front ++ [final]))),
         mkNet rest (tr ++ pageEvents parentID 1 (front ++ [final])))).
Proof.
  assert (Hfuel : (length front <
                   S (length (script (mkNet (map pageReply (front ++ [final]) ++ rest) tr))))%nat).
  { cbn [script]. rewrite length_app, length_map, length_app. lia. }
  split.
  - intros Hmore Hfinal. unfold listEntries, Api_go.listEntries. cbn [revision lowLevelRetries].
    rewrite (Api_go_listPages_run retries parentID final rest Hfinal front _ 1 [] tr Hfuel Hmore).
    reflexivity.
  - intros Hmore Hfinal. unfold listEntries, Part0.listEntries. cbn [revision lowLevelRetries].
    rewrite (Part0_listPages_counts retries parentID final rest front _ 1 [] tr Hfuel Hmore
               Hfinal).
    reflexivity.
Qed.

(** Two replies that report page 1 of 2 and page 2 of 2 to [api.go]; two
    replies that both report current page 0 and last page 2 to [part_000],
    which stops after the second. *)
Lemma listEntries_stop_conditions_witness :
  listEntries (mkApiClient ApiGo 1) None
    (mkNet (map pageReply ([mkListEntriesResponse [dirA] 1 2]
                           ++ [mkListEntriesResponse [dirB] 2 2]) ++ []) [])
  = (Ok (concat (map Data ([mkListEntriesResponse [dirA] 1 2]
                           ++ [mkListEntriesResponse [dirB] 2 2]))),
     mkNet [] ([] ++ pageEvents None 1 ([mkListEntriesResponse [dirA] 1 2]
                                        ++ [mkListEntriesResponse [dirB] 2 2])))
  /\ listEntries (mkApiClient ApiPart0 1) None
       (mkNet (map pageReply ([mkListEntriesResponse [dirA] 0 2]
                              ++ [mkListEntriesResponse [dirB] 0 2]) ++ []) [])
     = (Ok (concat (map Data ([mkListEntriesResponse [dirA] 0 2]
                              ++ [mkListEntriesResponse [dirB] 0 2]))),
        mkNet [] ([] ++ pageEvents None 1 ([mkListEntriesResponse [dirA] 0 2]
                                           ++ [mkListEntriesResponse [dirB] 0 2]))).
Proof.
  split.
  - apply (proj1 (listEntries_stop_conditions 0 None [mkListEntriesResponse [dirA] 1 2]
                    (mkListEntriesResponse [dirB] 2 2) [] [])).
    + repeat constructor.
    + simpl. lia.
  - apply (proj2 (listEntries_stop_conditions 0 None [mkListEntriesResponse [dirA] 0 2]
                    (mkListEntriesResponse [dirB] 0 2) [] [])).
    + simpl. lia.
    + simpl. lia.
Defined.

(** ** The gate of [Mkdir] and the retry classifier *)

(** X19: the [sync.Once] of [Mkdir] ([dirCache] revision) lets [f.mkdir]
    run at most once for a path whose gate is new, whatever the number of
    concurrent callers and the order in which they are scheduled; nothing
    is sent unless it runs; and no more callers have ended otherwise than
    by returning nil, that is with an error or stuck inside [f.mkdir],
    than [f.mkdir] has run: at most one, so every other caller that has
    returned has returned nil.  A caller that still waits in [once.Do] is
    not among those that have ended. *)
Theorem Mkdir_gate_lets_one_body_run (fuel : nat) (dirPath : string) (k : nat)
    (f : DirCacheFs.Fs) (n : Net) (schedule : list nat) :
  DirCacheFs.mkdirCache f !! dirPath = None ->
  let st := MkdirCallers.run fuel dirPath schedule (MkdirCallers.start k f n) in
  (MkdirCallers.bodies st <= 1)%nat
  /\ (MkdirCallers.bodies st = O -> MkdirCallers.net st = n)
  /\ (MkdirCallers.total MkdirCallers.failed (MkdirCallers.callers st)
      <= MkdirCallers.bodies st)%nat.
Proof.
  intros Hgate st.
  destruct (Mkdir_body_runs_at_most_once fuel dirPath k f n schedule Hgate) as (H1 & H2 & H3).
  fold st in H1, H2, H3. repeat split; [exact H1|exact H3|exact H2].
Qed.

(** Three callers of [Mkdir "a"], scheduled in turn, on a remote that
    refuses the creation. *)
Lemma Mkdir_gate_lets_one_body_run_witness :
  let st := MkdirCallers.run 3 "a" [0; 1; 2; 2; 1; 0; 0; 1; 2]%nat
              (MkdirCallers.start 3 (DirCacheFs.newFs "" (mkApiClient ApiGo 1))
                 (mkNet refusedScript [])) in
  (MkdirCallers.bodies st <= 1)%nat
  /\ (MkdirCallers.bodies st = O -> MkdirCallers.net st = mkNet refusedScript [])
  /\ (MkdirCallers.total MkdirCallers.failed (MkdirCallers.callers st)
      <= MkdirCallers.bodies st)%nat.
Proof.
  apply (Mkdir_gate_lets_one_body_run 3 "a" 3
           (DirCacheFs.newFs "" (mkApiClient ApiGo 1)) (mkNet refusedScript [])
           [0; 1; 2; 2; 1; 0; 0; 1; 2]%nat).
  reflexivity.
Defined.

(** X20: what [shouldRetry] answers, for every input: the error it was
    given, unchanged, and "retry" exactly when there is an error and the
    context is live, or there is no error and the response has status 429
    or a status from 500 on. *)
Theorem shouldRetry_retries_exactly (ctxErr : bool) (status : option Z) (err : option error) :
  snd (shouldRetry ctxErr status err) = err
  /\ (fst (shouldRetry ctxErr status err) = true
      <-> (err <> None /\ ctxErr = false)
          \/ (err = None /\ exists code, status = Some code /\ (code = 429 \/ 500 <= code))).
Proof.
  split; [apply shouldRetry_error|].
  unfold shouldRetry. destruct err as [e|].
  - destruct ctxErr; cbn [fst]; split.
    + discriminate.
    + intros [[_ H]|[H _]]; discriminate.
    + intros _. left. split; [discriminate|reflexivity].
    + reflexivity.
  - destruct status as [code|].
    + destruct ((code =? 429) || (500 <=? code)) eqn:Hc.
      * cbn [fst]. split; [|reflexivity]. intros _. right. split; [reflexivity|].
        exists code. split; [reflexivity|]. apply orb_prop in Hc. lia.
      * assert (Hno : fst (if (code =? 401) || (code =? 403) || (code =? 404) || (code =? 422)
                           then (false, @None error) else (false, None)) = false)
          by (destruct ((code =? 401) || (code =? 403) || (code =? 404) || (code =? 422));
              reflexivity).
        rewrite Hno. split; [discriminate|].
        intros [[H _]|(_ & code' & [= <-] & H)]; [congruence|].
        apply orb_false_elim in Hc. lia.
    + cbn [fst]. split; [discriminate|].
      intros [[H _]|(_ & code & H & _)]; [congruence|discriminate].
Qed.

(** ** [Mkdir] below a root *)

Lemma HasPrefix_longer r : GoStrings.HasPrefix r (r ++ "/")%string = false.
Proof.
  unfold GoStrings.HasPrefix. induction r as [|c r IH]; [reflexivity|].
  simpl. destruct (ascii_dec c c); [exact IH|congruence].
Qed.

Lemma TrimPrefix_root r : GoStrings.TrimPrefix r (r ++ "/")%string = r.
Proof. unfold GoStrings.TrimPrefix. rewrite HasPrefix_longer. reflexivity. Qed.

Lemma DirCacheFs_Mkdir_step fuel dir f n :
  DirCacheFs.Mkdir (S fuel) dir f n
  = (let dirPath := GoPath.Join2 (DirCacheFs.root f) dir in
     if String.eqb dirPath "" || String.eqb dirPath "." then (Returns None, f, n)
     else
       match DirCacheFs.mkdirCache f !! dirPath with
       | Some DirCacheFs.OnceDone => (Returns None, f, n)
       | Some DirCacheFs.OnceRunning => (Deadlock, f, n)
       | found =>
           match DirCacheFs.mkdir (DirCacheFs.Mkdir fuel) dirPath
                   (DirCacheFs.setMkdirCache f
                      (<[dirPath := DirCacheFs.OnceRunning]>
                         (match found with
                          | Some _ => DirCacheFs.mkdirCache f
                          | None => <[dirPath := DirCacheFs.OnceFresh]> (DirCacheFs.mkdirCache f)
                          end))) n with
           | (Returns err, f2, n2) =>
               (Returns err,
                DirCacheFs.setMkdirCache f2
                  (<[dirPath := DirCacheFs.OnceDone]> (DirCacheFs.mkdirCache f2)), n2)
           | stuck => stuck
           end
       end).
Proof.
  cbn [DirCacheFs.Mkdir]. cbv zeta.
  destruct (String.eqb _ "" || String.eqb _ "."); [reflexivity|].
  destruct (DirCacheFs.mkdirCache f !! GoPath.Join2 (DirCacheFs.root f) dir) as [[]|];
    reflexivity.
Qed.

(** [mkdir] is stuck when the [Mkdir] of the parent is. *)
Lemma DirCacheFs_mkdir_parent_stuck MkdirRec dirPath m f n f1 n1 f3 n3 :
  DirCacheFs.findEntry dirPath f n = (Err ErrorObjectNotFound, f1, n1) ->
  negb (String.eqb (GoPath.Dir dirPath) "") && negb (String.eqb (GoPath.Dir dirPath) ".")
  = true ->
  MkdirRec (GoStrings.TrimPrefix (GoPath.Dir dirPath) (DirCacheFs.root f1 ++ "/")%string)
    (DirCacheFs.setMkdirCache f1 m) n1 = (Deadlock, f3, n3) ->
  DirCacheFs.mkdir MkdirRec dirPath (DirCacheFs.setMkdirCache f m) n = (Deadlock, f3, n3).
Proof.
  intros Hfind Hparent Hrec. unfold DirCacheFs.mkdir.
  rewrite DirCacheFs_findEntry_gates, Hfind, Hparent.
  cbn [DirCacheFs.root DirCacheFs.setMkdirCache]. 
  change (DirCacheFs.mkFs (DirCacheFs.root f1) (DirCacheFs.api f1) (DirCacheFs.dirCache f1) m)
    with (DirCacheFs.setMkdirCache f1 m).
  rewrite Hrec. reflexivity.
Qed.

(** X21: [Mkdir] below a root ([dirCache] revision).  Let the root [r] of
    the [Fs] be neither empty nor "." and such that [path.Dir] of
    [path.Join(r, r)] is [r], as it is for a root of one path element; let
    the directory stand directly under the root, at a path other than
    [path.Join(r, r)], and let the gates of the two paths be new.  When
    [findEntry] reports "not found" for the path of the directory, [mkdir]
    calls [Mkdir] for the parent with [strings.TrimPrefix(r, r+"/")],
    which is [r] itself, that is for the path [path.Join(r, r)]; when
    [findEntry] reports "not found" for that path too, its [mkdir] calls
    [Mkdir] for the same path again, from inside the [sync.Once] of that
    path: the call does not return.  Only the list requests of the two
    resolutions have been sent. *)
Theorem Mkdir_below_a_root_does_not_return (fuel : nat) (dir : string)
    (f f1 f2 : DirCacheFs.Fs) (n n1 n2 : Net) :
  let r := DirCacheFs.root f in
  let dirPath := GoPath.Join2 r dir in
  let again := GoPath.Join2 r r in
  String.eqb dirPath "" || String.eqb dirPath "." = false ->
  String.eqb again "" || String.eqb again "." = false ->
  String.eqb r "" || String.eqb r "." = false ->
  GoPath.Dir dirPath = r ->
  GoPath.Dir again = r ->
  dirPath <> again ->
  DirCacheFs.mkdirCache f !! dirPath = None ->
  DirCacheFs.mkdirCache f !! again = None ->
  DirCacheFs.findEntry dirPath f n = (Err ErrorObjectNotFound, f1, n1) ->
  DirCacheFs.findEntry again f1 n1 = (Err ErrorObjectNotFound, f2, n2) ->
  fst (fst (DirCacheFs.Mkdir (S (S (S fuel))) dir f n)) = Deadlock
  /\ snd (DirCacheFs.Mkdir (S (S (S fuel))) dir f n) = n2.
Proof.
  intros r dirPath again Hdir Hagain Hr HdirP HdirA Hne Hg1 Hg2 Hf1 Hf2.
  pose proof (DirCacheFs_findEntry_frame dirPath f n) as (Hroot1 & _ & _).
  rewrite Hf1 in Hroot1. cbn [fst snd] in Hroot1. fold r in Hroot1.
  pose proof (DirCacheFs_findEntry_frame again f1 n1) as (Hroot2 & _ & _).
  rewrite Hf2 in Hroot2. cbn [fst snd] in Hroot2. rewrite Hroot1 in Hroot2.
  assert (Hneg : negb (String.eqb r "") && negb (String.eqb r ".") = true).
  { apply orb_false_elim in Hr as [-> ->]. reflexivity. }
  set (m1 := <[dirPath := DirCacheFs.OnceRunning]>
               (<[dirPath := DirCacheFs.OnceFresh]> (DirCacheFs.mkdirCache f))).
  set (m2 := <[again := DirCacheFs.OnceRunning]> (<[again := DirCacheFs.OnceFresh]> m1)).
  assert (Hm1 : m1 !! again = None).
  { unfold m1. rewrite !lookup_insert_ne by exact Hne. exact Hg2. }
  assert (Hm2 : m2 !! again = Some DirCacheFs.OnceRunning).
  { unfold m2. apply lookup_insert_eq. }
  (* the innermost call finds the gate of its path running *)
  assert (H3 : DirCacheFs.Mkdir (S fuel) r (DirCacheFs.setMkdirCache f2 m2) n2
               = (Deadlock, DirCacheFs.setMkdirCache f2 m2, n2)).
  { rewrite DirCacheFs_Mkdir_step. cbv zeta.
    cbn [DirCacheFs.root DirCacheFs.mkdirCache DirCacheFs.setMkdirCache].
    rewrite Hroot2. fold again. rewrite Hagain, Hm2. reflexivity. }
  (* the call for the parent comes back to the path of that gate *)
  assert (H2 : DirCacheFs.Mkdir (S (S fuel)) r (DirCacheFs.setMkdirCache f1 m1) n1
               = (Deadlock, DirCacheFs.setMkdirCache f2 m2, n2)).
  { rewrite DirCacheFs_Mkdir_step. cbv zeta.
    cbn [DirCacheFs.root DirCacheFs.mkdirCache DirCacheFs.setMkdirCache].
    rewrite Hroot1. fold again. rewrite Hagain, Hm1.
    change (DirCacheFs.setMkdirCache (DirCacheFs.setMkdirCache f1 m1)
              (<[again := DirCacheFs.OnceRunning]> (<[again := DirCacheFs.OnceFresh]> m1)))
      with (DirCacheFs.setMkdirCache f1 m2).
    rewrite (DirCacheFs_mkdir_parent_stuck (DirCacheFs.Mkdir (S fuel)) again m2 f1 n1 f2 n2
               (DirCacheFs.setMkdirCache f2 m2) n2 Hf2).
    - reflexivity.
    - rewrite HdirA. exact Hneg.
    - rewrite HdirA, Hroot2, TrimPrefix_root. exact H3. }
  rewrite DirCacheFs_Mkdir_step. cbv zeta. fold r dirPath. rewrite Hdir, Hg1.
  change (DirCacheFs.setMkdirCache f
            (<[dirPath := DirCacheFs.OnceRunning]>
               (<[dirPath := DirCacheFs.OnceFresh]> (DirCacheFs.mkdirCache f))))
    with (DirCacheFs.setMkdirCache f m1).
  rewrite (DirCacheFs_mkdir_parent_stuck (DirCacheFs.Mkdir (S (S fuel))) dirPath m1 f n f1 n1
             (DirCacheFs.setMkdirCache f2 m2) n2 Hf1).
  - split; reflexivity.
  - rewrite HdirP. exact Hneg.
  - rewrite HdirP, Hroot1, TrimPrefix_root. exact H2.
Qed.

(** [Mkdir "a"] on an [Fs] rooted at the empty folder r. *)
Lemma Mkdir_below_a_root_does_not_return_witness :
  fst (fst (DirCacheFs.Mkdir 3 "a" rootedAtR (mkNet [listing []; listing []] []))) = Deadlock
  /\ snd (DirCacheFs.Mkdir 3 "a" rootedAtR (mkNet [listing []; listing []] []))
     = mkNet [] [EvCall (ReqList (Some 3) 1) (listing []);
                 EvCall (ReqList (Some 3) 1) (listing [])].
Proof.
  apply (Mkdir_below_a_root_does_not_return 0 "a" rootedAtR rootedAtR rootedAtR
           (mkNet [listing []; listing []] [])
           (mkNet [listing []] [EvCall (ReqList (Some 3) 1) (listing [])])
           (mkNet [] [EvCall (ReqList (Some 3) 1) (listing []);
                      EvCall (ReqList (Some 3) 1) (listing [])])).
  - reflexivity.
  - reflexivity.
  - reflexivity.
  - reflexivity.
  - reflexivity.
  - discriminate.
  - reflexivity.
  - reflexivity.
  - vm_compute. reflexivity.
  - vm_compute. reflexivity.
Defined.



(** ** Reading sends list requests only *)

Lemma DirCacheFs_List_Adds dir f n : Adds isListEvent n (snd (DirCacheFs.List dir f n)).
Proof.
  unfold DirCacheFs.List.
  assert (Hlist : forall f1 parentID n1,
             Adds isListEvent n n1 ->
             Adds isListEvent n
               (snd (let '(listed, n2) := listEntries (DirCacheFs.api f1) parentID n1 in
                     match listed with
                     | Err e => (@Err (list DirEntry) e, f1, n2)
                     | Ok fileEntries =>
                         let '(entries, f2) := DirCacheFs.listLoop dir fileEntries [] f1 in
                         (Ok entries, f2, n2)
                     end))).
  { intros f1 parentID n1 H1.
    pose proof (listEntries_Adds (DirCacheFs.api f1) parentID n1) as H2.
    apply (Adds_mono _ isListEvent) in H2; [|apply listOf_isListEvent].
    destruct (listEntries (DirCacheFs.api f1) parentID n1) as [[fileEntries|e] n2];
      cbn [snd] in H2.
    - destruct (DirCacheFs.listLoop dir fileEntries [] f1). eapply Adds_trans; eassumption.
    - eapply Adds_trans; eassumption. }
  destruct (negb (String.eqb (GoPath.Join2 (DirCacheFs.root f) dir) "")).
  - pose proof (DirCacheFs_findEntry_Adds (GoPath.Join2 (DirCacheFs.root f) dir) f n) as H.
    destruct (DirCacheFs.findEntry _ f n) as [[found f1] n1]. cbn [snd] in H.
    destruct found as [entry|err]; [|exact H].
    destruct (negb (String.eqb (Type_ entry) "folder")); [exact H|].
    apply Hlist. exact H.
  - apply Hlist. apply Adds_refl.
Qed.

Lemma PathCacheFs_List_Adds dir f n : Adds isListEvent n (snd (PathCacheFs.List dir f n)).
Proof.
  unfold PathCacheFs.List.
  assert (Hlist : forall f1 parentID n1,
             Adds isListEvent n n1 ->
             Adds isListEvent n
               (snd (let '(listed, n2) := listEntries (PathCacheFs.api f1) parentID n1 in
                     match listed with
                     | Err e => (@Err (list DirEntry) e, f1, n2)
                     | Ok fileEntries =>
                         let '(entries, f2) := PathCacheFs.listLoop dir fileEntries [] f1 in
                         (Ok entries, f2, n2)
                     end))).
  { intros f1 parentID n1 H1.
    pose proof (listEntries_Adds (PathCacheFs.api f1) parentID n1) as H2.
    apply (Adds_mono _ isListEvent) in H2; [|apply listOf_isListEvent].
    destruct (listEntries (PathCacheFs.api f1) parentID n1) as [[fileEntries|e] n2];
      cbn [snd] in H2.
    - destruct (PathCacheFs.listLoop dir fileEntries [] f1). eapply Adds_trans; eassumption.
    - eapply Adds_trans; eassumption. }
  destruct (negb (String.eqb (GoPath.Join2 (PathCacheFs.root f) dir) "")).
  - pose proof (PathCacheFs_findEntry_Adds (GoPath.Join2 (PathCacheFs.root f) dir) f n) as H.
    destruct (PathCacheFs.findEntry _ f n) as [[found f1] n1]. cbn [snd] in H.
    destruct found as [entry|err]; [|destruct err; exact H].
    destruct (negb (String.eqb (Type_ entry) "folder")); [exact H|].
    apply Hlist. exact H.
  - apply Hlist. apply Adds_refl.
Qed.

(** X23: reading changes nothing on the remote.  In both revisions
    [findEntry], [List] and [NewObject] send list requests and nothing
    else, in every state and whatever the remote answers. *)
Theorem reading_sends_list_requests_only (p : string) :
  (forall f n,
     Adds isListEvent n (snd (DirCacheFs.findEntry p f n))
     /\ Adds isListEvent n (snd (DirCacheFs.List p f n))
     /\ Adds isListEvent n (snd (DirCacheFs.NewObject p f n)))
  /\ (forall f n,
        Adds isListEvent n (snd (PathCacheFs.findEntry p f n))
        /\ Adds isListEvent n (snd (PathCacheFs.List p f n))
        /\ Adds isListEvent n (snd (PathCacheFs.NewObject p f n))).
Proof.
  split; intros f n.
  - split; [apply DirCacheFs_findEntry_Adds|].
    split; [apply DirCacheFs_List_Adds|apply DirCacheFs_readMetadata_Adds].
  - split; [apply PathCacheFs_findEntry_Adds|].
    split; [apply PathCacheFs_List_Adds|apply PathCacheFs_readMetadata_Adds].
Qed.

(** ** The errors of [List] *)

(** X24: what an error of [List] says.  In the [dirCache] revision every
    failure to resolve the directory, a failed request as much as a
    missing entry, is returned as [ErrorDirNotFound]; in the [pathCache]
    revision only "not found" is, and any other failure is returned as it
    is.  In both a directory path that resolves to an entry that is no
    folder gives [ErrorIsFile]; in these cases nothing is sent after the
    resolution.  Any other error of [List] is the error of the listing of
    the children of the folder the path resolved to, or of the root when
    the path is empty. *)
Theorem List_errors (dir : string) :
  (forall f n,
     let dirPath := GoPath.Join2 (DirCacheFs.root f) dir in
     let run := DirCacheFs.List dir f n in
     (forall err f1 n1,
        dirPath <> ""%string ->
        DirCacheFs.findEntry dirPath f n = (Err err, f1, n1) ->
        run = (Err ErrorDirNotFound, f1, n1))
     /\ (forall entry f1 n1,
           dirPath <> ""%string ->
           DirCacheFs.findEntry dirPath f n = (Ok entry, f1, n1) ->
           Type_ entry <> "folder"%string ->
           run = (Err ErrorIsFile, f1, n1))
     /\ (forall e f' n',
           run = (Err e, f', n') ->
           (exists err,
              dirPath <> ""%string
              /\ DirCacheFs.findEntry dirPath f n = (Err err, f', n')
              /\ e = ErrorDirNotFound)
           \/ (exists entry,
                 dirPath <> ""%string
                 /\ DirCacheFs.findEntry dirPath f n = (Ok entry, f', n')
                 /\ Type_ entry <> "folder"%string /\ e = ErrorIsFile)
           \/ (exists entry n1,
                 dirPath <> ""%string
                 /\ DirCacheFs.findEntry dirPath f n = (Ok entry, f', n1)
                 /\ Type_ entry = "folder"%string
                 /\ listEntries (DirCacheFs.api f') (Some (ID entry)) n1 = (Err e, n'))
           \/ (dirPath = ""%string /\ f' = f
               /\ listEntries (DirCacheFs.api f) None n = (Err e, n'))))
  /\ (forall f n,
        let dirPath := GoPath.Join2 (PathCacheFs.root f) dir in
        let run := PathCacheFs.List dir f n in
        (forall err f1 n1,
           dirPath <> ""%string ->
           PathCacheFs.findEntry dirPath f n = (Err err, f1, n1) ->
           run = (Err match err with
                      | ErrorObjectNotFound => ErrorDirNotFound
                      | _ => err
                      end, f1, n1))
        /\ (forall entry f1 n1,
              dirPath <> ""%string ->
              PathCacheFs.findEntry dirPath f n = (Ok entry, f1, n1) ->
              Type_ entry <> "folder"%string ->
              run = (Err ErrorIsFile, f1, n1))
        /\ (forall e f' n',
              run = (Err e, f', n') ->
              (exists err,
                 dirPath <> ""%string
                 /\ PathCacheFs.findEntry dirPath f n = (Err err, f', n')
                 /\ e = match err with
                        | ErrorObjectNotFound => ErrorDirNotFound
                        | _ => err
                        end)
              \/ (exists entry,
                    dirPath <> ""%string
                    /\ PathCacheFs.findEntry dirPath f n = (Ok entry, f', n')
                    /\ Type_ entry <> "folder"%string /\ e = ErrorIsFile)
              \/ (exists entry n1,
                    dirPath <> ""%string
                    /\ PathCacheFs.findEntry dirPath f n = (Ok entry, f', n1)
                    /\ Type_ entry = "folder"%string
                    /\ listEntries (PathCacheFs.api f') (Some (ID entry)) n1 = (Err e, n'))
              \/ (dirPath = ""%string /\ f' = f
                  /\ listEntries (PathCacheFs.api f) (PathCacheFs.rootID f) n = (Err e, n')))).
Proof.
  split.
  - intros f n dirPath run. subst run. unfold DirCacheFs.List. fold dirPath.
    destruct (String.eqb dirPath "") eqn:Hempty; cbn [negb].
    + apply String.eqb_eq in Hempty.
      split; [intros err f1 n1 Hne; congruence|].
      split; [intros entry f1 n1 Hne; congruence|].
      intros e f' n' Hrun.
      destruct (listEntries (DirCacheFs.api f) None n) as [[fileEntries|err] n2] eqn:Hlist.
      * destruct (DirCacheFs.listLoop dir fileEntries [] f). discriminate.
      * injection Hrun as <- <- <-. right. right. right. auto.
    + apply String.eqb_neq in Hempty.
      destruct (DirCacheFs.findEntry dirPath f n) as [[found f1] n1].
      destruct found as [entry|err].
      * destruct (String.eqb (Type_ entry) "folder") eqn:Hty; cbn [negb].
        -- apply String.eqb_eq in Hty.
           split; [intros err f1' n1' _ H; discriminate|].
           split; [intros entry' f1' n1' _ [= <- _ _] Hno; congruence|].
           intros e f' n' Hrun.
           destruct (listEntries (DirCacheFs.api f1) (Some (ID entry)) n1)
             as [[fileEntries|err] n2] eqn:Hlist.
           ++ destruct (DirCacheFs.listLoop dir fileEntries [] f1). discriminate.
           ++ injection Hrun as <- <- <-. right. right. left. exists entry, n1. auto.
        -- apply String.eqb_neq in Hty.
           split; [intros err f1' n1' _ H; discriminate|].
           split; [intros entry' f1' n1' _ [= _ <- <-] _; reflexivity|].
           intros e f' n' [= <- <- <-]. right. left. exists entry. auto.
      * split; [intros err' f1' n1' _ [= _ <- <-]; reflexivity|].
        split; [intros entry' f1' n1' _ H; discriminate|].
        intros e f' n' [= <- <- <-]. left. exists err. auto.
  - intros f n dirPath run. subst run. unfold PathCacheFs.List. fold dirPath.
    destruct (String.eqb dirPath "") eqn:Hempty; cbn [negb].
    + apply String.eqb_eq in Hempty.
      split; [intros err f1 n1 Hne; congruence|].
      split; [intros entry f1 n1 Hne; congruence|].
      intros e f' n' Hrun.
      destruct (listEntries (PathCacheFs.api f) (PathCacheFs.rootID f) n)
        as [[fileEntries|err] n2] eqn:Hlist.
      * destruct (PathCacheFs.listLoop dir fileEntries [] f). discriminate.
      * injection Hrun as <- <- <-. right. right. right. auto.
    + apply String.eqb_neq in Hempty.
      destruct (PathCacheFs.findEntry dirPath f n) as [[found f1] n1].
      destruct found as [entry|err].
      * destruct (String.eqb (Type_ entry) "folder") eqn:Hty; cbn [negb].
        -- apply String.eqb_eq in Hty.
           split; [intros err f1' n1' _ H; discriminate|].
           split; [intros entry' f1' n1' _ [= <- _ _] Hno; congruence|].
           intros e f' n' Hrun.
           destruct (listEntries (PathCacheFs.api f1) (Some (ID entry)) n1)
             as [[fileEntries|err] n2] eqn:Hlist.
           ++ destruct (PathCacheFs.listLoop dir fileEntries [] f1). discriminate.
           ++ injection Hrun as <- <- <-. right. right. left. exists entry, n1. auto.
        -- apply String.eqb_neq in Hty.
           split; [intros err f1' n1' _ H; discriminate|].
           split; [intros entry' f1' n1' _ [= _ <- <-] _; reflexivity|].
           intros e f' n' [= <- <- <-]. right. left. exists entry. auto.
      * split; [intros err' f1' n1' _ [= <- <- <-]; destruct err; reflexivity|].
        split; [intros entry' f1' n1' _ H; discriminate|].
        intros e f' n' Hrun. left. exists err.
        destruct err; injection Hrun as <- <- <-; auto.
Qed.

(** [List "A"] when the request for the root fails with a 503 and no
    attempt is left: the result is [ErrorDirNotFound] in the [dirCache]
    revision and the failure itself in the other. *)
Lemma List_errors_witness :
  DirCacheFs.List "A" (DirCacheFs.newFs "" (mkApiClient ApiGo 1))
    (mkNet [httpError 503 "503 Service Unavailable"] [])
  = (Err ErrorDirNotFound, DirCacheFs.newFs "" (mkApiClient ApiGo 1),
     mkNet [] [EvCall (ReqList None 1) (httpError 503 "503 Service Unavailable")])
  /\ PathCacheFs.List "A" (PathCacheFs.newFs "" (mkApiClient ApiGo 1))
       (mkNet [httpError 503 "503 Service Unavailable"] [])
     = (Err (ErrWrap "list failed" (ErrHTTP "503 Service Unavailable")),
        PathCacheFs.newFs "" (mkApiClient ApiGo 1),
        mkNet [] [EvCall (ReqList None 1) (httpError 503 "503 Service Unavailable")]).
Proof.
  split.
  - apply (proj1 (proj1 (List_errors "A") (DirCacheFs.newFs "" (mkApiClient ApiGo 1))
                    (mkNet [httpError 503 "503 Service Unavailable"] []))
             (ErrWrap "list failed" (ErrHTTP "503 Service Unavailable"))).
    + discriminate.
    + reflexivity.
  - apply (proj1 (proj2 (List_errors "A") (PathCacheFs.newFs "" (mkApiClient ApiGo 1))
                    (mkNet [httpError 503 "503 Service Unavailable"] []))
             (ErrWrap "list failed" (ErrHTTP "503 Service Unavailable"))).
    + discriminate.
    + reflexivity.
Defined.
